(** * HC-SR04 ultrasonic distance sensor node for Node-RED

    A shallow embedding of the two variants of the node that the repository
    holds, and the properties of its measurement state machine:

    - [RpiGpio]: [src/hcsr04.js], which drives the pins through the
      event-driven [rpi-gpio] library (a ['change'] listener on the echo pin,
      asynchronous writes with completion callbacks);
    - [Sysfs]: [src/unnamed/part_000], which drives the pins through the sysfs
      files with synchronous writes and polls the echo pin every millisecond.

    JavaScript values are modelled as the code uses them: [isReading] is a
    [bool]; [startTime] is [undefined], [null] or a BigInt and is only ever
    tested for truthiness, so it is an [option Z] ([None] for the two empty
    values) with the truthiness test written out (the BigInt [0n] is falsy);
    Numbers that hold measurements are binary64 floats ([PrimFloat]); timer
    handles are identifiers of entries in an explicit timer queue. *)

From Stdlib Require Import ZArith QArith Qabs Qround List String Ascii Bool Floats Lia.

Set Warnings "-inexact-float".
Import ListNotations.
Open Scope Z_scope.

(** ** JavaScript built-ins used by the node *)

Module Js.

Local Open Scope string_scope.

(** *** Decimal digits *)

Definition digit_char (d : Z) : ascii := ascii_of_nat (48 + Z.to_nat d).

(** The decimal digits of a non-negative integer, most significant first;
    [fuel] bounds the number of digits. *)
Fixpoint digits_fuel (fuel : nat) (n : Z) (acc : string) : string :=
  match fuel with
  | O => acc
  | S f =>
      let acc' := String (digit_char (n mod 10)) acc in
      if (n / 10 =? 0)%Z then acc' else digits_fuel f (n / 10) acc'
  end.

Definition digits (n : Z) : string :=
  digits_fuel (S (Z.to_nat (Z.log2 n))) n "".

(** ToString of an integral Number (valid below 10^21, where JavaScript
    switches to exponent notation). *)
Definition ToString_int (z : Z) : string :=
  if (z <? 0)%Z then "-" ++ digits (- z) else digits z.

(** *** Number(bigint): the nearest binary64 value, ties to even *)

Definition Number (z : Z) : float :=
  SF2Prim (binary_normalize prec emax z 0 false).

(** *** Number.prototype.toFixed(2)

    ECMAScript: let [n] be an integer for which [n / 10^2 - x] is as close
    to zero as possible; if there are two such [n], pick the larger.  The
    value of a finite float is [m * 2^e], so [n] is computed exactly. *)

Definition hundredths (m : positive) (e : Z) : Z :=
  if (0 <=? e)%Z then (100 * Zpos m * 2 ^ e)%Z
  else ((200 * Zpos m + 2 ^ (- e)) / 2 ^ (- e + 1))%Z.

(** [n] printed with two fraction digits: the digits of [n], padded with
    zeros to three, with a point before the last two. *)
Definition fixed2 (n : Z) : string :=
  digits (n / 100) ++ "."
    ++ String (digit_char (n mod 100 / 10))
         (String (digit_char (n mod 10)) "").

(** Beyond 10^21 JavaScript prints the number by ToString; the node only
    calls toFixed on distances between 2 and 400, so the digits of the
    integer are given there too. *)
Definition toFixed2 (x : float) : string :=
  match Prim2SF x with
  | S754_nan => "NaN"
  | S754_infinity s => if s then "-Infinity" else "Infinity"
  | S754_zero _ => "0.00"
  | S754_finite s m e => (if s then "-" else "") ++ fixed2 (hundredths m e)
  end.

(** *** parseFloat on a decimal literal [digits.digits] with optional sign

    The result is the binary64 value nearest to the decimal, which is what
    the correctly rounded division of the integer of all the digits by the
    power of ten gives. *)

Definition is_digit (c : ascii) : bool :=
  let n := Z.of_nat (nat_of_ascii c) in ((48 <=? n) && (n <=? 57))%Z.

Definition digit_val (c : ascii) : Z := Z.of_nat (nat_of_ascii c) - 48.

(** Reads the longest prefix of decimal digits: the value accumulated, the
    number of digits read, and the rest of the string. *)
Fixpoint read_digits (s : string) (acc : Z) (count : Z) : Z * Z * string :=
  match s with
  | String c rest =>
      if is_digit c then read_digits rest (10 * acc + digit_val c) (count + 1)
      else (acc, count, s)
  | EmptyString => (acc, count, s)
  end.

Definition nearest_ratio (neg : bool) (p : Z) (k : Z) : float :=
  match p with
  | Zpos m =>
      SF2Prim (SFdiv prec emax (S754_finite neg m 0)
                 (S754_finite false (Z.to_pos (10 ^ k)) 0))
  | _ => if neg then neg_zero else zero
  end.

(** The sign, the integer of all the digits and the number of fraction
    digits of a literal; [None] when there is no digit. *)
Definition parse_unsigned (neg : bool) (s : string) : option (bool * Z * Z) :=
  let '(ip, ni, rest) := read_digits s 0 0 in
  match rest with
  | String "." rest' =>
      let '(p, nf, _) := read_digits rest' ip 0 in
      if ((ni =? 0) && (nf =? 0))%Z then None else Some (neg, p, nf)
  | _ => if (ni =? 0)%Z then None else Some (neg, ip, 0%Z)
  end.

Definition parse_decimal (s : string) : option (bool * Z * Z) :=
  match s with
  | String "-" rest => parse_unsigned true rest
  | String "+" rest => parse_unsigned false rest
  | _ => parse_unsigned false s
  end.

Definition parseFloat (s : string) : float :=
  match parse_decimal s with
  | Some (neg, p, k) => nearest_ratio neg p k
  | None => nan
  end.

(** The rational number a float stands for (0 for what is not finite). *)
Definition value_of (x : float) : Q :=
  match Prim2SF x with
  | S754_finite s m e =>
      let q := if (0 <=? e)%Z then inject_Z (Zpos m * 2 ^ e)
               else Zpos m # Z.to_pos (2 ^ (- e)) in
      if s then Qopp q else q
  | _ => 0%Q
  end.

(** *** parseInt with no radix argument

    The argument goes through ToString, leading white space is dropped
    (strings are ASCII here, so this is ASCII white space), a sign is read, a [0x] or [0X] prefix selects radix 16, and the longest
    prefix of digits is the value; no digit at all gives NaN ([None]).  The
    value is an exact integer here (JavaScript rounds it to a binary64
    value past 2^53, which changes neither NaN nor zero); [-0] is [0], as
    both are falsy. *)

Definition is_space (c : ascii) : bool :=
  let n := Z.of_nat (nat_of_ascii c) in
  (((9 <=? n) && (n <=? 13)) || (n =? 32))%Z.

Fixpoint trim_left (s : string) : string :=
  match s with
  | String c rest => if is_space c then trim_left rest else s
  | EmptyString => s
  end.

Definition radix_digit (radix : Z) (c : ascii) : option Z :=
  let n := Z.of_nat (nat_of_ascii c) in
  let v :=
    if ((48 <=? n) && (n <=? 57))%Z then (n - 48)%Z
    else if ((97 <=? n) && (n <=? 122))%Z then (n - 87)%Z
    else if ((65 <=? n) && (n <=? 90))%Z then (n - 55)%Z
    else 36%Z in
  if (v <? radix)%Z then Some v else None.

Fixpoint read_radix (radix : Z) (s : string) (acc : Z) (count : Z) : Z * Z :=
  match s with
  | String c rest =>
      match radix_digit radix c with
      | Some v => read_radix radix rest (radix * acc + v) (count + 1)
      | None => (acc, count)
      end
  | EmptyString => (acc, count)
  end.

Definition parseInt_string (s : string) : option Z :=
  let s1 := trim_left s in
  let '(neg, s2) :=
    match s1 with
    | String "-" r => (true, r)
    | String "+" r => (false, r)
    | _ => (false, s1)
    end in
  let '(radix, s3) :=
    match s2 with
    | String "0" (String "x" r) => (16%Z, r)
    | String "0" (String "X" r) => (16%Z, r)
    | _ => (10%Z, s2)
    end in
  let '(v, count) := read_radix radix s3 0 0 in
  if (count =? 0)%Z then None else Some (if neg then (- v)%Z else v).

(** A field of the configuration object: absent, a string (what the
    editor's form stores) or an integral number. *)
Inductive value :=
| Undefined
| Str (s : string)
| Int (z : Z).

Definition ToString (v : value) : string :=
  match v with
  | Undefined => "undefined"
  | Str s => s
  | Int z => ToString_int z
  end.

Definition parseInt (v : value) : option Z := parseInt_string (ToString v).

(** [x || d] on the result of parseInt: NaN and zero are falsy. *)
Definition or_default (x : option Z) (d : Z) : Z :=
  match x with
  | Some 0%Z | None => d
  | Some z => z
  end.

(** Truthiness of a variable that holds [undefined], [null] or a BigInt. *)
Definition truthy (t : option Z) : bool :=
  match t with
  | Some z => negb (z =? 0)%Z
  | None => false
  end.

End Js.

(** ** The timer queue of the event loop

    [setTimeout] and [setInterval] add an entry that is due [after]
    milliseconds from now; Node.js replaces a delay that is not between 1
    and 2^31-1 by 1, so the [0.01] of the trigger pulse is one millisecond.
    [clearInterval] removes the entry whose handle it is given. *)

Module Timers.

Section Queue.

Variable C : Type.

Record timer := { tid : nat; callback : C; due : Z; repeat : option Z }.

Definition TIMEOUT_MAX : Q := inject_Z (2 ^ 31 - 1).

Definition delay (after : Q) : Z :=
  if Qle_bool 1 after && Qle_bool after TIMEOUT_MAX then Qfloor after else 1.

Definition clear (id : nat) (q : list timer) : list timer :=
  filter (fun t => negb (Nat.eqb (tid t) id)) q.

Definition find (id : nat) (q : list timer) : option timer :=
  List.find (fun t => Nat.eqb (tid t) id) q.

(** The entry fired at time [now]: a timeout leaves the queue, an
    interval is due again one period later. *)
Definition fired (now : Z) (t : timer) (q : list timer) : list timer :=
  match repeat t with
  | Some period =>
      map (fun u => if Nat.eqb (tid u) (tid t)
                    then {| tid := tid u; callback := callback u;
                            due := now + period; repeat := repeat u |}
                    else u) q
  | None => clear (tid t) q
  end.

Definition is_interval (t : timer) : bool :=
  match repeat t with Some _ => true | None => false end.

(** The entry that is due first; among entries due together, the one
    created first. *)
Fixpoint earliest (q : list timer) : option timer :=
  match q with
  | [] => None
  | t :: rest =>
      match earliest rest with
      | Some u => if due u <? due t then Some u else Some t
      | None => Some t
      end
  end.

End Queue.

Arguments tid {C} _.
Arguments callback {C} _.
Arguments due {C} _.
Arguments repeat {C} _.
Arguments clear {C} _ _.
Arguments find {C} _ _.
Arguments fired {C} _ _ _.
Arguments is_interval {C} _.
Arguments earliest {C} _.

End Timers.

(** ** What the node does to the outside *)

Inductive fill := Red | Green | Yellow | Grey.
Inductive shape := Ring | Dot.

Record status := { sfill : fill; sshape : shape; text : string }.

(** The message of [node.send]. *)
Record reading := { payload : float; topic : string; unit : string; timestamp : Z }.

Inductive output :=
| Send (m : reading)                  (* node.send *)
| Status (s : status)                 (* node.status *)
| Error (msg : string)                (* node.error *)
| Log (msg : string)                  (* node.log *)
| GpioWrite (pin : Z) (level : bool)  (* a write of a level to a pin *)
| GpioOther (what : string).          (* setup, export, direction, destroy *)

(** [msg.payload] of an input message. *)
Inductive msg_payload :=
| PStr (s : string)
| PBool (b : bool)
| POther.

Definition is_send (o : output) : bool :=
  match o with Send _ => true | _ => false end.

Definition is_status (o : output) : bool :=
  match o with Status _ => true | _ => false end.

Definition is_status_text (t : string) (o : output) : bool :=
  match o with Status s => String.eqb (text s) t | _ => false end.

Definition readings (outs : list output) : list output := filter is_send outs.

Definition statuses (outs : list output) : list output := filter is_status outs.

Definition count_status (t : string) (outs : list output) : nat :=
  List.length (filter (is_status_text t) outs).

(** ** The measurement, shared by the two variants (their falling-edge
    branches are the same text) *)

Module Echo.

(** [Number(endTime - startTime) / 1000], then [duration / 2 / 29.1]. *)
Definition duration (startTime endTime : Z) : float :=
  (Js.Number (endTime - startTime) / 1000)%float.

Definition distance_of (duration : float) : float :=
  (duration / 2 / 29.1)%float.

Definition in_range (distance : float) : bool :=
  ((2 <=? distance)%float && (distance <=? 400)%float)%bool.

(** What the falling edge reports once [isReading] is reset. *)
Definition report (distance : float) (now : Z) : list output :=
  if in_range distance then
    [ Send {| payload := Js.parseFloat (Js.toFixed2 distance);
              topic := "distance"; unit := "cm"; timestamp := now |};
      Status {| sfill := Green; sshape := Dot;
                text := Js.toFixed2 distance ++ " cm" |} ]
  else
    [ Status {| sfill := Yellow; sshape := Ring; text := "out of range" |} ].

End Echo.


(** The configuration object handed to the constructor. *)
Module Config.
Record t := { trigger : Js.value; echo : Js.value; interval : Js.value }.
End Config.

(** ** [src/hcsr04.js]: the variant on the rpi-gpio library *)

Module RpiGpio.

(** The functions the node hands to [setTimeout] and [setInterval]. *)
Inductive callback :=
| CbStartMeasurements   (* setTimeout(startMeasurements, 100) *)
| CbTick                (* the setInterval of startMeasurements *)
| CbPulseLow            (* the end of the trigger pulse *)
| CbSafety.             (* the safety timeout of a measurement *)

(** How far the constructor's chain of [gpio.setup] callbacks is. *)
Inductive phase :=
| NoLibrary             (* require('rpi-gpio') threw: the constructor returned *)
| AwaitTriggerSetup
| AwaitEchoSetup
| SetupFailed
| Listening.            (* the 'change' listener is registered *)

Record node := {
  triggerPin : Z;
  echoPin : Z;
  interval : Z;
  setup : phase;
  measurementTimer : option nat;
  isReading : bool;
  startTime : option Z;
  clock : Z;
  timers : list (Timers.timer callback);
  next_id : nat
}.

Definition set_isReading (b : bool) (n : node) : node :=
  {| triggerPin := triggerPin n; echoPin := echoPin n; interval := interval n;
     setup := setup n; measurementTimer := measurementTimer n;
     isReading := b; startTime := startTime n; clock := clock n;
     timers := timers n; next_id := next_id n |}.

Definition set_startTime (t : option Z) (n : node) : node :=
  {| triggerPin := triggerPin n; echoPin := echoPin n; interval := interval n;
     setup := setup n; measurementTimer := measurementTimer n;
     isReading := isReading n; startTime := t; clock := clock n;
     timers := timers n; next_id := next_id n |}.

Definition set_setup (p : phase) (n : node) : node :=
  {| triggerPin := triggerPin n; echoPin := echoPin n; interval := interval n;
     setup := p; measurementTimer := measurementTimer n;
     isReading := isReading n; startTime := startTime n; clock := clock n;
     timers := timers n; next_id := next_id n |}.

Definition set_measurementTimer (h : option nat) (n : node) : node :=
  {| triggerPin := triggerPin n; echoPin := echoPin n; interval := interval n;
     setup := setup n; measurementTimer := h;
     isReading := isReading n; startTime := startTime n; clock := clock n;
     timers := timers n; next_id := next_id n |}.

Definition set_clock (t : Z) (n : node) : node :=
  {| triggerPin := triggerPin n; echoPin := echoPin n; interval := interval n;
     setup := setup n; measurementTimer := measurementTimer n;
     isReading := isReading n; startTime := startTime n; clock := t;
     timers := timers n; next_id := next_id n |}.

Definition set_timers (q : list (Timers.timer callback)) (n : node) : node :=
  {| triggerPin := triggerPin n; echoPin := echoPin n; interval := interval n;
     setup := setup n; measurementTimer := measurementTimer n;
     isReading := isReading n; startTime := startTime n; clock := clock n;
     timers := q; next_id := next_id n |}.

(** A new entry of the queue; the handle is its identifier. *)
Definition schedule (cb : callback) (after : Q) (period : option Z) (n : node)
  : node * nat :=
  let t := {| Timers.tid := next_id n; Timers.callback := cb;
              Timers.due := clock n + Timers.delay after;
              Timers.repeat := period |} in
  ({| triggerPin := triggerPin n; echoPin := echoPin n; interval := interval n;
      setup := setup n; measurementTimer := measurementTimer n;
      isReading := isReading n; startTime := startTime n; clock := clock n;
      timers := timers n ++ [t]; next_id := S (next_id n) |}, next_id n).

Definition setTimeout (cb : callback) (after : Q) (n : node) : node :=
  fst (schedule cb after None n).

Definition setInterval (cb : callback) (after : Q) (n : node) : node * nat :=
  schedule cb after (Some (Timers.delay after)) n.

Definition clearInterval (id : nat) (n : node) : node :=
  set_timers (Timers.clear id (timers n)) n.

(** *** The constructor *)

Definition HCSR04Node (config : Config.t) (library : option string)
  : node * list output :=
  let n := {| triggerPin := Js.or_default (Js.parseInt (Config.trigger config)) 18;
              echoPin := Js.or_default (Js.parseInt (Config.echo config)) 24;
              interval := Js.or_default (Js.parseInt (Config.interval config)) 1000;
              setup := AwaitTriggerSetup;
              measurementTimer := None;
              isReading := false;
              startTime := None;
              clock := 0;
              timers := [];
              next_id := O |} in
  match library with
  | Some msg =>
      (set_setup NoLibrary n,
       [ Error ("Failed to load rpi-gpio library: " ++ msg);
         Status {| sfill := Red; sshape := Ring; text := "rpi-gpio not available" |} ])
  | None =>
      (setTimeout CbStartMeasurements 100 n,
       [ GpioOther "setMode"; GpioOther "setup trigger" ])
  end.

(** The callbacks of the two [gpio.setup] calls. *)
Definition on_trigger_setup (err : option string) (n : node) : node * list output :=
  match err with
  | Some msg =>
      (set_setup SetupFailed n,
       [ Error ("Failed to setup trigger pin: " ++ msg);
         Status {| sfill := Red; sshape := Ring; text := "trigger pin setup failed" |} ])
  | None => (set_setup AwaitEchoSetup n, [ GpioOther "setup echo" ])
  end.

Definition on_echo_setup (err : option string) (n : node) : node * list output :=
  match err with
  | Some msg =>
      (set_setup SetupFailed n,
       [ Error ("Failed to setup echo pin: " ++ msg);
         Status {| sfill := Red; sshape := Ring; text := "echo pin setup failed" |} ])
  | None =>
      (set_setup Listening n,
       [ Status {| sfill := Green; sshape := Dot; text := "ready" |} ])
  end.

(** *** The ['change'] listener

    [hr] is what [process.hrtime.bigint()] returns during the call and
    [now] what [Date.now()] returns. *)
Definition on_change (channel : Z) (value : bool) (hr now : Z) (n : node)
  : node * list output :=
  if (channel =? echoPin n) && isReading n then
    if value then
      (set_startTime (Some hr) n, [])
    else
      match startTime n with
      | Some start =>
          if Js.truthy (startTime n) then
            let endTime := hr in
            let duration := Echo.duration start endTime in
            let distance := Echo.distance_of duration in
            (set_isReading false n, Echo.report distance now)
          else (n, [])
      | None => (n, [])
      end
  else (n, []).

(** *** triggerMeasurement

    [throws] is the exception of the [gpio.write] call, if it throws
    instead of delivering its result to the callback. *)
Definition triggerMeasurement (throws : option string) (n : node)
  : node * list output :=
  if isReading n then (n, [])
  else
    let n1 := set_startTime None (set_isReading true n) in
    match throws with
    | Some msg =>
        (set_isReading false n1,
         [ Error ("Failed to trigger measurement: " ++ msg);
           Status {| sfill := Red; sshape := Ring; text := "trigger failed" |} ])
    | None =>
        (setTimeout CbSafety 100 n1, [ GpioWrite (triggerPin n) true ])
    end.

(** The callback of [gpio.write(node.triggerPin, true, ...)]. *)
Definition on_write_high (err : option string) (n : node) : node * list output :=
  match err with
  | Some msg =>
      (set_isReading false n, [ Error ("Failed to write HIGH to trigger: " ++ msg) ])
  | None => (setTimeout CbPulseLow (1 # 100) n, [])
  end.

(** The end of the pulse, and the callback of its [gpio.write]. *)
Definition pulse_low (n : node) : node * list output :=
  (n, [ GpioWrite (triggerPin n) false ]).

Definition on_write_low (err : option string) (n : node) : node * list output :=
  match err with
  | Some msg =>
      (set_isReading false n, [ Error ("Failed to write LOW to trigger: " ++ msg) ])
  | None => (n, [])
  end.

(** The safety timeout. *)
Definition safety_timeout (n : node) : node * list output :=
  if isReading n then
    (set_isReading false n,
     [ Status {| sfill := Yellow; sshape := Ring; text := "timeout" |} ])
  else (n, []).

(** *** startMeasurements *)
Definition startMeasurements (throws : option string) (n : node)
  : node * list output :=
  let '(n1, outs) := triggerMeasurement throws n in
  let '(n2, id) := setInterval CbTick (inject_Z (interval n1)) n1 in
  (set_measurementTimer (Some id) n2, outs).

(** *** The ['input'] handler *)
Definition on_input (p : msg_payload) (throws : option string) (n : node)
  : node * list output :=
  match p with
  | PBool true => triggerMeasurement throws n
  | PStr s =>
      if String.eqb s "trigger" then triggerMeasurement throws n
      else if String.eqb s "start" then
        let n1 := match measurementTimer n with
                  | Some id => clearInterval id n
                  | None => n
                  end in
        startMeasurements throws n1
      else if String.eqb s "stop" then
        let n1 := match measurementTimer n with
                  | Some id => set_measurementTimer None (clearInterval id n)
                  | None => n
                  end in
        (n1, [ Status {| sfill := Grey; sshape := Ring; text := "stopped" |} ])
      else (n, [])
  | _ => (n, [])
  end.

(** *** The ['close'] handler

    The two calls of the try block may throw. *)
Inductive cleanup :=
| CleanupDone
| WriteThrows (msg : string)
| DestroyThrows (msg : string).

Definition on_close (c : cleanup) (n : node) : node * list output :=
  let n1 := match measurementTimer n with
            | Some id => set_measurementTimer None (clearInterval id n)
            | None => n
            end in
  let outs :=
    match c with
    | CleanupDone => [ GpioWrite (triggerPin n) false; GpioOther "destroy" ]
    | WriteThrows msg => [ Error ("Error during cleanup: " ++ msg) ]
    | DestroyThrows msg =>
        [ GpioWrite (triggerPin n) false; Error ("Error during cleanup: " ++ msg) ]
    end in
  (n1, outs ++ [ Status {| sfill := Red; sshape := Ring; text := "disconnected" |} ]).

(** *** The event loop *)

Definition run_callback (cb : callback) (throws : option string) (n : node)
  : node * list output :=
  match cb with
  | CbStartMeasurements => startMeasurements throws n
  | CbTick => triggerMeasurement throws n
  | CbPulseLow => pulse_low n
  | CbSafety => safety_timeout n
  end.

(** The timer [id] fires, if it is pending and due. *)
Definition fire (id : nat) (throws : option string) (n : node)
  : node * list output :=
  match Timers.find id (timers n) with
  | Some t =>
      if Timers.due t <=? clock n then
        run_callback (Timers.callback t) throws
          (set_timers (Timers.fired (clock n) t (timers n)) n)
      else (n, [])
  | None => (n, [])
  end.

Inductive event :=
| SetupTriggerDone (err : option string)
| SetupEchoDone (err : option string)
| Change (channel : Z) (value : bool) (hr now : Z)
| WriteHighDone (err : option string)
| WriteLowDone (err : option string)
| TimerFires (id : nat) (throws : option string)
| Input (p : msg_payload) (throws : option string)
| Close (c : cleanup).

(** One turn of the event loop at time [t] (milliseconds since the node
    was created).  A node whose library did not load has registered
    nothing; the ['change'] listener exists once both pins are set up. *)
Definition dispatch (t : Z) (e : event) (n0 : node) : node * list output :=
  let n := set_clock t n0 in
  match setup n, e with
  | NoLibrary, _ => (n, [])
  | AwaitTriggerSetup, SetupTriggerDone err => on_trigger_setup err n
  | AwaitEchoSetup, SetupEchoDone err => on_echo_setup err n
  | Listening, Change channel value hr now => on_change channel value hr now n
  | _, WriteHighDone err => on_write_high err n
  | _, WriteLowDone err => on_write_low err n
  | _, TimerFires id throws => fire id throws n
  | _, Input p throws => on_input p throws n
  | _, Close c => on_close c n
  | _, _ => (n, [])
  end.

Fixpoint run (trace : list (Z * event)) (n : node) : node * list output :=
  match trace with
  | [] => (n, [])
  | (t, e) :: rest =>
      let '(n1, o1) := dispatch t e n in
      let '(n2, o2) := run rest n1 in
      (n2, o1 ++ o2)
  end.

(** Time passes until [until] with no event from outside: the timers that
    come due fire in order, none of their calls throwing. *)
Fixpoint advance (fuel : nat) (until : Z) (n : node) : node * list output :=
  match fuel with
  | O => (n, [])
  | S f =>
      match Timers.earliest (timers n) with
      | Some t =>
          if Timers.due t <=? until then
            let '(n1, o1) :=
              fire (Timers.tid t) None (set_clock (Z.max (clock n) (Timers.due t)) n) in
            let '(n2, o2) := advance f until n1 in
            (n2, o1 ++ o2)
          else (set_clock (Z.max (clock n) until) n, [])
      | None => (set_clock (Z.max (clock n) until) n, [])
      end
  end.

(** A trace played on the clock: before each event from outside, the timers
    that came due by then fire. *)
Fixpoint play (fuel : nat) (trace : list (Z * event)) (n : node)
  : node * list output :=
  match trace with
  | [] => (n, [])
  | (t, e) :: rest =>
      let '(n0, o0) := advance fuel t n in
      let '(n1, o1) := dispatch t e n0 in
      let '(n2, o2) := play fuel rest n1 in
      (n2, o0 ++ o1 ++ o2)
  end.

(** The periodic timers that are active, and the trigger pulses begun. *)
Definition active_intervals (n : node) : list (Timers.timer callback) :=
  filter Timers.is_interval (timers n).

Definition pulses (n : node) (outs : list output) : nat :=
  List.length (filter (fun o => match o with
                                | GpioWrite pin true => pin =? triggerPin n
                                | _ => false
                                end) outs).

End RpiGpio.

(** ** [src/unnamed/part_000]: the variant on the sysfs files *)

Module Sysfs.

Inductive callback :=
| CbInitialize          (* setTimeout(function() { initializeGpio() ... }, 100) *)
| CbStartMeasurements   (* setTimeout(startMeasurements, 100) *)
| CbTick                (* the setInterval of startMeasurements *)
| CbEchoPoll            (* echoWatcher, every millisecond *)
| CbPulseLow            (* the end of the trigger pulse *)
| CbSafety.             (* the safety timeout of a measurement *)

Record node := {
  triggerPin : Z;
  echoPin : Z;
  interval : Z;
  measurementTimer : option nat;
  isReading : bool;
  startTime : option Z;
  echoWatcher : option nat;
  isInitialized : bool;
  lastValue : option string;
  clock : Z;
  timers : list (Timers.timer callback);
  next_id : nat
}.

Definition set_isReading (b : bool) (n : node) : node :=
  {| triggerPin := triggerPin n; echoPin := echoPin n; interval := interval n;
     measurementTimer := measurementTimer n; isReading := b;
     startTime := startTime n; echoWatcher := echoWatcher n;
     isInitialized := isInitialized n; lastValue := lastValue n;
     clock := clock n; timers := timers n; next_id := next_id n |}.

Definition set_startTime (t : option Z) (n : node) : node :=
  {| triggerPin := triggerPin n; echoPin := echoPin n; interval := interval n;
     measurementTimer := measurementTimer n; isReading := isReading n;
     startTime := t; echoWatcher := echoWatcher n;
     isInitialized := isInitialized n; lastValue := lastValue n;
     clock := clock n; timers := timers n; next_id := next_id n |}.

Definition set_measurementTimer (h : option nat) (n : node) : node :=
  {| triggerPin := triggerPin n; echoPin := echoPin n; interval := interval n;
     measurementTimer := h; isReading := isReading n;
     startTime := startTime n; echoWatcher := echoWatcher n;
     isInitialized := isInitialized n; lastValue := lastValue n;
     clock := clock n; timers := timers n; next_id := next_id n |}.

Definition set_echoWatcher (h : option nat) (n : node) : node :=
  {| triggerPin := triggerPin n; echoPin := echoPin n; interval := interval n;
     measurementTimer := measurementTimer n; isReading := isReading n;
     startTime := startTime n; echoWatcher := h;
     isInitialized := isInitialized n; lastValue := lastValue n;
     clock := clock n; timers := timers n; next_id := next_id n |}.

Definition set_isInitialized (b : bool) (n : node) : node :=
  {| triggerPin := triggerPin n; echoPin := echoPin n; interval := interval n;
     measurementTimer := measurementTimer n; isReading := isReading n;
     startTime := startTime n; echoWatcher := echoWatcher n;
     isInitialized := b; lastValue := lastValue n;
     clock := clock n; timers := timers n; next_id := next_id n |}.

Definition set_lastValue (v : option string) (n : node) : node :=
  {| triggerPin := triggerPin n; echoPin := echoPin n; interval := interval n;
     measurementTimer := measurementTimer n; isReading := isReading n;
     startTime := startTime n; echoWatcher := echoWatcher n;
     isInitialized := isInitialized n; lastValue := v;
     clock := clock n; timers := timers n; next_id := next_id n |}.

Definition set_clock (t : Z) (n : node) : node :=
  {| triggerPin := triggerPin n; echoPin := echoPin n; interval := interval n;
     measurementTimer := measurementTimer n; isReading := isReading n;
     startTime := startTime n; echoWatcher := echoWatcher n;
     isInitialized := isInitialized n; lastValue := lastValue n;
     clock := t; timers := timers n; next_id := next_id n |}.

Definition set_timers (q : list (Timers.timer callback)) (n : node) : node :=
  {| triggerPin := triggerPin n; echoPin := echoPin n; interval := interval n;
     measurementTimer := measurementTimer n; isReading := isReading n;
     startTime := startTime n; echoWatcher := echoWatcher n;
     isInitialized := isInitialized n; lastValue := lastValue n;
     clock := clock n; timers := q; next_id := next_id n |}.

Definition schedule (cb : callback) (after : Q) (period : option Z) (n : node)
  : node * nat :=
  let t := {| Timers.tid := next_id n; Timers.callback := cb;
              Timers.due := clock n + Timers.delay after;
              Timers.repeat := period |} in
  ({| triggerPin := triggerPin n; echoPin := echoPin n; interval := interval n;
      measurementTimer := measurementTimer n; isReading := isReading n;
      startTime := startTime n; echoWatcher := echoWatcher n;
      isInitialized := isInitialized n; lastValue := lastValue n;
      clock := clock n; timers := timers n ++ [t]; next_id := S (next_id n) |},
   next_id n).

Definition setTimeout (cb : callback) (after : Q) (n : node) : node :=
  fst (schedule cb after None n).

Definition setInterval (cb : callback) (after : Q) (n : node) : node * nat :=
  schedule cb after (Some (Timers.delay after)) n.

Definition clearInterval (id : nat) (n : node) : node :=
  set_timers (Timers.clear id (timers n)) n.

(** *** What the file system answers during one callback *)

Inductive export_result :=
| Present                   (* the pin's directory exists already *)
| Exported                  (* the export file is written, the directory appears *)
| NotExported               (* it is written, the directory does not appear in time *)
| ExportThrows (msg : string).

Record init_io := {
  export_trigger : export_result;
  direction_trigger : option string;   (* the exception of a write, if any *)
  write_trigger : option string;
  export_echo : export_result;
  direction_echo : option string;
  edge_echo : option string
}.

Record io := {
  hr : Z;                        (* process.hrtime.bigint() *)
  now : Z;                       (* Date.now() *)
  write : option string;         (* the exception of writing a value file *)
  read : string + string;        (* the echo value, trimmed, or the exception *)
  init : init_io
}.

(** *** The helpers *)

Definition writeGpio (err : option string) (pin : Z) (value : bool)
  : bool * list output :=
  match err with
  | None => (true, [ GpioWrite pin value ])
  | Some msg =>
      (false, [ Error ("GPIO write error on pin " ++ Js.ToString_int pin ++ ": " ++ msg) ])
  end.

(** exportPin writes the export file only when the pin's directory is not
    there yet, waits up to a second for it, and returns whether it exists. *)
Definition exportPin (r : export_result) (pin : Z) : bool * list output :=
  match r with
  | Present => (true, [])
  | Exported => (true, [ GpioOther "export" ])
  | NotExported => (false, [ GpioOther "export" ])
  | ExportThrows msg =>
      (false, [ Error ("Failed to export pin " ++ Js.ToString_int pin ++ ": " ++ msg) ])
  end.

Definition setPinDirection (err : option string) (pin : Z) (direction : string)
  : bool * list output :=
  match err with
  | None => (true, [ GpioOther ("direction " ++ direction) ])
  | Some msg =>
      (false, [ Error ("Failed to set direction for pin " ++ Js.ToString_int pin
                        ++ ": " ++ msg) ])
  end.

Definition failed (t : string) : list output :=
  [ Status {| sfill := Red; sshape := Ring; text := t |} ].

(** *** initializeGpio: the result, with the node as it leaves it *)
Definition initializeGpio (f : init_io) (n : node) : bool * node * list output :=
  let '(ok1, o1) := exportPin (export_trigger f) (triggerPin n) in
  if negb ok1 then (false, n, o1 ++ failed "failed to export trigger pin") else
  let '(ok2, o2) := setPinDirection (direction_trigger f) (triggerPin n) "out" in
  if negb ok2 then (false, n, o1 ++ o2 ++ failed "failed to set trigger direction") else
  let '(ok3, o3) := writeGpio (write_trigger f) (triggerPin n) false in
  if negb ok3 then (false, n, o1 ++ o2 ++ o3 ++ failed "failed to initialize trigger") else
  let '(ok4, o4) := exportPin (export_echo f) (echoPin n) in
  if negb ok4 then (false, n, o1 ++ o2 ++ o3 ++ o4 ++ failed "failed to export echo pin") else
  let '(ok5, o5) := setPinDirection (direction_echo f) (echoPin n) "in" in
  if negb ok5 then
    (false, n, o1 ++ o2 ++ o3 ++ o4 ++ o5 ++ failed "failed to set echo direction") else
  match edge_echo f with
  | Some msg =>
      (false, n, o1 ++ o2 ++ o3 ++ o4 ++ o5
                   ++ [ Error ("Failed to set echo edge detection: " ++ msg) ])
  | None =>
      let '(n1, id) := setInterval CbEchoPoll 1 (set_lastValue None n) in
      (true, set_isInitialized true (set_echoWatcher (Some id) n1),
       o1 ++ o2 ++ o3 ++ o4 ++ o5 ++ [ GpioOther "edge both" ]
          ++ [ Status {| sfill := Green; sshape := Dot; text := "ready" |} ])
  end.

Definition initialize (f : init_io) (n : node) : node * list output :=
  let '(ok, n1, outs) := initializeGpio f n in
  (n1, if ok then outs ++ [ Log "HC-SR04 node initialized successfully" ] else outs).

(** *** The echo watcher: one poll of the echo pin *)
Definition echo_poll (f : io) (n : node) : node * list output :=
  if negb (isReading n) then (n, [])
  else
    match read f with
    | inr msg =>
        (n, if isInitialized n then [ Error ("Echo pin read error: " ++ msg) ] else [])
    | inl currentValue =>
        let '(n1, outs) :=
          match lastValue n with
          | Some last =>
              if negb (String.eqb currentValue last) then
                if String.eqb currentValue "1" && String.eqb last "0" then
                  (set_startTime (Some (hr f)) n, [])
                else if String.eqb currentValue "0" && String.eqb last "1" then
                  match startTime n with
                  | Some start =>
                      if Js.truthy (startTime n) then
                        let endTime := hr f in
                        let duration := Echo.duration start endTime in
                        let distance := Echo.distance_of duration in
                        (set_isReading false n, Echo.report distance (now f))
                      else (n, [])
                  | None => (n, [])
                  end
                else (n, [])
              else (n, [])
          | None => (n, [])
          end in
        (set_lastValue (Some currentValue) n1, outs)
    end.

(** *** triggerMeasurement

    [writeGpio] catches what the write throws, so the catch of this
    function's own try block has nothing to catch. *)
Definition triggerMeasurement (f : io) (n : node) : node * list output :=
  if isReading n || negb (isInitialized n) then (n, [])
  else
    let n1 := set_startTime None (set_isReading true n) in
    let '(ok, outs) := writeGpio (write f) (triggerPin n) true in
    if ok then
      (setTimeout CbSafety 100 (setTimeout CbPulseLow (1 # 100) n1), outs)
    else (set_isReading false n1, outs).

(** The end of the pulse: the result of the write is not looked at. *)
Definition pulse_low (f : io) (n : node) : node * list output :=
  (n, snd (writeGpio (write f) (triggerPin n) false)).

Definition safety_timeout (n : node) : node * list output :=
  if isReading n then
    (set_isReading false n,
     [ Status {| sfill := Yellow; sshape := Ring; text := "timeout" |} ])
  else (n, []).

Definition startMeasurements (f : io) (n : node) : node * list output :=
  let '(n1, outs) := triggerMeasurement f n in
  let '(n2, id) := setInterval CbTick (inject_Z (interval n1)) n1 in
  (set_measurementTimer (Some id) n2, outs).

Definition on_input (p : msg_payload) (f : io) (n : node) : node * list output :=
  match p with
  | PBool true => triggerMeasurement f n
  | PStr s =>
      if String.eqb s "trigger" then triggerMeasurement f n
      else if String.eqb s "start" then
        let n1 := match measurementTimer n with
                  | Some id => clearInterval id n
                  | None => n
                  end in
        startMeasurements f n1
      else if String.eqb s "stop" then
        let n1 := match measurementTimer n with
                  | Some id => set_measurementTimer None (clearInterval id n)
                  | None => n
                  end in
        (n1, [ Status {| sfill := Grey; sshape := Ring; text := "stopped" |} ])
      else (n, [])
  | _ => (n, [])
  end.

(** *** The ['close'] handler *)

Inductive unexport := Unexported | Absent | UnexportThrows.

Record close_io := {
  close_write : option string;
  unexport_trigger : unexport;
  unexport_echo : unexport
}.

Definition unexports (c : close_io) : list output :=
  match unexport_trigger c with
  | UnexportThrows => []
  | Unexported =>
      GpioOther "unexport trigger"
        :: match unexport_echo c with
           | Unexported => [ GpioOther "unexport echo" ]
           | _ => []
           end
  | Absent =>
      match unexport_echo c with
      | Unexported => [ GpioOther "unexport echo" ]
      | _ => []
      end
  end.

Definition on_close (c : close_io) (n : node) : node * list output :=
  let n1 := set_isReading false (set_isInitialized false n) in
  let n2 := match measurementTimer n1 with
            | Some id => set_measurementTimer None (clearInterval id n1)
            | None => n1
            end in
  let n3 := match echoWatcher n2 with
            | Some id => set_echoWatcher None (clearInterval id n2)
            | None => n2
            end in
  (n3, snd (writeGpio (close_write c) (triggerPin n) false) ++ unexports c
         ++ [ Status {| sfill := Red; sshape := Ring; text := "disconnected" |} ]).

(** *** The constructor and the event loop *)

Definition HCSR04Node (config : Config.t) : node :=
  setTimeout CbStartMeasurements 100
    (setTimeout CbInitialize 100
       {| triggerPin := Js.or_default (Js.parseInt (Config.trigger config)) 18;
          echoPin := Js.or_default (Js.parseInt (Config.echo config)) 24;
          interval := Js.or_default (Js.parseInt (Config.interval config)) 1000;
          measurementTimer := None;
          isReading := false;
          startTime := None;
          echoWatcher := None;
          isInitialized := false;
          lastValue := None;
          clock := 0;
          timers := [];
          next_id := O |}).

Definition run_callback (cb : callback) (f : io) (n : node) : node * list output :=
  match cb with
  | CbInitialize => initialize (init f) n
  | CbStartMeasurements => startMeasurements f n
  | CbTick => triggerMeasurement f n
  | CbEchoPoll => echo_poll f n
  | CbPulseLow => pulse_low f n
  | CbSafety => safety_timeout n
  end.

Definition fire (id : nat) (f : io) (n : node) : node * list output :=
  match Timers.find id (timers n) with
  | Some t =>
      if Timers.due t <=? clock n then
        run_callback (Timers.callback t) f
          (set_timers (Timers.fired (clock n) t (timers n)) n)
      else (n, [])
  | None => (n, [])
  end.

Inductive event :=
| TimerFires (id : nat) (f : io)
| Input (p : msg_payload) (f : io)
| Close (c : close_io).

Definition dispatch (t : Z) (e : event) (n0 : node) : node * list output :=
  let n := set_clock t n0 in
  match e with
  | TimerFires id f => fire id f n
  | Input p f => on_input p f n
  | Close c => on_close c n
  end.

Fixpoint run (trace : list (Z * event)) (n : node) : node * list output :=
  match trace with
  | [] => (n, [])
  | (t, e) :: rest =>
      let '(n1, o1) := dispatch t e n in
      let '(n2, o2) := run rest n1 in
      (n2, o1 ++ o2)
  end.

Definition active_intervals (n : node) : list (Timers.timer callback) :=
  filter (fun t => match Timers.callback t with CbTick => true | _ => false end)
    (timers n).

End Sysfs.

(** ** Concrete nodes, for the examples *)

Module Examples.

Definition default_config : Config.t :=
  {| Config.trigger := Js.Undefined; Config.echo := Js.Undefined;
     Config.interval := Js.Undefined |}.

(** [src/hcsr04.js]: both pins set up; then the first measurement begun by
    the delayed [startMeasurements], 100 ms after the node was created. *)
Definition rpi_ready : RpiGpio.node :=
  fst (RpiGpio.run [ (0, RpiGpio.SetupTriggerDone None);
                     (1, RpiGpio.SetupEchoDone None) ]
         (fst (RpiGpio.HCSR04Node default_config None))).

Definition rpi_busy : RpiGpio.node :=
  fst (RpiGpio.run [ (100, RpiGpio.TimerFires 0 None) ] rpi_ready).

(** The node on the clock.  [boot]: both pins are set up at once.
    [stop_start]: "stop" after 200 ms and "start" after 300 ms.
    [early_start]: the same, after a "start" that came 50 ms after the node
    was created, before its delayed [startMeasurements] ran. *)
Definition boot : list (Z * RpiGpio.event) :=
  [ (0, RpiGpio.SetupTriggerDone None); (1, RpiGpio.SetupEchoDone None) ].

Definition stop_start : list (Z * RpiGpio.event) :=
  [ (200, RpiGpio.Input (PStr "stop") None);
    (300, RpiGpio.Input (PStr "start") None) ].

Definition early_start : list (Z * RpiGpio.event) :=
  (50, RpiGpio.Input (PStr "start") None) :: stop_start.

Definition rpi_after (trace : list (Z * RpiGpio.event)) : RpiGpio.node :=
  fst (RpiGpio.play 50 (boot ++ trace)
         (fst (RpiGpio.HCSR04Node default_config None))).

(** [src/unnamed/part_000]: every file operation succeeds. *)
Definition init_ok : Sysfs.init_io :=
  {| Sysfs.export_trigger := Sysfs.Exported; Sysfs.direction_trigger := None;
     Sysfs.write_trigger := None; Sysfs.export_echo := Sysfs.Exported;
     Sysfs.direction_echo := None; Sysfs.edge_echo := None |}.

(** The echo file reads [v] at [hr] nanoseconds. *)
Definition reads (v : string) (hr : Z) : Sysfs.io :=
  {| Sysfs.hr := hr; Sysfs.now := 0; Sysfs.write := None;
     Sysfs.read := inl v; Sysfs.init := init_ok |}.

Definition sysfs_ready : Sysfs.node :=
  fst (Sysfs.run [ (100, Sysfs.TimerFires 0 (reads "0" 0)) ]
         (Sysfs.HCSR04Node default_config)).

Definition sysfs_busy : Sysfs.node :=
  fst (Sysfs.run [ (100, Sysfs.TimerFires 1 (reads "0" 0)) ] sysfs_ready).

(** The file operations of a callback during which writing a value file
    throws [msg]. *)
Definition write_fails (msg : string) : Sysfs.io :=
  {| Sysfs.hr := 0; Sysfs.now := 0; Sysfs.write := Some msg;
     Sysfs.read := inl "0"%string; Sysfs.init := init_ok |}.

(** The echo watcher has seen the echo pin low once. *)
Definition sysfs_polled : Sysfs.node :=
  fst (Sysfs.run [ (101, Sysfs.TimerFires 2 (reads "0" 0)) ] sysfs_busy).

(** A measurement that gets no falling edge: after the call at 100 ms the
    write finishes, the pulse ends, the echo rises, and the delayed
    [startMeasurements] runs meanwhile. *)
Definition rpi_no_echo : list (Z * RpiGpio.event) :=
  [ (101, RpiGpio.WriteHighDone None);
    (102, RpiGpio.TimerFires 2 None);
    (103, RpiGpio.Change 24 true 1000 0);
    (104, RpiGpio.TimerFires 0 None);
    (120, RpiGpio.Change 24 true 2000 0) ].

Definition sysfs_no_echo : list (Z * Sysfs.event) :=
  [ (101, Sysfs.TimerFires 2 (reads "0" 400));
    (101, Sysfs.TimerFires 3 (reads "0" 500));
    (102, Sysfs.TimerFires 2 (reads "1" 5000));
    (103, Sysfs.TimerFires 1 (reads "1" 6000));
    (104, Sysfs.TimerFires 2 (reads "1" 7000)) ].

End Examples.

(** * Statements

    The predicates the properties below are stated with. *)

(** What [parseInt(x) || d] is, case by case. *)
Definition configured (v : Js.value) (d : Z) (field : Z) : Prop :=
  (v = Js.Undefined -> field = d)
  /\ (Js.parseInt v = None -> field = d)
  /\ (Js.parseInt v = Some 0 -> field = d)
  /\ (forall z, Js.parseInt v = Some z -> z <> 0 -> field = z)
  /\ field <> 0.


(** [n] hundredths is the value [q] rounded to two decimal places, a tie
    going up. *)
Definition rounds_to_hundredths (q : Q) (n : Z) : Prop :=
  (inject_Z n - (1 # 2) <= 100 * q)%Q /\ (100 * q < inject_Z n + (1 # 2))%Q.

(** An echo pulse as the node sees it: the rising edge when
    [process.hrtime.bigint()] is [hr1], then the falling edge when it is
    [hr2].  In the sysfs variant these are two polls of the echo file. *)
Definition rpi_edge_pair (hr1 hr2 now : Z) (n : RpiGpio.node)
  : RpiGpio.node * list output :=
  let '(n1, o1) := RpiGpio.on_change (RpiGpio.echoPin n) true hr1 now n in
  let '(n2, o2) := RpiGpio.on_change (RpiGpio.echoPin n) false hr2 now n1 in
  (n2, o1 ++ o2).

Definition sysfs_poll (v : string) (hr now : Z) : Sysfs.io :=
  {| Sysfs.hr := hr; Sysfs.now := now; Sysfs.write := None;
     Sysfs.read := inl v; Sysfs.init := Examples.init_ok |}.

Definition sysfs_edge_pair (hr1 hr2 now : Z) (s : Sysfs.node)
  : Sysfs.node * list output :=
  let '(s1, o1) := Sysfs.echo_poll (sysfs_poll "1" hr1 now) s in
  let '(s2, o2) := Sysfs.echo_poll (sysfs_poll "0" hr2 now) s1 in
  (s2, o1 ++ o2).

Definition out_of_range_status : output :=
  Status {| sfill := Yellow; sshape := Ring; text := "out of range" |}.

Definition timeout_status : output :=
  Status {| sfill := Yellow; sshape := Ring; text := "timeout" |}.

(** What a measurement of [k] hundredths of a centimetre sends: the message
    whose payload is the binary64 value nearest to [k / 100], and the status
    with the same digits. *)
Definition valid_measurement (k now : Z) : list output :=
  [ Send {| payload := Js.nearest_ratio false k 2; topic := "distance";
            unit := "cm"; timestamp := now |};
    Status {| sfill := Green; sshape := Dot; text := Js.fixed2 k ++ " cm" |} ].

(** The echo watcher polling the echo file several times in a row. *)
Fixpoint sysfs_polls (gs : list Sysfs.io) (s : Sysfs.node) : Sysfs.node * list output :=
  match gs with
  | [] => (s, [])
  | g :: rest =>
      let '(s1, o1) := Sysfs.echo_poll g s in
      let '(s2, o2) := sysfs_polls rest s1 in
      (s2, o1 ++ o2)
  end.

(** The echo file holds a level, or cannot be read. *)
Definition reads_level (g : Sysfs.io) : Prop :=
  Sysfs.read g = inl "0"%string \/ Sysfs.read g = inl "1"%string
  \/ exists msg, Sysfs.read g = inr msg.

(** Every periodic timer of the queue is the one [measurementTimer] holds. *)
Definition rpi_tracked (n : RpiGpio.node) : Prop :=
  forall t, In t (RpiGpio.active_intervals n) ->
            RpiGpio.measurementTimer n = Some (Timers.tid t).

Definition sysfs_tracked (s : Sysfs.node) : Prop :=
  forall t, In t (Sysfs.active_intervals s) ->
            Sysfs.measurementTimer s = Some (Timers.tid t).

(** "stop", then "start". *)
Definition rpi_stop_start (throws : option string) (n : RpiGpio.node) : RpiGpio.node :=
  fst (RpiGpio.on_input (PStr "start") throws
         (fst (RpiGpio.on_input (PStr "stop") None n))).

Definition sysfs_stop_start (f : Sysfs.io) (s : Sysfs.node) : Sysfs.node :=
  fst (Sysfs.on_input (PStr "start") f
         (fst (Sysfs.on_input (PStr "stop") f s))).

(** The timers of the sysfs variant firing one after another, whatever the
    file system answers. *)
Definition sysfs_timer_trace (fires : list (Z * nat * Sysfs.io)) : list (Z * Sysfs.event) :=
  map (fun x => (fst (fst x), Sysfs.TimerFires (snd (fst x)) (snd x))) fires.

(** The queue holds no call of initializeGpio. *)
Definition sysfs_initialize_ran (s : Sysfs.node) : Prop :=
  forall t, In t (Sysfs.timers s) -> Timers.callback t <> Sysfs.CbInitialize.

Definition silent (outs : list output) : Prop :=
  readings outs = [] /\ statuses outs = [].

(** *** A measurement that no echo ends

    The events that may come while a measurement waits for its echo without
    ending it some other way or beginning another one: no falling edge of
    the echo, no failed write, no shutdown, and a call of triggerMeasurement
    (a "trigger" or "start" message, a tick of the interval) only while the
    measurement is still in flight, where it does nothing. *)

Definition is_stop (p : msg_payload) : bool :=
  match p with
  | PStr s => String.eqb s "stop"
  | _ => false
  end.

Definition rpi_quiet (n : RpiGpio.node) (e : RpiGpio.event) : bool :=
  match e with
  | RpiGpio.SetupTriggerDone _ | RpiGpio.SetupEchoDone _ => true
  | RpiGpio.Change channel value _ _ => value || negb (channel =? RpiGpio.echoPin n)
  | RpiGpio.WriteHighDone err | RpiGpio.WriteLowDone err =>
      match err with None => true | Some _ => false end
  | RpiGpio.TimerFires id _ =>
      match Timers.find id (RpiGpio.timers n) with
      | Some t =>
          match Timers.callback t with
          | RpiGpio.CbSafety | RpiGpio.CbPulseLow => true
          | RpiGpio.CbTick | RpiGpio.CbStartMeasurements => RpiGpio.isReading n
          end
      | None => true
      end
  | RpiGpio.Input p _ => is_stop p || RpiGpio.isReading n
  | RpiGpio.Close _ => false
  end.

Fixpoint rpi_quiet_trace (n : RpiGpio.node) (trace : list (Z * RpiGpio.event)) : Prop :=
  match trace with
  | [] => True
  | (t, e) :: rest =>
      rpi_quiet n e = true /\ rpi_quiet_trace (fst (RpiGpio.dispatch t e n)) rest
  end.

(** A poll of the echo watcher that sees the echo fall. *)
Definition sysfs_falling (s : Sysfs.node) (f : Sysfs.io) : bool :=
  match Sysfs.lastValue s, Sysfs.read f with
  | Some last, inl current => String.eqb current "0" && String.eqb last "1"
  | _, _ => false
  end.

Definition sysfs_quiet (s : Sysfs.node) (e : Sysfs.event) : bool :=
  match e with
  | Sysfs.TimerFires id f =>
      match Timers.find id (Sysfs.timers s) with
      | Some t =>
          match Timers.callback t with
          | Sysfs.CbSafety | Sysfs.CbPulseLow => true
          | Sysfs.CbEchoPoll => negb (sysfs_falling s f)
          | Sysfs.CbTick | Sysfs.CbStartMeasurements => Sysfs.isReading s
          | Sysfs.CbInitialize => false
          end
      | None => true
      end
  | Sysfs.Input p _ => is_stop p || Sysfs.isReading s
  | Sysfs.Close _ => false
  end.

Fixpoint sysfs_quiet_trace (s : Sysfs.node) (trace : list (Z * Sysfs.event)) : Prop :=
  match trace with
  | [] => True
  | (t, e) :: rest =>
      sysfs_quiet s e = true /\ sysfs_quiet_trace (fst (Sysfs.dispatch t e s)) rest
  end.

(** Handles are fresh: every timer of the queue, and the interval
    [measurementTimer] holds, was created before [next_id]. *)
Definition rpi_handles_fresh (n : RpiGpio.node) : Prop :=
  (forall t, In t (RpiGpio.timers n) -> (Timers.tid t < RpiGpio.next_id n)%nat)
  /\ (forall id, RpiGpio.measurementTimer n = Some id -> (id < RpiGpio.next_id n)%nat).

Definition sysfs_handles_fresh (s : Sysfs.node) : Prop :=
  (forall t, In t (Sysfs.timers s) -> (Timers.tid t < Sysfs.next_id s)%nat)
  /\ (forall id, Sysfs.measurementTimer s = Some id -> (id < Sysfs.next_id s)%nat).

(** The measurement whose safety timeout has the handle [sid] and is due at
    [due0], after [k] "timeout" statuses: it is in flight with the timeout
    pending and none set yet, or it is over and one was set. *)
Definition rpi_waiting (sid : nat) (due0 : Z) (n : RpiGpio.node) (k : nat) : Prop :=
  RpiGpio.setup n <> RpiGpio.NoLibrary
  /\ (sid < RpiGpio.next_id n)%nat
  /\ RpiGpio.measurementTimer n <> Some sid
  /\ (forall t, Timers.find sid (RpiGpio.timers n) = Some t ->
                Timers.callback t = RpiGpio.CbSafety)
  /\ ((RpiGpio.isReading n = true /\ k = 0%nat
       /\ exists ts, Timers.find sid (RpiGpio.timers n) = Some ts
                     /\ Timers.due ts = due0)
      \/ (RpiGpio.isReading n = false /\ k = 1%nat)).

Definition sysfs_waiting (sid : nat) (due0 : Z) (s : Sysfs.node) (k : nat) : Prop :=
  (sid < Sysfs.next_id s)%nat
  /\ Sysfs.measurementTimer s <> Some sid
  /\ (forall t, Timers.find sid (Sysfs.timers s) = Some t ->
                Timers.callback t = Sysfs.CbSafety)
  /\ ((Sysfs.isReading s = true /\ k = 0%nat
       /\ exists ts, Timers.find sid (Sysfs.timers s) = Some ts
                     /\ Timers.due ts = due0)
      \/ (Sysfs.isReading s = false /\ k = 1%nat)).

(** What an event leaves of the invariant: nothing was sent, and the count
    of "timeout" statuses moved with the measurement. *)
Definition rpi_kept (sid : nat) (due0 : Z) (k : nat) (r : RpiGpio.node * list output) : Prop :=
  readings (snd r) = []
  /\ rpi_waiting sid due0 (fst r) (k + count_status "timeout" (snd r)).

Definition sysfs_kept (sid : nat) (due0 : Z) (k : nat) (r : Sysfs.node * list output) : Prop :=
  readings (snd r) = []
  /\ sysfs_waiting sid due0 (fst r) (k + count_status "timeout" (snd r)).

(** ** Further statements *)

(** A call began a measurement at time [t]: [isReading] went from false to
    true, [startTime] is null and a safety timeout is due 100 ms later. *)
Definition rpi_began (t : Z) (n n' : RpiGpio.node) : Prop :=
  RpiGpio.isReading n = false
  /\ RpiGpio.isReading n' = true
  /\ RpiGpio.startTime n' = None
  /\ exists ts, In ts (RpiGpio.timers n')
                /\ Timers.callback ts = RpiGpio.CbSafety
                /\ Timers.due ts = t + 100.

Definition sysfs_began (t : Z) (s s' : Sysfs.node) : Prop :=
  Sysfs.isReading s = false
  /\ Sysfs.isInitialized s = true
  /\ Sysfs.isReading s' = true
  /\ Sysfs.startTime s' = None
  /\ (exists ts, In ts (Sysfs.timers s')
                 /\ Timers.callback ts = Sysfs.CbSafety
                 /\ Timers.due ts = t + 100)
  /\ (exists tp, In tp (Sysfs.timers s')
                 /\ Timers.callback tp = Sysfs.CbPulseLow
                 /\ Timers.due tp = t + 1).

(** *** The bookkeeping of the event loop

    What holds of every node the event loop can reach: the handles of the
    queue are distinct and older than [next_id]; the handle in
    [measurementTimer], when it is still in the queue, is an interval of
    startMeasurements; and a measurement in flight has a safety timeout
    pending that is due at most 100 ms from now. *)

Definition rpi_sound (n : RpiGpio.node) : Prop :=
  NoDup (map Timers.tid (RpiGpio.timers n))
  /\ (forall t, In t (RpiGpio.timers n) -> (Timers.tid t < RpiGpio.next_id n)%nat)
  /\ (forall id, RpiGpio.measurementTimer n = Some id -> (id < RpiGpio.next_id n)%nat)
  /\ (forall t, In t (RpiGpio.timers n) ->
                RpiGpio.measurementTimer n = Some (Timers.tid t) ->
                Timers.callback t = RpiGpio.CbTick)
  /\ (RpiGpio.isReading n = true ->
      exists t, In t (RpiGpio.timers n)
                /\ Timers.callback t = RpiGpio.CbSafety
                /\ Timers.due t <= RpiGpio.clock n + 100).

Definition sysfs_sound (s : Sysfs.node) : Prop :=
  NoDup (map Timers.tid (Sysfs.timers s))
  /\ (forall t, In t (Sysfs.timers s) -> (Timers.tid t < Sysfs.next_id s)%nat)
  /\ (forall id, Sysfs.measurementTimer s = Some id -> (id < Sysfs.next_id s)%nat)
  /\ (forall t, In t (Sysfs.timers s) ->
                Sysfs.measurementTimer s = Some (Timers.tid t) ->
                Timers.callback t = Sysfs.CbTick)
  /\ (Sysfs.isReading s = true ->
      exists t, In t (Sysfs.timers s)
                /\ Timers.callback t = Sysfs.CbSafety
                /\ Timers.due t <= Sysfs.clock s + 100).

(** The times of a trace never go back. *)
Fixpoint monotone {E : Type} (from : Z) (trace : list (Z * E)) : Prop :=
  match trace with
  | [] => True
  | (t, _) :: rest => from <= t /\ monotone t rest
  end.

(** The pin's directory exists when exportPin returns. *)
Definition exported (r : Sysfs.export_result) : bool :=
  match r with
  | Sysfs.Present | Sysfs.Exported => true
  | _ => false
  end.

(** Every file operation of initializeGpio succeeds. *)
Definition init_succeeds (f : Sysfs.init_io) : bool :=
  match exported (Sysfs.export_trigger f), Sysfs.direction_trigger f,
        Sysfs.write_trigger f, exported (Sysfs.export_echo f),
        Sysfs.direction_echo f, Sysfs.edge_echo f with
  | true, None, None, true, None, None => true
  | _, _, _, _, _, _ => false
  end.

(** The node once initializeGpio succeeded: the echo watcher polls every
    millisecond, from no known level. *)
Definition sysfs_initialized (s : Sysfs.node) : Sysfs.node :=
  Sysfs.set_isInitialized true
    (Sysfs.set_echoWatcher (Some (Sysfs.next_id s))
       (fst (Sysfs.schedule Sysfs.CbEchoPoll 1 (Some 1) (Sysfs.set_lastValue None s)))).

(** Neither a message nor a rise of the trigger pin. *)
Definition inert (outs : list output) : Prop :=
  readings outs = [] /\ forall pin, ~ In (GpioWrite pin true) outs.

(** The sysfs node is out of service: not initialised, no measurement in
    flight, and no call of initializeGpio to come. *)
Definition sysfs_out_of_service (s : Sysfs.node) : Prop :=
  Sysfs.isInitialized s = false
  /\ Sysfs.isReading s = false
  /\ sysfs_initialize_ran s.

(** The delayed [startMeasurements] of the constructor is not pending (it
    ran, or the constructor never scheduled it). *)
Definition rpi_started (n : RpiGpio.node) : Prop :=
  forall t, In t (RpiGpio.timers n) -> Timers.callback t <> RpiGpio.CbStartMeasurements.

Definition sysfs_started (s : Sysfs.node) : Prop :=
  forall t, In t (Sysfs.timers s) -> Timers.callback t <> Sysfs.CbStartMeasurements.

(** The queue holds one periodic measurement timer, of the configured
    period, and [measurementTimer] holds its handle. *)
Definition rpi_one_interval (n : RpiGpio.node) : Prop :=
  exists t, RpiGpio.active_intervals n = [t]
            /\ RpiGpio.measurementTimer n = Some (Timers.tid t)
            /\ Timers.callback t = RpiGpio.CbTick
            /\ Timers.repeat t = Some (Timers.delay (inject_Z (RpiGpio.interval n))).

Definition sysfs_one_interval (s : Sysfs.node) : Prop :=
  exists t, Sysfs.active_intervals s = [t]
            /\ Sysfs.measurementTimer s = Some (Timers.tid t)
            /\ Timers.repeat t = Some (Timers.delay (inject_Z (Sysfs.interval s))).

Definition is_tick (t : Timers.timer Sysfs.callback) : bool :=
  match Timers.callback t with Sysfs.CbTick => true | _ => false end.

(** ** Further nodes, for the examples *)

Module Scenes.

(** [src/hcsr04.js]: a measurement in flight whose echo has risen. *)
Definition rpi_echoing : RpiGpio.node :=
  fst (RpiGpio.dispatch 103 (RpiGpio.Change 24 true 1000 0) Examples.rpi_busy).

(** The first measurement, from the constructor on. *)
Definition rpi_first_measurement : list (Z * RpiGpio.event) :=
  Examples.boot ++ [ (100, RpiGpio.TimerFires 0 None);
                     (101, RpiGpio.WriteHighDone None) ].

(** The setup of the trigger pin failed. *)
Definition rpi_setup_failed : RpiGpio.node :=
  fst (RpiGpio.dispatch 0 (RpiGpio.SetupTriggerDone (Some "EACCES"%string))
         (fst (RpiGpio.HCSR04Node Examples.default_config None))).

Definition rpi_later : list (Z * RpiGpio.event) :=
  [ (100, RpiGpio.TimerFires 0 None);
    (103, RpiGpio.Change 24 true 1000 0);
    (104, RpiGpio.Change 24 false 1161000 7) ].

(** [src/unnamed/part_000]: the echo watcher has seen the echo pin high. *)
Definition sysfs_echoing : Sysfs.node :=
  fst (Sysfs.dispatch 102 (Sysfs.TimerFires 2 (Examples.reads "1" 1000))
         Examples.sysfs_polled).

Definition sysfs_first_measurement : list (Z * Sysfs.event) :=
  [ (100, Sysfs.TimerFires 0 (Examples.reads "0" 0));
    (100, Sysfs.TimerFires 1 (Examples.reads "0" 0)) ].

(** The edge mode of the echo pin cannot be written. *)
Definition edge_fails : Sysfs.init_io :=
  {| Sysfs.export_trigger := Sysfs.Exported; Sysfs.direction_trigger := None;
     Sysfs.write_trigger := None; Sysfs.export_echo := Sysfs.Exported;
     Sysfs.direction_echo := None; Sysfs.edge_echo := Some "EACCES"%string |}.

Definition init_fails : Sysfs.io :=
  {| Sysfs.hr := 0; Sysfs.now := 0; Sysfs.write := None;
     Sysfs.read := inl "0"%string; Sysfs.init := edge_fails |}.

(** The node whose initializeGpio has failed. *)
Definition sysfs_init_failed : Sysfs.node :=
  fst (Sysfs.dispatch 100 (Sysfs.TimerFires 0 init_fails)
         (Sysfs.HCSR04Node Examples.default_config)).

Definition sysfs_later : list (Z * Sysfs.event) :=
  [ (100, Sysfs.TimerFires 1 (Examples.reads "0" 0));
    (150, Sysfs.Input (PBool true) (Examples.reads "0" 0));
    (1100, Sysfs.TimerFires 2 (Examples.reads "0" 0)) ].

Definition close_ok : Sysfs.close_io :=
  {| Sysfs.close_write := None; Sysfs.unexport_trigger := Sysfs.Unexported;
     Sysfs.unexport_echo := Sysfs.Unexported |}.

End Scenes.

(** The same predicates as checks that compute. *)
Definition rpi_tracked_check (n : RpiGpio.node) : bool :=
  forallb (fun t => match RpiGpio.measurementTimer n with
                    | Some id => Nat.eqb id (Timers.tid t)
                    | None => false
                    end) (RpiGpio.active_intervals n).

Definition rpi_started_check (n : RpiGpio.node) : bool :=
  forallb (fun t => match Timers.callback t with
                    | RpiGpio.CbStartMeasurements => false
                    | _ => true
                    end) (RpiGpio.timers n).

Definition sysfs_tracked_check (s : Sysfs.node) : bool :=
  forallb (fun t => match Sysfs.measurementTimer s with
                    | Some id => Nat.eqb id (Timers.tid t)
                    | None => false
                    end) (Sysfs.active_intervals s).

Definition sysfs_started_check (s : Sysfs.node) : bool :=
  forallb (fun t => match Timers.callback t with
                    | Sysfs.CbStartMeasurements => false
                    | _ => true
                    end) (Sysfs.timers s).

Definition sysfs_initialize_ran_check (s : Sysfs.node) : bool :=
  forallb (fun t => match Timers.callback t with
                    | Sysfs.CbInitialize => false
                    | _ => true
                    end) (Sysfs.timers s).

(** ** The measurement as the specification words it

    Section 4.2, step 5, and the invariant of section 6: [duration] is the
    time between the two edges in microseconds,
    [distanceCm = duration / 2 / 29.1], a reading is emitted if
    [2 <= distanceCm <= 400], and its payload is [distanceCm] rounded to two
    decimal places.  The arithmetic is binary64, as everywhere in the
    program. *)

Module Spec.

(** The microseconds of [ns] nanoseconds. *)
Definition duration_us (ns : Z) : float := (Js.Number ns / 1000)%float.

Definition distanceCm (duration : float) : float := (duration / 2 / 29.1)%float.

Definition valid (d : float) : bool := ((2 <=? d)%float && (d <=? 400)%float)%bool.






End Spec.

(** *** A whole measurement cycle

    The events that may come between the trigger pulse and the falling
    edge of the echo without touching the measurement: no edge of the
    echo, no safety timeout firing (this measurement's or one an earlier
    measurement left pending), no failed write and no shutdown. *)















(** ** Two measurements in a row, for the examples *)

Module Cycles.

(** [src/hcsr04.js]: the first measurement, begun by the delayed
    [startMeasurements] 100 ms after the node was created, with an echo of
    1160 microseconds; its safety timeout (timer 1) stays pending until
    200 ms. *)
Definition rpi_first : list (Z * RpiGpio.event) :=
  [ (100, RpiGpio.TimerFires 0 None);
    (101, RpiGpio.WriteHighDone None);
    (102, RpiGpio.TimerFires 3 None);
    (102, RpiGpio.WriteLowDone None);
    (103, RpiGpio.Change 24 true 1000 0);
    (104, RpiGpio.Change 24 false 1161000 7) ].

(** A second measurement, begun by a message at 195 ms, with an echo of
    9 ms (rising at 198 ms, falling at 207 ms).  [stale]: the event loop
    runs the safety timeout of the first measurement when it is due, at
    200 ms. *)
Definition rpi_second (stale : bool) : list (Z * RpiGpio.event) :=
  [ (195, RpiGpio.Input (PBool true) None);
    (196, RpiGpio.WriteHighDone None);
    (197, RpiGpio.TimerFires 5 None);
    (197, RpiGpio.WriteLowDone None);
    (198, RpiGpio.Change 24 true 5000000 0) ]
  ++ (if stale then [ (200, RpiGpio.TimerFires 1 None) ] else [])
  ++ [ (207, RpiGpio.Change 24 false 14000000 9) ].

(** The same two measurements in [src/unnamed/part_000]; the safety
    timeout of the first one is timer 4. *)
Definition sysfs_first : list (Z * Sysfs.event) :=
  [ (100, Sysfs.TimerFires 1 (Examples.reads "0" 0));
    (101, Sysfs.TimerFires 3 (Examples.reads "0" 0));
    (101, Sysfs.TimerFires 2 (Examples.reads "0" 400));
    (102, Sysfs.TimerFires 2 (sysfs_poll "1" 1000 0));
    (103, Sysfs.TimerFires 2 (sysfs_poll "0" 1161000 7)) ].

Definition sysfs_second (stale : bool) : list (Z * Sysfs.event) :=
  [ (195, Sysfs.Input (PBool true) (Examples.reads "0" 0));
    (196, Sysfs.TimerFires 6 (Examples.reads "0" 0));
    (196, Sysfs.TimerFires 2 (Examples.reads "0" 0));
    (198, Sysfs.TimerFires 2 (sysfs_poll "1" 5000000 0)) ]
  ++ (if stale then [ (200, Sysfs.TimerFires 4 (Examples.reads "1" 0)) ] else [])
  ++ [ (207, Sysfs.TimerFires 2 (sysfs_poll "0" 14000000 9)) ].



(** A write of the low level that fails in [src/unnamed/part_000], and the
    echo of 1160 microseconds that follows. *)
Definition sysfs_low_fails : list (Z * Sysfs.event) :=
  [ (101, Sysfs.TimerFires 3 (Examples.write_fails "EIO"));
    (101, Sysfs.TimerFires 2 (Examples.reads "0" 400));
    (102, Sysfs.TimerFires 2 (sysfs_poll "1" 1000 0));
    (103, Sysfs.TimerFires 2 (sysfs_poll "0" 1161000 7)) ].

(** The same failure in [src/hcsr04.js], reported to the callback of the
    write. *)
Definition rpi_low_fails : list (Z * RpiGpio.event) :=
  [ (101, RpiGpio.WriteHighDone None);
    (102, RpiGpio.TimerFires 3 None);
    (102, RpiGpio.WriteLowDone (Some "EIO"%string));
    (103, RpiGpio.Change 24 true 1000 0);
    (104, RpiGpio.Change 24 false 1161000 7) ].

End Cycles.
(** * Properties *)

(** ** Configuration *)

Lemma or_default_nonzero (x : option Z) (d : Z) : d <> 0 -> Js.or_default x d <> 0.
Proof.
  intros Hd. destruct x as [[|p|p]|]; simpl; try assumption; discriminate.
Qed.

Lemma parseInt_undefined : Js.parseInt Js.Undefined = None.
Proof. reflexivity. Qed.

Example parseInt_zero_string : Js.parseInt (Js.Str "0") = Some 0.
Proof. reflexivity. Qed.

Example parseInt_zero_number : Js.parseInt (Js.Int 0) = Some 0.
Proof. reflexivity. Qed.

Example parseInt_pin_string : Js.parseInt (Js.Str " 17") = Some 17.
Proof. reflexivity. Qed.

Example parseInt_hex_string : Js.parseInt (Js.Str "0x1F") = Some 31.
Proof. reflexivity. Qed.

Example parseInt_word : Js.parseInt (Js.Str "GPIO18") = None.
Proof. reflexivity. Qed.

Lemma or_default_configured (v : Js.value) (d : Z) :
  d <> 0 -> configured v d (Js.or_default (Js.parseInt v) d).
Proof.
  intros Hd. unfold configured. repeat split.
  - intros ->. reflexivity.
  - intros ->. reflexivity.
  - intros ->. reflexivity.
  - intros z -> Hz. destruct z; simpl; congruence.
  - apply or_default_nonzero, Hd.
Qed.

(** C10: in both variants a trigger pin, echo pin or interval that is
    missing, does not parse to a number or parses to zero is replaced by 18,
    24 and 1000; any other parsed value is kept, and none of the three fields
    of the node is ever zero. *)
Theorem C10_config_defaults (config : Config.t) (library : option string) :
  let n := fst (RpiGpio.HCSR04Node config library) in
  let s := Sysfs.HCSR04Node config in
  (configured (Config.trigger config) 18 (RpiGpio.triggerPin n)
   /\ configured (Config.echo config) 24 (RpiGpio.echoPin n)
   /\ configured (Config.interval config) 1000 (RpiGpio.interval n))
  /\ (configured (Config.trigger config) 18 (Sysfs.triggerPin s)
      /\ configured (Config.echo config) 24 (Sysfs.echoPin s)
      /\ configured (Config.interval config) 1000 (Sysfs.interval s)).
Proof.
  split.
  - destruct library; simpl; repeat split; try apply or_default_configured; lia.
  - simpl; repeat split; try apply or_default_configured; lia.
Qed.

(** ** The nodes of the examples are what they are meant to be *)

Example rpi_ready_idle :
  RpiGpio.isReading Examples.rpi_ready = false
  /\ RpiGpio.setup Examples.rpi_ready = RpiGpio.Listening
  /\ RpiGpio.echoPin Examples.rpi_ready = 24.
Proof. vm_compute. auto. Qed.

Example rpi_busy_in_flight :
  RpiGpio.isReading Examples.rpi_busy = true
  /\ RpiGpio.startTime Examples.rpi_busy = None
  /\ map (fun t => (Timers.tid t, Timers.callback t, Timers.due t))
       (RpiGpio.timers Examples.rpi_busy)
     = [ (1%nat, RpiGpio.CbSafety, 200); (2%nat, RpiGpio.CbTick, 1100) ].
Proof. vm_compute. auto. Qed.

Example sysfs_busy_in_flight :
  Sysfs.isReading Examples.sysfs_busy = true
  /\ Sysfs.isInitialized Examples.sysfs_busy = true
  /\ map (fun t => (Timers.tid t, Timers.callback t, Timers.due t))
       (Sysfs.timers Examples.sysfs_busy)
     = [ (2%nat, Sysfs.CbEchoPoll, 101); (3%nat, Sysfs.CbPulseLow, 101);
         (4%nat, Sysfs.CbSafety, 200); (5%nat, Sysfs.CbTick, 1100) ].
Proof. vm_compute. auto. Qed.

(** ** The guard of triggerMeasurement *)

(** C3: a call of triggerMeasurement while a measurement is in flight
    ([isReading] is true) returns at once, in both variants: nothing is
    written to the trigger pin and the node (isReading, startTime, the
    timers) is as it was. *)
Theorem C3_measure_in_flight_is_noop
  (n : RpiGpio.node) (s : Sysfs.node) (throws : option string) (f : Sysfs.io) :
  RpiGpio.isReading n = true ->
  Sysfs.isReading s = true ->
  RpiGpio.triggerMeasurement throws n = (n, [])
  /\ Sysfs.triggerMeasurement f s = (s, []).
Proof.
  intros Hn Hs. unfold RpiGpio.triggerMeasurement, Sysfs.triggerMeasurement.
  rewrite Hn, Hs. split; reflexivity.
Qed.

Lemma C3_measure_in_flight_is_noop_witness :
  RpiGpio.triggerMeasurement None Examples.rpi_busy = (Examples.rpi_busy, [])
  /\ Sysfs.triggerMeasurement (Examples.reads "0" 0) Examples.sysfs_busy
     = (Examples.sysfs_busy, []).
Proof.
  apply (C3_measure_in_flight_is_noop Examples.rpi_busy Examples.sysfs_busy
           None (Examples.reads "0" 0)); reflexivity.
Defined.

(** ** A measurement starts from a clean slate *)




(** A node whose last measurement left a start time behind: the rising edge
    was seen, then the safety timeout ended the measurement. *)
Example rpi_timed_out_keeps_startTime :
  let n := fst (RpiGpio.run [ (101, RpiGpio.Change 24 true 5000 0);
                              (200, RpiGpio.TimerFires 1 None) ] Examples.rpi_busy) in
  RpiGpio.isReading n = false /\ RpiGpio.startTime n = Some 5000.
Proof. vm_compute. auto. Qed.

Example sysfs_timed_out_keeps_startTime :
  let s := fst (Sysfs.run [ (101, Sysfs.TimerFires 2 (Examples.reads "0" 6000));
                            (102, Sysfs.TimerFires 2 (Examples.reads "1" 7000));
                            (200, Sysfs.TimerFires 4 (Examples.reads "1" 0)) ]
                  Examples.sysfs_busy) in
  Sysfs.isReading s = false /\ Sysfs.startTime s = Some 7000
  /\ Sysfs.lastValue s = Some "1"%string.
Proof. vm_compute. auto. Qed.


(** ** Comparisons of binary64 values *)

Lemma SFcompare_antisym (x y : spec_float) :
  SFcompare y x = option_map CompOpp (SFcompare x y).
Proof.
  destruct x as [sx|sx| |sx mx ex], y as [sy|sy| |sy my ey]; simpl;
    try reflexivity;
    try (destruct sx; reflexivity);
    try (destruct sy; reflexivity);
    try (destruct sx, sy; reflexivity).
  destruct sx, sy; try reflexivity;
    rewrite (Z.compare_antisym ex ey);
    destruct (ex ?= ey); simpl; try reflexivity; f_equal.
  - rewrite CompOpp_involutive. exact (Pos.compare_cont_antisym my mx Eq).
  - symmetry. exact (Pos.compare_cont_antisym mx my Eq).
Qed.

Lemma ltb_not_leb (x y : float) : (x <? y)%float = true -> (y <=? x)%float = false.
Proof.
  rewrite ltb_spec, leb_spec. unfold SFltb, SFleb.
  rewrite (SFcompare_antisym (Prim2SF x) (Prim2SF y)).
  destruct (SFcompare (Prim2SF x) (Prim2SF y)) as [[| |]|]; simpl; congruence.
Qed.

(** Strictly below 2 or strictly above 400 is not in range. *)
Lemma out_of_range (d : float) :
  (d <? 2)%float = true \/ (400 <? d)%float = true -> Echo.in_range d = false.
Proof.
  unfold Echo.in_range. intros [H | H]; apply ltb_not_leb in H; rewrite H.
  - reflexivity.
  - apply andb_false_r.
Qed.

(** ** Binary64 values in range, and toFixed(2) on them *)

Lemma digits2_pos_size (m : positive) : digits2_pos m = Pos.size m.
Proof. induction m; simpl; congruence. Qed.

Lemma digits2_53 (m : positive) :
  digits2_pos m = 53%positive -> 4503599627370496 <= Zpos m < 9007199254740992.
Proof.
  rewrite digits2_pos_size. intros H.
  pose proof (Pos.size_gt m) as Hgt. pose proof (Pos.size_le m) as Hle.
  rewrite H in Hgt, Hle.
  assert (E : (2 ^ 53)%positive = 9007199254740992%positive) by (vm_compute; reflexivity).
  rewrite E in Hgt, Hle.
  apply Pos2Z.pos_lt_pos in Hgt. apply Pos2Z.pos_le_pos in Hle.
  rewrite Pos2Z.inj_xO in Hle. split.
  - apply Z.mul_le_mono_pos_l with (p := 2); [reflexivity|]. exact Hle.
  - exact Hgt.
Qed.

Lemma Prim2SF_2 : Prim2SF 2 = S754_finite false 4503599627370496 (-51).
Proof. reflexivity. Qed.
Lemma Prim2SF_400 : Prim2SF 400 = S754_finite false 7036874417766400 (-44).
Proof. reflexivity. Qed.


Lemma in_range_finite (d : float) :
  Echo.in_range d = true ->
  exists m e, Prim2SF d = S754_finite false m e
    /\ -51 <= e <= -44
    /\ 4503599627370496 <= Zpos m < 9007199254740992
    /\ (e = -44 -> Zpos m <= 7036874417766400).
Proof.
  unfold Echo.in_range. rewrite andb_true_iff, !leb_spec, Prim2SF_2, Prim2SF_400.
  pose proof (Prim2SF_valid d) as V.
  destruct (Prim2SF d) as [s|s| |s m e]; unfold SFleb, SFcompare.
  - intros [H _]. discriminate.
  - destruct s; intros [H1 H2]; discriminate.
  - intros [H _]. discriminate.
  - destruct s; [intros [H _]; discriminate|].
    intros [H1 H2]. exists m, e. split; [reflexivity|].
    unfold valid_binary, bounded, canonical_mantissa, fexp in V.
    apply andb_true_iff in V. destruct V as [V _]. apply Z.eqb_eq in V.
    assert (Hlo : -51 <= e).
    { destruct (Z.compare_spec (-51) e) as [E|E|E];
        [ rewrite E; apply Z.le_refl | apply Z.lt_le_incl, E | discriminate H1 ]. }
    assert (Hhi : e <= -44).
    { destruct (Z.compare_spec e (-44)) as [E|E|E];
        [ rewrite E; apply Z.le_refl | apply Z.lt_le_incl, E | discriminate H2 ]. }
    split; [split; assumption|].
    assert (Hd : digits2_pos m = 53%positive).
    { clear H1 H2. unfold SpecFloat.emin, emax, prec in V.
      change IntDef.Z.max with Z.max in V.
      assert (Z.pos (digits2_pos m) = 53) by lia. congruence. }
    split; [apply digits2_53, Hd|].
    intros He. rewrite He in H2. rewrite Z.compare_refl in H2.
    clear H1 V.
    destruct (PosDef.Pos.compare_cont Eq m 7036874417766400) eqn:E; [ | | discriminate H2].
    + apply (Pos.compare_eq m) in E. rewrite E. apply Z.le_refl.
    + apply (proj1 (Pos.compare_lt_iff m _)) in E. apply Pos2Z.pos_lt_pos in E. apply Z.lt_le_incl, E.
Qed.

Lemma hundredths_nearest (m : positive) (k : Z) :
  0 < k ->
  let n := Js.hundredths m (- k) in
  (2 * n - 1) * 2 ^ k <= 200 * Zpos m < (2 * n + 1) * 2 ^ k.
Proof.
  intros Hk n. subst n. unfold Js.hundredths.
  destruct (0 <=? - k) eqn:E; [apply Z.leb_le in E; lia|].
  rewrite Z.opp_involutive.
  assert (HP : 0 < 2 ^ k) by (apply Z.pow_pos_nonneg; lia).
  rewrite Z.pow_add_r by lia. change (2 ^ 1) with 2.
  set (P := 2 ^ k) in *. set (N := 200 * Z.pos m + P).
  pose proof (Z.div_mod N (P * 2) ltac:(lia)) as D.
  pose proof (Z.mod_pos_bound N (P * 2) ltac:(lia)) as B.
  set (q := N / (P * 2)) in *. set (r := N mod (P * 2)) in *.
  subst N. nia.
Qed.

Lemma rounds_finite (m : positive) (k : Z) :
  0 < k ->
  rounds_to_hundredths (Zpos m # Z.to_pos (2 ^ k)) (Js.hundredths m (- k)).
Proof.
  intros Hk. pose proof (hundredths_nearest m k Hk) as H. cbv zeta in H.
  set (n := Js.hundredths m (- k)) in *.
  assert (HP : 0 < 2 ^ k) by (apply Z.pow_pos_nonneg; lia).
  unfold rounds_to_hundredths, Qle, Qlt, Qminus, Qplus, Qopp, Qmult, inject_Z.
  cbn [Qnum Qden].
  rewrite !Pos2Z.inj_mul, !Z2Pos.id by exact HP.
  set (P := 2 ^ k) in *. lia.
Qed.

(** ** parseFloat reads back what toFixed(2) printed *)

Lemma digit_char_spec (v : Z) :
  0 <= v <= 9 ->
  Js.is_digit (Js.digit_char v) = true /\ Js.digit_val (Js.digit_char v) = v.
Proof.
  intros H.
  assert (C : v = 0 \/ v = 1 \/ v = 2 \/ v = 3 \/ v = 4 \/ v = 5 \/ v = 6
              \/ v = 7 \/ v = 8 \/ v = 9) by lia.
  repeat destruct C as [-> | C]; try subst v; split; reflexivity.
Qed.

Lemma read_digit_char (v : Z) (t : string) (a c : Z) :
  0 <= v <= 9 ->
  Js.read_digits (String (Js.digit_char v) t) a c = Js.read_digits t (10 * a + v) (c + 1).
Proof.
  intros H. destruct (digit_char_spec v H) as [H1 H2].
  cbn [Js.read_digits]. rewrite H1, H2. reflexivity.
Qed.

Lemma append_cons_assoc (x : string) (c : ascii) (s : string) :
  (x ++ String c s)%string = ((x ++ String c "") ++ s)%string.
Proof. induction x as [|d x IH]; simpl; [reflexivity|]. now rewrite IH. Qed.

(** What [digits_fuel] puts before [s] starts with a digit and reads back
    as [n]. *)
Lemma digits_fuel_read (f : nat) : forall n s,
  0 <= n < 2 ^ Z.of_nat (S f) ->
  exists v x len,
    Js.digits_fuel (S f) n s = String (Js.digit_char v) (x ++ s)%string
    /\ 0 <= v <= 9 /\ 0 <= len
    /\ forall t a c,
         Js.read_digits (String (Js.digit_char v) (x ++ t)%string) a c
         = Js.read_digits t (a * 10 ^ (len + 1) + n) (c + (len + 1)).
Proof.
  induction f as [|f IH]; intros n s Hn.
  - change (2 ^ Z.of_nat 1) with 2 in Hn.
    exists n, ""%string, 0. cbn [Js.digits_fuel].
    assert (E : n / 10 = 0) by (apply Z.div_small; lia).
    rewrite E, Z.mod_small by lia. cbn [Z.eqb].
    repeat split; try lia.
    intros t a c. cbn [append]. rewrite read_digit_char by lia.
    f_equal. change (10 ^ (0 + 1)) with 10. lia.
  - change (Js.digits_fuel (S (S f)) n s)
      with (if n / 10 =? 0 then String (Js.digit_char (n mod 10)) s
            else Js.digits_fuel (S f) (n / 10) (String (Js.digit_char (n mod 10)) s)).
    destruct (n / 10 =? 0) eqn:E.
    + apply Z.eqb_eq in E.
      assert (n < 10) by (pose proof (Z.div_mod n 10 ltac:(lia));
                          pose proof (Z.mod_pos_bound n 10 ltac:(lia)); lia).
      exists n, ""%string, 0. rewrite Z.mod_small by lia.
      repeat split; try lia.
      intros t a c. cbn [append]. rewrite read_digit_char by lia.
      f_equal. change (10 ^ (0 + 1)) with 10. lia.
    + apply Z.eqb_neq in E.
      assert (Hq : 0 <= n / 10 < 2 ^ Z.of_nat (S f)).
      { split; [apply Z.div_pos; lia|].
        apply Z.div_lt_upper_bound; [lia|].
        rewrite (Nat2Z.inj_succ (S f)), Z.pow_succ_r in Hn by lia.
        assert (0 < 2 ^ Z.of_nat (S f)) by (apply Z.pow_pos_nonneg; lia). lia. }
      destruct (IH (n / 10) (String (Js.digit_char (n mod 10)) s) Hq)
        as (v & x & len & Hd & Hv & Hlen & Hread).
      exists v, (x ++ String (Js.digit_char (n mod 10)) "")%string, (len + 1).
      repeat split; try lia.
      * rewrite Hd, append_cons_assoc. reflexivity.
      * intros t a c. rewrite <- append_cons_assoc, Hread.
        pose proof (Z.mod_pos_bound n 10 ltac:(lia)) as B.
        rewrite read_digit_char by lia.
        pose proof (Z.div_mod n 10 ltac:(lia)) as D.
        f_equal; [|lia].
        rewrite (Z.pow_add_r 10 (len + 1) 1) by lia. change (10 ^ 1) with 10. lia.
Qed.

Lemma digits_read (n : Z) :
  0 <= n ->
  exists v x len,
    Js.digits n = String (Js.digit_char v) x
    /\ 0 <= v <= 9 /\ 0 <= len
    /\ forall t a c,
         Js.read_digits (String (Js.digit_char v) (x ++ t)%string) a c
         = Js.read_digits t (a * 10 ^ (len + 1) + n) (c + (len + 1)).
Proof.
  intros Hn. unfold Js.digits.
  assert (B : 0 <= n < 2 ^ Z.of_nat (S (Z.to_nat (Z.log2 n)))).
  { split; [exact Hn|].
    rewrite Nat2Z.inj_succ, Z2Nat.id by apply Z.log2_nonneg.
    destruct (Z.eq_dec n 0) as [->|Hz]; [reflexivity|].
    apply Z.log2_spec. lia. }
  destruct (digits_fuel_read _ n ""%string B) as (v & x & len & Hd & Hv & Hlen & Hread).
  exists v, x, len. repeat split; try lia; try exact Hread.
  rewrite Hd. f_equal. clear. induction x as [|c x IH]; simpl; [reflexivity|now rewrite IH].
Qed.

Lemma parse_decimal_digit (v : Z) (t : string) :
  0 <= v <= 9 ->
  Js.parse_decimal (String (Js.digit_char v) t)
  = Js.parse_unsigned false (String (Js.digit_char v) t).
Proof.
  intros H.
  assert (C : v = 0 \/ v = 1 \/ v = 2 \/ v = 3 \/ v = 4 \/ v = 5 \/ v = 6
              \/ v = 7 \/ v = 8 \/ v = 9) by lia.
  repeat destruct C as [-> | C]; try subst v; reflexivity.
Qed.

(** Reading back what toFixed printed: the hundredths and two fraction
    digits. *)
Lemma parse_fixed2 (n : Z) :
  0 <= n -> Js.parse_decimal (Js.fixed2 n) = Some (false, n, 2).
Proof.
  intros Hn. unfold Js.fixed2.
  assert (Hq : 0 <= n / 100) by (apply Z.div_pos; lia).
  destruct (digits_read (n / 100) Hq) as (v & x & len & Hd & Hv & Hlen & Hread).
  rewrite Hd. cbn [append]. rewrite parse_decimal_digit by exact Hv.
  unfold Js.parse_unsigned. rewrite Hread.
  cbn [Js.read_digits Js.is_digit]. cbv beta iota.
  change (Js.is_digit ".") with false. cbv iota.
  pose proof (Z.mod_pos_bound n 100 ltac:(lia)) as B100.
  pose proof (Z.mod_pos_bound n 10 ltac:(lia)) as B10.
  assert (0 <= n mod 100 / 10 <= 9).
  { split; [apply Z.div_pos; lia|]. apply Z.lt_succ_r, Z.div_lt_upper_bound; lia. }
  rewrite !read_digit_char by lia. cbn [Js.read_digits].
  assert (E1 : (0 + (len + 1) =? 0) = false) by (apply Z.eqb_neq; lia).
  rewrite E1. cbn [andb].
  repeat f_equal.
  pose proof (Z.div_mod n 100 ltac:(lia)) as D.
  pose proof (Z.div_mod (n mod 100) 10 ltac:(lia)) as D2.
  pose proof (Z.mod_pos_bound (n mod 100) 10 ltac:(lia)) as B2.
  pose proof (Z.div_mod n 10 ltac:(lia)) as D3.
  replace (0 * 10 ^ (len + 1) + n / 100) with (n / 100) by lia. lia.
Qed.

Lemma hundredths_bounds (m : positive) (e : Z) :
  -51 <= e <= -44 ->
  4503599627370496 <= Zpos m < 9007199254740992 ->
  (e = -44 -> Zpos m <= 7036874417766400) ->
  200 <= Js.hundredths m e <= 40000.
Proof.
  intros He Hm Htop.
  pose proof (hundredths_nearest m (- e) ltac:(lia)) as H. cbv zeta in H.
  rewrite Z.opp_involutive in H.
  set (n := Js.hundredths m e) in *.
  assert (C : e = -44 \/ e = -45 \/ e = -46 \/ e = -47 \/ e = -48 \/ e = -49
              \/ e = -50 \/ e = -51) by lia.
  clear He.
  repeat destruct C as [-> | C]; try subst e;
    match type of H with
    | context [2 ^ ?k] =>
        let v := eval vm_compute in (2 ^ k) in change (2 ^ k) with v in H
    end;
    try specialize (Htop eq_refl); lia.
Qed.

(** A distance that passes the range check is finite and positive; toFixed(2)
    prints its nearest hundredth [k] (a tie going up), between 2.00 and
    400.00, and parseFloat reads the same [k] back. *)
Lemma in_range_rounding (d : float) :
  Echo.in_range d = true ->
  exists k : Z,
    rounds_to_hundredths (Js.value_of d) k
    /\ 200 <= k <= 40000
    /\ Js.toFixed2 d = Js.fixed2 k
    /\ Js.parseFloat (Js.toFixed2 d) = Js.nearest_ratio false k 2.
Proof.
  intros H. destruct (in_range_finite d H) as (m & e & Hd & He & Hm & Htop).
  exists (Js.hundredths m e).
  assert (Hb := hundredths_bounds m e He Hm Htop).
  assert (Hf : Js.toFixed2 d = Js.fixed2 (Js.hundredths m e)).
  { unfold Js.toFixed2. rewrite Hd. reflexivity. }
  split; [|split; [exact Hb|split; [exact Hf|]]].
  - unfold Js.value_of. rewrite Hd.
    destruct (0 <=? e) eqn:E; [apply Z.leb_le in E; lia|].
    replace e with (- - e) at 2 by lia. apply rounds_finite. lia.
  - rewrite Hf. unfold Js.parseFloat. rewrite parse_fixed2 by lia. reflexivity.
Qed.

(** ** The echo pulse *)

Lemma rpi_rising (n : RpiGpio.node) (hr now : Z) :
  RpiGpio.isReading n = true ->
  RpiGpio.on_change (RpiGpio.echoPin n) true hr now n
  = (RpiGpio.set_startTime (Some hr) n, []).
Proof.
  intros H. unfold RpiGpio.on_change. rewrite Z.eqb_refl, H. reflexivity.
Qed.

Lemma rpi_falling (n : RpiGpio.node) (start hr now : Z) :
  RpiGpio.isReading n = true ->
  RpiGpio.startTime n = Some start ->
  start <> 0 ->
  RpiGpio.on_change (RpiGpio.echoPin n) false hr now n
  = (RpiGpio.set_isReading false n,
     Echo.report (Echo.distance_of (Echo.duration start hr)) now).
Proof.
  intros H Hs Hz. unfold RpiGpio.on_change. rewrite Z.eqb_refl, H, Hs.
  cbn [andb Js.truthy]. apply Z.eqb_neq in Hz. rewrite Hz. reflexivity.
Qed.

Lemma rpi_edge_pair_report (n : RpiGpio.node) (hr1 hr2 now : Z) :
  RpiGpio.isReading n = true ->
  hr1 <> 0 ->
  rpi_edge_pair hr1 hr2 now n
  = (RpiGpio.set_isReading false (RpiGpio.set_startTime (Some hr1) n),
     Echo.report (Echo.distance_of (Echo.duration hr1 hr2)) now).
Proof.
  intros H Hz. unfold rpi_edge_pair. rewrite rpi_rising by exact H.
  change (RpiGpio.echoPin n)
    with (RpiGpio.echoPin (RpiGpio.set_startTime (Some hr1) n)).
  rewrite (rpi_falling _ hr1) by (try reflexivity; assumption).
  reflexivity.
Qed.

Lemma sysfs_edge_pair_report (s : Sysfs.node) (hr1 hr2 now : Z) :
  Sysfs.isReading s = true ->
  Sysfs.lastValue s = Some "0"%string ->
  hr1 <> 0 ->
  sysfs_edge_pair hr1 hr2 now s
  = (Sysfs.set_lastValue (Some "0"%string)
       (Sysfs.set_isReading false (Sysfs.set_startTime (Some hr1) s)),
     Echo.report (Echo.distance_of (Echo.duration hr1 hr2)) now).
Proof.
  intros H Hl Hz. unfold sysfs_edge_pair, Sysfs.echo_poll.
  rewrite H, Hl. cbn. rewrite H. apply Z.eqb_neq in Hz. rewrite Hz. reflexivity.
Qed.

(** The two edges, one right after the other, on a node that is measuring:
    when they give a distance in range, what is put out is the message of
    the hundredth [k] nearest to the distance, with the status that shows
    the same digits, and the measurement is over.  Both variants. *)
Lemma edge_pair_reading
  (n : RpiGpio.node) (s : Sysfs.node) (hr1 hr2 now : Z) :
  RpiGpio.isReading n = true ->
  Sysfs.isReading s = true ->
  Sysfs.lastValue s = Some "0"%string ->
  hr1 <> 0 ->
  Echo.in_range (Echo.distance_of (Echo.duration hr1 hr2)) = true ->
  exists k : Z,
    rounds_to_hundredths (Js.value_of (Echo.distance_of (Echo.duration hr1 hr2))) k
    /\ snd (rpi_edge_pair hr1 hr2 now n) = valid_measurement k now
    /\ RpiGpio.isReading (fst (rpi_edge_pair hr1 hr2 now n)) = false
    /\ snd (sysfs_edge_pair hr1 hr2 now s) = valid_measurement k now
    /\ Sysfs.isReading (fst (sysfs_edge_pair hr1 hr2 now s)) = false
    /\ readings (valid_measurement k now)
       = [ Send {| payload := Js.nearest_ratio false k 2; topic := "distance";
                   unit := "cm"; timestamp := now |} ].
Proof.
  intros Hn Hs Hl Hz Hr.
  destruct (in_range_rounding _ Hr) as (k & Hk & _ & Hf & Hp).
  exists k. rewrite rpi_edge_pair_report, sysfs_edge_pair_report by assumption.
  unfold Echo.report. rewrite Hr, Hp, Hf.
  repeat split; try reflexivity; apply Hk.
Qed.

Example pulse_1160_in_range :
  Echo.in_range (Echo.distance_of (Echo.duration 1000 1161000)) = true.
Proof. vm_compute. reflexivity. Qed.

(** The scenario of the specification: a pulse of 1160 microseconds is sent
    as 19.93 cm. *)
Example pulse_1160_reading :
  snd (rpi_edge_pair 1000 1161000 7 Examples.rpi_busy) = valid_measurement 1993 7
  /\ Js.fixed2 1993 = "19.93"%string
  /\ Js.nearest_ratio false 1993 2 = 19.93%float.
Proof. vm_compute. auto. Qed.

(** C5: when the rising and the falling edge of the echo give a distance
    strictly below 2 cm or strictly above 400 cm, nothing is sent, the only
    output is the status "out of range", and the measurement is over
    ([isReading] is false).  Both variants. *)
Theorem C5_out_of_range
  (n : RpiGpio.node) (s : Sysfs.node) (hr1 hr2 now : Z) :
  RpiGpio.isReading n = true ->
  Sysfs.isReading s = true ->
  Sysfs.lastValue s = Some "0"%string ->
  hr1 <> 0 ->
  ((Echo.distance_of (Echo.duration hr1 hr2) <? 2)%float = true
   \/ (400 <? Echo.distance_of (Echo.duration hr1 hr2))%float = true) ->
  snd (rpi_edge_pair hr1 hr2 now n) = [ out_of_range_status ]
  /\ RpiGpio.isReading (fst (rpi_edge_pair hr1 hr2 now n)) = false
  /\ snd (sysfs_edge_pair hr1 hr2 now s) = [ out_of_range_status ]
  /\ Sysfs.isReading (fst (sysfs_edge_pair hr1 hr2 now s)) = false
  /\ readings [ out_of_range_status ] = [].
Proof.
  intros Hn Hs Hl Hz Hd. apply out_of_range in Hd.
  rewrite rpi_edge_pair_report, sysfs_edge_pair_report by assumption.
  unfold Echo.report. rewrite Hd. repeat split; reflexivity.
Qed.

(** The scenario of the specification: a pulse of 30 microseconds. *)
Lemma C5_out_of_range_witness :
  snd (rpi_edge_pair 1000 31000 7 Examples.rpi_busy) = [ out_of_range_status ]
  /\ RpiGpio.isReading (fst (rpi_edge_pair 1000 31000 7 Examples.rpi_busy)) = false
  /\ snd (sysfs_edge_pair 1000 31000 7 Examples.sysfs_polled) = [ out_of_range_status ]
  /\ Sysfs.isReading (fst (sysfs_edge_pair 1000 31000 7 Examples.sysfs_polled)) = false
  /\ readings [ out_of_range_status ] = [].
Proof.
  apply (C5_out_of_range Examples.rpi_busy Examples.sysfs_polled 1000 31000 7);
    first [ reflexivity | discriminate | left; vm_compute; reflexivity ].
Defined.

Example pulse_too_long_out_of_range :
  (400 <? Echo.distance_of (Echo.duration 1000 30001000))%float = true.
Proof. vm_compute. reflexivity. Qed.

(** ** Rising edges during a measurement *)

Lemma sysfs_rising (s : Sysfs.node) (g : Sysfs.io) :
  Sysfs.isReading s = true ->
  Sysfs.lastValue s = Some "0"%string ->
  Sysfs.read g = inl "1"%string ->
  Sysfs.echo_poll g s
  = (Sysfs.set_lastValue (Some "1"%string) (Sysfs.set_startTime (Some (Sysfs.hr g)) s), []).
Proof.
  intros H Hl Hg. unfold Sysfs.echo_poll. rewrite H, Hl, Hg. reflexivity.
Qed.

(** Once the echo watcher has recorded a start time and the level "1", a
    poll changes the start time no more: it reads "1" again, or it reads "0"
    and ends the measurement, or the read fails. *)
Lemma sysfs_poll_keeps_startTime (s : Sysfs.node) (g : Sysfs.io) :
  reads_level g ->
  Js.truthy (Sysfs.startTime s) = true ->
  Sysfs.isReading s = false \/ Sysfs.lastValue s = Some "1"%string ->
  let s' := fst (Sysfs.echo_poll g s) in
  Sysfs.startTime s' = Sysfs.startTime s
  /\ (Sysfs.isReading s' = false \/ Sysfs.lastValue s' = Some "1"%string).
Proof.
  intros Hg Ht Hinv. unfold Sysfs.echo_poll.
  destruct (Sysfs.isReading s) eqn:Hr; cbn [negb].
  2: { split; [reflexivity|left; exact Hr]. }
  destruct Hinv as [Hinv|Hl]; [discriminate|]. rewrite Hl.
  destruct Hg as [Hg|[Hg|[msg Hg]]]; rewrite Hg.
  - cbn. destruct (Sysfs.startTime s) as [start|] eqn:Hs; [|discriminate].
    rewrite Ht. cbn. split; [exact Hs|left; reflexivity].
  - cbn. split; [reflexivity|right; reflexivity].
  - cbn. split; [reflexivity|right; exact Hl].
Qed.

Lemma sysfs_polls_keep_startTime (gs : list Sysfs.io) : forall s,
  Forall reads_level gs ->
  Js.truthy (Sysfs.startTime s) = true ->
  Sysfs.isReading s = false \/ Sysfs.lastValue s = Some "1"%string ->
  Sysfs.startTime (fst (sysfs_polls gs s)) = Sysfs.startTime s.
Proof.
  induction gs as [|g gs IH]; intros s Hgs Ht Hinv; [reflexivity|].
  inversion Hgs as [|g' gs' Hg Hrest]; subst.
  destruct (sysfs_poll_keeps_startTime s g Hg Ht Hinv) as [Hs Hinv'].
  cbn [sysfs_polls].
  destruct (Sysfs.echo_poll g s) as [s1 o1] eqn:E1. cbn [fst] in Hs, Hinv'.
  specialize (IH s1 Hrest).
  destruct (sysfs_polls gs s1) as [s2 o2]. cbn [fst] in *.
  rewrite IH; [exact Hs| rewrite Hs; exact Ht | exact Hinv'].
Qed.

(** C2, as the code has it: a rising edge seen while a measurement is in
    flight sets [startTime] to its own time, whether or not one is recorded
    already, so in [src/hcsr04.js] the last rising edge before the falling
    edge counts.  In [src/unnamed/part_000] a rising edge is a change from
    "0" to "1" between two polls: it overwrites too, but once it has left a
    non-zero start time no further poll that reads a level changes it. *)
Theorem C2_rising_edge_overwrites
  (n : RpiGpio.node) (s : Sysfs.node) (hr now : Z) (g : Sysfs.io)
  (gs : list Sysfs.io) :
  RpiGpio.isReading n = true ->
  Sysfs.isReading s = true ->
  Sysfs.lastValue s = Some "0"%string ->
  Sysfs.read g = inl "1"%string ->
  Sysfs.hr g <> 0 ->
  Forall reads_level gs ->
  RpiGpio.on_change (RpiGpio.echoPin n) true hr now n
  = (RpiGpio.set_startTime (Some hr) n, [])
  /\ Sysfs.echo_poll g s
     = (Sysfs.set_lastValue (Some "1"%string)
          (Sysfs.set_startTime (Some (Sysfs.hr g)) s), [])
  /\ Sysfs.startTime (fst (sysfs_polls gs (fst (Sysfs.echo_poll g s))))
     = Some (Sysfs.hr g).
Proof.
  intros Hn Hs Hl Hg Hz Hgs.
  split; [apply rpi_rising, Hn|].
  rewrite (sysfs_rising s g Hs Hl Hg). split; [reflexivity|].
  cbn [fst]. rewrite sysfs_polls_keep_startTime; try assumption.
  - reflexivity.
  - cbn. apply Z.eqb_neq in Hz. rewrite Hz. reflexivity.
  - right. reflexivity.
Qed.

Lemma C2_rising_edge_overwrites_witness :
  RpiGpio.on_change (RpiGpio.echoPin Examples.rpi_busy) true 5000 0 Examples.rpi_busy
  = (RpiGpio.set_startTime (Some 5000) Examples.rpi_busy, [])
  /\ Sysfs.echo_poll (Examples.reads "1" 7000) Examples.sysfs_polled
     = (Sysfs.set_lastValue (Some "1"%string)
          (Sysfs.set_startTime (Some (Sysfs.hr (Examples.reads "1" 7000)))
             Examples.sysfs_polled), [])
  /\ Sysfs.startTime
       (fst (sysfs_polls [ Examples.reads "1" 8000; Examples.reads "0" 9000;
                           Examples.reads "1" 9500 ]
               (fst (Sysfs.echo_poll (Examples.reads "1" 7000) Examples.sysfs_polled))))
     = Some (Sysfs.hr (Examples.reads "1" 7000)).
Proof.
  apply (C2_rising_edge_overwrites Examples.rpi_busy Examples.sysfs_polled 5000 0
           (Examples.reads "1" 7000)
           [ Examples.reads "1" 8000; Examples.reads "0" 9000; Examples.reads "1" 9500 ]);
    try reflexivity.
  - discriminate.
  - apply Forall_cons; [right; left; reflexivity|].
    apply Forall_cons; [left; reflexivity|].
    apply Forall_cons; [right; left; reflexivity|].
    apply Forall_nil.
Defined.

(** C2 as the specification states it fails on [src/hcsr04.js]: a second
    rising edge before the falling edge replaces the start time of the
    first, and the distance is computed from the second. *)
Lemma C2_first_rising_edge_not_kept :
  let n1 := fst (RpiGpio.dispatch 101 (RpiGpio.Change 24 true 1000 0) Examples.rpi_busy) in
  let n2 := fst (RpiGpio.dispatch 102 (RpiGpio.Change 24 true 581000 0) n1) in
  RpiGpio.isReading n1 = true
  /\ RpiGpio.startTime n1 = Some 1000
  /\ RpiGpio.startTime n2 = Some 581000
  /\ snd (RpiGpio.dispatch 103 (RpiGpio.Change 24 false 1161000 0) n2)
     = valid_measurement 997 0
  /\ snd (RpiGpio.dispatch 103 (RpiGpio.Change 24 false 1161000 0) n1)
     = valid_measurement 1993 0.
Proof. vm_compute. repeat split; reflexivity. Qed.

(** ** A write to the trigger pin fails *)

Lemma rpi_idle_ignores_change (n : RpiGpio.node) (channel : Z) (value : bool) (hr now : Z) :
  RpiGpio.isReading n = false ->
  RpiGpio.on_change channel value hr now n = (n, []).
Proof.
  intros H. unfold RpiGpio.on_change. rewrite H, andb_false_r. reflexivity.
Qed.

Lemma sysfs_idle_ignores_poll (s : Sysfs.node) (g : Sysfs.io) :
  Sysfs.isReading s = false -> Sysfs.echo_poll g s = (s, []).
Proof.
  intros H. unfold Sysfs.echo_poll. rewrite H. reflexivity.
Qed.

(** The paths a failed write takes, whatever the node and the message of
    the failure: when the write of the high level fails (reported to the
    callback in [src/hcsr04.js], caught by writeGpio in
    [src/unnamed/part_000]) or, in [src/hcsr04.js], the write of the low
    level fails, [isReading] is reset and the only output is the call of
    [node.error]; the echo edges that follow are ignored.  The exception
    thrown by the write call of [src/hcsr04.js] itself is the one failure
    that sets the status "trigger failed". *)
Lemma write_failure_paths
  (n : RpiGpio.node) (s : Sysfs.node) (msg : string) (f g : Sysfs.io)
  (channel : Z) (value : bool) (hr now : Z) :
  RpiGpio.isReading n = false ->
  Sysfs.isReading s = false ->
  Sysfs.isInitialized s = true ->
  Sysfs.write f = Some msg ->
  (RpiGpio.on_write_high (Some msg) (fst (RpiGpio.triggerMeasurement None n))
   = (RpiGpio.set_isReading false (fst (RpiGpio.triggerMeasurement None n)),
      [ Error ("Failed to write HIGH to trigger: " ++ msg) ])
   /\ RpiGpio.on_write_low (Some msg) (fst (RpiGpio.triggerMeasurement None n))
      = (RpiGpio.set_isReading false (fst (RpiGpio.triggerMeasurement None n)),
         [ Error ("Failed to write LOW to trigger: " ++ msg) ])
   /\ RpiGpio.triggerMeasurement (Some msg) n
      = (RpiGpio.set_startTime None n,
         [ Error ("Failed to trigger measurement: " ++ msg);
           Status {| sfill := Red; sshape := Ring; text := "trigger failed" |} ])
   /\ RpiGpio.on_change channel value hr now
        (RpiGpio.set_isReading false (fst (RpiGpio.triggerMeasurement None n)))
      = (RpiGpio.set_isReading false (fst (RpiGpio.triggerMeasurement None n)), []))
  /\ (Sysfs.triggerMeasurement f s
      = (Sysfs.set_startTime None s,
         [ Error ("GPIO write error on pin " ++ Js.ToString_int (Sysfs.triggerPin s)
                    ++ ": " ++ msg) ])
      /\ Sysfs.echo_poll g (Sysfs.set_startTime None s) = (Sysfs.set_startTime None s, [])).
Proof.
  intros Hn Hs Hi Hw. split; [repeat split|split].
  - unfold RpiGpio.triggerMeasurement. rewrite Hn. cbn.
    destruct n; cbn in *; subst; reflexivity.
  - apply rpi_idle_ignores_change. reflexivity.
  - unfold Sysfs.triggerMeasurement. rewrite Hs, Hi, Hw. cbn.
    destruct s; cbn in *; subst; reflexivity.
  - apply sysfs_idle_ignores_poll. exact Hs.
Qed.

(** In [src/unnamed/part_000] the write that ends the pulse is not looked
    at: when it fails the measurement stays in flight until an echo or the
    safety timeout ends it. *)
Example sysfs_low_write_failure_keeps_reading :
  let q := Sysfs.dispatch 101 (Sysfs.TimerFires 3 (Examples.write_fails "EIO"))
             Examples.sysfs_busy in
  Sysfs.isReading (fst q) = true
  /\ snd q = [ Error "GPIO write error on pin 18: EIO" ].
Proof. vm_compute. split; reflexivity. Qed.

(** ** Periodic timers *)

(** C7 fails on the code when a "start" message arrives before the delayed
    [startMeasurements] of the constructor has run (within the first 100 ms):
    that call replaces the handle of the interval the message created without
    clearing it, so "stop" and "start" from then on leave two intervals
    running, and over three periods six trigger pulses are begun instead of
    three.  Without the early message there is one interval and three
    pulses. *)
Theorem C7_early_start_leaves_two_intervals :
  let n := Examples.rpi_after Examples.early_start in
  let m := Examples.rpi_after Examples.stop_start in
  map (fun t => (Timers.tid t, Timers.due t)) (RpiGpio.active_intervals n)
  = [ (2%nat, 1050); (5%nat, 1300) ]
  /\ RpiGpio.measurementTimer n = Some 5%nat
  /\ RpiGpio.pulses n (snd (RpiGpio.advance 200 3300 n)) = 6%nat
  /\ map (fun t => (Timers.tid t, Timers.due t)) (RpiGpio.active_intervals m)
     = [ (4%nat, 1300) ]
  /\ RpiGpio.pulses m (snd (RpiGpio.advance 200 3300 m)) = 3%nat.
Proof. vm_compute. repeat split; reflexivity. Qed.

(** The same early "start" in [src/unnamed/part_000]. *)
Example sysfs_early_start_leaves_two_intervals :
  let f := Examples.reads "0" 0 in
  let s := fst (Sysfs.run [ (50, Sysfs.Input (PStr "start") f);
                            (100, Sysfs.TimerFires 0 f);
                            (100, Sysfs.TimerFires 1 f);
                            (200, Sysfs.TimerFires 5 f);
                            (200, Sysfs.Input (PStr "stop") f);
                            (300, Sysfs.Input (PStr "start") f) ]
                  (Sysfs.HCSR04Node Examples.default_config)) in
  map (fun t => (Timers.tid t, Timers.due t)) (Sysfs.active_intervals s)
  = [ (2%nat, 1050); (9%nat, 1300) ].
Proof. vm_compute. reflexivity. Qed.

(** ** Shutdown *)

(** C8 fails on [src/hcsr04.js]: its close handler neither resets
    [isReading] nor cancels the safety timeout, so when it runs during a
    measurement the timeout still fires afterwards and sets the status
    "timeout" after "disconnected".  The trigger pin was written low. *)
Theorem C8_timeout_status_after_close :
  let closed := RpiGpio.dispatch 150 (RpiGpio.Close RpiGpio.CleanupDone) Examples.rpi_busy in
  let later := RpiGpio.advance 10 1000 (fst closed) in
  RpiGpio.isReading Examples.rpi_busy = true
  /\ snd closed = [ GpioWrite 18 false; GpioOther "destroy";
                    Status {| sfill := Red; sshape := Ring; text := "disconnected" |} ]
  /\ RpiGpio.isReading (fst closed) = true
  /\ snd later = [ timeout_status ]
  /\ RpiGpio.clock (fst later) = 1000.
Proof. vm_compute. repeat split; reflexivity. Qed.

Lemma sysfs_closed_fire (id : nat) (f : Sysfs.io) (s : Sysfs.node) :
  Sysfs.isReading s = false ->
  Sysfs.isInitialized s = false ->
  sysfs_initialize_ran s ->
  let r := Sysfs.fire id f s in
  Sysfs.isReading (fst r) = false
  /\ Sysfs.isInitialized (fst r) = false
  /\ sysfs_initialize_ran (fst r)
  /\ silent (snd r).
Proof.
  intros Hr Hi Hq. unfold Sysfs.fire.
  destruct (Timers.find id (Sysfs.timers s)) as [t|] eqn:Ef;
    [|cbn; repeat split; assumption].
  destruct (Timers.due t <=? Sysfs.clock s); [|cbn; repeat split; assumption].
  assert (Hin : In t (Sysfs.timers s)).
  { unfold Timers.find in Ef. apply find_some in Ef. apply Ef. }
  assert (Hq' : forall u, In u (Timers.fired (Sysfs.clock s) t (Sysfs.timers s)) ->
                          Timers.callback u <> Sysfs.CbInitialize).
  { intros u Hu. unfold Timers.fired in Hu. destruct (Timers.repeat t).
    - apply in_map_iff in Hu. destruct Hu as (w & Hw & Hwin).
      destruct (Nat.eqb (Timers.tid w) (Timers.tid t)); subst u; cbn; apply Hq, Hwin.
    - unfold Timers.clear in Hu. apply filter_In in Hu. apply Hq, Hu. }
  specialize (Hq t Hin).
  set (s0 := Sysfs.set_timers _ s).
  assert (Hr0 : Sysfs.isReading s0 = false) by exact Hr.
  assert (Hi0 : Sysfs.isInitialized s0 = false) by exact Hi.
  assert (Hq0 : sysfs_initialize_ran s0) by exact Hq'.
  clearbody s0. clear Hq' Hin Ef Hr Hi.
  destruct (Timers.callback t) eqn:Ec; cbn [Sysfs.run_callback].
  - congruence.
  - unfold Sysfs.startMeasurements, Sysfs.triggerMeasurement.
    rewrite Hr0, Hi0. cbn. repeat split; try assumption.
    intros u Hu. apply in_app_or in Hu. destruct Hu as [Hu|[<-|[]]]; [apply Hq0, Hu|].
    cbn. discriminate.
  - unfold Sysfs.triggerMeasurement. rewrite Hr0, Hi0. cbn. repeat split; assumption.
  - rewrite sysfs_idle_ignores_poll by exact Hr0. cbn. repeat split; assumption.
  - unfold Sysfs.pulse_low, Sysfs.writeGpio. destruct (Sysfs.write f); cbn;
      repeat split; assumption.
  - unfold Sysfs.safety_timeout. rewrite Hr0. cbn. repeat split; assumption.
Qed.

(** The sibling of C8 in [src/unnamed/part_000], whose close handler resets
    [isReading] and [isInitialized]: after it, whatever timers still fire,
    nothing is sent and no status is set. *)
Lemma sysfs_silent_after_close (fires : list (Z * nat * Sysfs.io)) : forall s,
  Sysfs.isReading s = false ->
  Sysfs.isInitialized s = false ->
  sysfs_initialize_ran s ->
  silent (snd (Sysfs.run (sysfs_timer_trace fires) s)).
Proof.
  induction fires as [|[[t id] f] fires IH]; intros s Hr Hi Hq.
  - split; reflexivity.
  - cbn [sysfs_timer_trace map Sysfs.run fst snd].
    unfold Sysfs.dispatch.
    destruct (sysfs_closed_fire id f (Sysfs.set_clock t s) Hr Hi Hq)
      as (Hr1 & Hi1 & Hq1 & Hs1 & Hs2).
    destruct (Sysfs.fire id f (Sysfs.set_clock t s)) as [s1 o1]. cbn [fst snd] in *.
    specialize (IH s1 Hr1 Hi1 Hq1). fold (sysfs_timer_trace fires).
    destruct (Sysfs.run (sysfs_timer_trace fires) s1) as [s2 o2]. cbn [snd] in *.
    destruct IH as [I1 I2]. unfold silent, readings, statuses in *.
    rewrite !filter_app, Hs1, Hs2, I1, I2. split; reflexivity.
Qed.

(** ** The timer queue *)

Section QueueFacts.

Variable C : Type.
Implicit Types (q : list (Timers.timer C)) (t : Timers.timer C).

Lemma find_some_tid id q t :
  Timers.find id q = Some t -> Timers.tid t = id /\ In t q.
Proof.
  unfold Timers.find. intros H. apply find_some in H. destruct H as [Hin Hid].
  apply Nat.eqb_eq in Hid. split; assumption.
Qed.

Lemma find_app_other id q t :
  Timers.tid t <> id -> Timers.find id (q ++ [t]) = Timers.find id q.
Proof.
  intros Hne. unfold Timers.find. induction q as [|u q IH]; cbn.
  - apply Nat.eqb_neq in Hne. rewrite Hne. reflexivity.
  - destruct (Nat.eqb (Timers.tid u) id); [reflexivity|exact IH].
Qed.

Lemma find_app_fresh id q t :
  (forall u, In u q -> Timers.tid u <> id) -> Timers.tid t = id ->
  Timers.find id (q ++ [t]) = Some t.
Proof.
  intros Hq Ht. unfold Timers.find. induction q as [|u q IH]; cbn.
  - apply Nat.eqb_eq in Ht. rewrite Ht. reflexivity.
  - assert (Hu : Timers.tid u <> id) by (apply Hq; left; reflexivity).
    apply Nat.eqb_neq in Hu. rewrite Hu. apply IH.
    intros w Hw. apply Hq. right. exact Hw.
Qed.

Lemma find_clear_other id id' q :
  id' <> id -> Timers.find id (Timers.clear id' q) = Timers.find id q.
Proof.
  intros Hne. unfold Timers.find, Timers.clear. induction q as [|u q IH]; cbn; [reflexivity|].
  destruct (Nat.eqb (Timers.tid u) id') eqn:E1; cbn.
  - apply Nat.eqb_eq in E1.
    assert (E2 : Nat.eqb (Timers.tid u) id = false) by (apply Nat.eqb_neq; congruence).
    rewrite E2. exact IH.
  - destruct (Nat.eqb (Timers.tid u) id); [reflexivity|exact IH].
Qed.

Lemma find_fired_other id now t q :
  Timers.tid t <> id -> Timers.find id (Timers.fired now t q) = Timers.find id q.
Proof.
  intros Hne. unfold Timers.fired. destruct (Timers.repeat t) as [period|].
  - unfold Timers.find. induction q as [|u q IH]; cbn; [reflexivity|].
    destruct (Nat.eqb (Timers.tid u) (Timers.tid t)) eqn:E1; cbn.
    + apply Nat.eqb_eq in E1.
      assert (E2 : Nat.eqb (Timers.tid u) id = false) by (apply Nat.eqb_neq; congruence).
      rewrite E2. exact IH.
    + destruct (Nat.eqb (Timers.tid u) id); [reflexivity|exact IH].
  - apply find_clear_other. exact Hne.
Qed.

Lemma in_fired_tid now t q u :
  In u (Timers.fired now t q) -> exists w, In w q /\ Timers.tid w = Timers.tid u.
Proof.
  unfold Timers.fired. destruct (Timers.repeat t).
  - intros H. apply in_map_iff in H. destruct H as (w & Hw & Hin).
    exists w. split; [exact Hin|].
    destruct (Nat.eqb (Timers.tid w) (Timers.tid t)); subst u; reflexivity.
  - intros H. unfold Timers.clear in H. apply filter_In in H. exists u. split; [apply H|reflexivity].
Qed.

Lemma find_clear_some id id' q u :
  Timers.find id (Timers.clear id' q) = Some u -> Timers.find id q = Some u.
Proof.
  unfold Timers.find, Timers.clear. induction q as [|w q IH]; cbn; [discriminate|].
  destruct (Nat.eqb (Timers.tid w) id') eqn:E1; cbn.
  - intros H. specialize (IH H).
    destruct (Nat.eqb (Timers.tid w) id) eqn:E2; [|exact IH].
    apply Nat.eqb_eq in E1, E2. apply find_some in H. destruct H as [Hin Hu].
    apply filter_In in Hin. destruct Hin as [_ Hne]. apply Nat.eqb_eq in Hu.
    rewrite Hu, <- E2, E1, Nat.eqb_refl in Hne. discriminate.
  - destruct (Nat.eqb (Timers.tid w) id); [auto|exact IH].
Qed.

Lemma find_fired_callback id now t q u :
  Timers.find id (Timers.fired now t q) = Some u ->
  exists w, Timers.find id q = Some w /\ Timers.callback w = Timers.callback u.
Proof.
  unfold Timers.fired. destruct (Timers.repeat t) as [period|].
  - unfold Timers.find. induction q as [|w q IH]; cbn; [discriminate|].
    destruct (Nat.eqb (Timers.tid w) (Timers.tid t)); cbn;
      (destruct (Nat.eqb (Timers.tid w) id); [|exact IH]);
      intros H; inversion H; subst u; exists w; split; reflexivity.
  - intros H. exists u. split; [|reflexivity]. apply (find_clear_some _ _ _ _ H).
Qed.

Lemma in_clear id q u : In u (Timers.clear id q) -> In u q.
Proof. unfold Timers.clear. intros H. apply filter_In in H. apply H. Qed.

End QueueFacts.

Arguments find_some_tid {C}.
Arguments find_app_other {C}.
Arguments find_app_fresh {C}.
Arguments find_clear_other {C}.
Arguments find_fired_other {C}.
Arguments in_fired_tid {C}.
Arguments in_clear {C}.
Arguments find_clear_some {C}.
Arguments find_fired_callback {C}.

Lemma count_status_app (t : string) (a b : list output) :
  count_status t (a ++ b) = (count_status t a + count_status t b)%nat.
Proof. unfold count_status. rewrite filter_app, length_app. reflexivity. Qed.

Lemma readings_app (a b : list output) : readings (a ++ b) = readings a ++ readings b.
Proof. apply filter_app. Qed.

Lemma delay_100 : Timers.delay 100 = 100.
Proof. reflexivity. Qed.

(** ** A measurement that gets no falling edge *)

Ltac rpi_fields :=
  cbn [fst snd RpiGpio.triggerPin RpiGpio.echoPin RpiGpio.interval RpiGpio.setup
       RpiGpio.measurementTimer RpiGpio.isReading RpiGpio.startTime RpiGpio.clock
       RpiGpio.timers RpiGpio.next_id RpiGpio.set_isReading RpiGpio.set_startTime
       RpiGpio.set_setup RpiGpio.set_measurementTimer RpiGpio.set_clock
       RpiGpio.set_timers RpiGpio.schedule RpiGpio.setTimeout RpiGpio.setInterval
       RpiGpio.clearInterval Timers.tid Timers.callback Timers.due Timers.repeat] in *.

Lemma count_timeout_nil (k : nat) : (k + count_status "timeout" [])%nat = k.
Proof. unfold count_status. cbn. apply Nat.add_0_r. Qed.

(** The guard of triggerMeasurement, under any call. *)
Lemma rpi_trigger_busy throws n :
  RpiGpio.isReading n = true -> RpiGpio.triggerMeasurement throws n = (n, []).
Proof. intros H. unfold RpiGpio.triggerMeasurement. rewrite H. reflexivity. Qed.

Lemma rpi_waiting_timers sid due0 n k q :
  rpi_waiting sid due0 n k ->
  (forall u, Timers.find sid q = Some u ->
     exists w, Timers.find sid (RpiGpio.timers n) = Some w
               /\ Timers.callback w = Timers.callback u) ->
  (RpiGpio.isReading n = true -> Timers.find sid q = Timers.find sid (RpiGpio.timers n)) ->
  rpi_waiting sid due0 (RpiGpio.set_timers q n) k.
Proof.
  intros (Hs & Hid & Hm & Hcb & Hc) Hq Hr. unfold rpi_waiting. rpi_fields.
  repeat (split; [assumption|]). split.
  - intros u Hu. destruct (Hq u Hu) as (w & Hw & E). rewrite <- E. apply Hcb, Hw.
  - destruct Hc as [(Hr' & Hk & Hts)|Hc]; [left|right; exact Hc].
    rewrite (Hr Hr'). auto.
Qed.

Lemma rpi_waiting_schedule sid due0 n k cb after period :
  rpi_waiting sid due0 n k ->
  rpi_waiting sid due0 (fst (RpiGpio.schedule cb after period n)) k.
Proof.
  intros (Hs & Hid & Hm & Hcb & Hc). unfold rpi_waiting. rpi_fields.
  rewrite find_app_other by (cbn; lia).
  split; [exact Hs|]. split; [lia|]. auto.
Qed.

Lemma rpi_waiting_clear sid due0 n k id :
  rpi_waiting sid due0 n k ->
  RpiGpio.measurementTimer n = Some id ->
  rpi_waiting sid due0 (RpiGpio.clearInterval id n) k.
Proof.
  intros W Hid. assert (Hne : id <> sid) by (destruct W as (_ & _ & Hm & _); congruence).
  apply rpi_waiting_timers; [exact W| |].
  - intros u Hu. exists u. rewrite find_clear_other in Hu by exact Hne. auto.
  - intros _. apply find_clear_other, Hne.
Qed.

Lemma rpi_waiting_handle sid due0 n k h :
  rpi_waiting sid due0 n k -> h <> Some sid ->
  rpi_waiting sid due0 (RpiGpio.set_measurementTimer h n) k.
Proof.
  intros (Hs & Hid & Hm & Hcb & Hc) Hh. unfold rpi_waiting. rpi_fields. auto.
Qed.

Lemma rpi_start_busy sid due0 k throws n :
  RpiGpio.isReading n = true ->
  rpi_waiting sid due0 n k ->
  rpi_waiting sid due0 (fst (RpiGpio.startMeasurements throws n)) k
  /\ snd (RpiGpio.startMeasurements throws n) = [].
Proof.
  intros Hr W. unfold RpiGpio.startMeasurements.
  rewrite rpi_trigger_busy by exact Hr.
  split; [|reflexivity].
  pose proof (rpi_waiting_schedule sid due0 n k RpiGpio.CbTick
                (inject_Z (RpiGpio.interval n))
                (Some (Timers.delay (inject_Z (RpiGpio.interval n)))) W) as W1.
  unfold RpiGpio.setInterval.
  destruct (RpiGpio.schedule RpiGpio.CbTick (inject_Z (RpiGpio.interval n))
              (Some (Timers.delay (inject_Z (RpiGpio.interval n)))) n) as [n2 id] eqn:E.
  assert (Eid : id = RpiGpio.next_id n) by (unfold RpiGpio.schedule in E; inversion E; reflexivity).
  cbn [fst snd] in *. apply rpi_waiting_handle; [exact W1|].
  intros H. inversion H. destruct W as (_ & Hlt & _). lia.
Qed.

Lemma rpi_kept_same sid due0 k n :
  rpi_waiting sid due0 n k -> rpi_kept sid due0 k (n, []).
Proof.
  intros W. split; [reflexivity|]. cbn [fst snd]. rewrite count_timeout_nil. exact W.
Qed.

Lemma rpi_kept_fire sid due0 k n id throws :
  rpi_waiting sid due0 n k ->
  rpi_quiet n (RpiGpio.TimerFires id throws) = true ->
  rpi_kept sid due0 k (RpiGpio.fire id throws n).
Proof.
  intros W Q. cbn [rpi_quiet] in Q. unfold RpiGpio.fire.
  destruct (Timers.find id (RpiGpio.timers n)) as [t|] eqn:Ef;
    [|apply rpi_kept_same, W].
  destruct (Timers.due t <=? RpiGpio.clock n); [|apply rpi_kept_same, W].
  destruct (find_some_tid _ _ _ Ef) as [Htid _].
  set (m := RpiGpio.set_timers (Timers.fired (RpiGpio.clock n) t (RpiGpio.timers n)) n).
  assert (Hts : Timers.tid t = sid -> Timers.callback t = RpiGpio.CbSafety).
  { intros He. destruct W as (_ & _ & _ & Hcb & _). apply Hcb. congruence. }
  assert (Hm : Timers.callback t <> RpiGpio.CbSafety \/ RpiGpio.isReading n = false ->
               rpi_waiting sid due0 m k).
  { intros Hne. apply rpi_waiting_timers; [exact W| |].
    - intros u Hu. apply (find_fired_callback _ _ _ _ _ Hu).
    - intros Hr. apply find_fired_other. intros He. specialize (Hts He).
      destruct Hne; congruence. }
  destruct (Timers.callback t) eqn:Ecb; cbn [RpiGpio.run_callback].
  - (* startMeasurements *)
    assert (W' : rpi_waiting sid due0 m k) by (apply Hm; left; discriminate).
    destruct (rpi_start_busy sid due0 k throws m Q W') as [W2 Ho].
    split; [rewrite Ho; reflexivity|]. rewrite Ho, count_timeout_nil. exact W2.
  - (* tick *)
    assert (W' : rpi_waiting sid due0 m k) by (apply Hm; left; discriminate).
    rewrite rpi_trigger_busy by exact Q. apply rpi_kept_same, W'.
  - (* the end of the pulse *)
    unfold RpiGpio.pulse_low. split; [reflexivity|]. cbn [fst snd].
    unfold count_status. cbn [filter is_status_text List.length]. rewrite Nat.add_0_r.
    apply Hm. left. discriminate.
  - (* a safety timeout *)
    unfold RpiGpio.safety_timeout.
    destruct (RpiGpio.isReading m) eqn:Hr.
    + split; [reflexivity|]. cbn [fst snd].
      destruct W as (Hs & Hid & Hmt & Hcb & [(_ & Hk & _)|[Hc _]]);
        [|unfold m in Hr; rpi_fields; congruence].
      subst k. unfold rpi_waiting, m. rpi_fields.
      repeat (split; [assumption|]). split; [|right; split; reflexivity].
      intros u Hu. destruct (find_fired_callback _ _ _ _ _ Hu) as (w & Hw & E).
      rewrite <- E. apply Hcb, Hw.
    + apply rpi_kept_same. apply Hm. right. exact Hr.
Qed.

Lemma rpi_kept_input sid due0 k n p throws :
  rpi_waiting sid due0 n k ->
  rpi_quiet n (RpiGpio.Input p throws) = true ->
  rpi_kept sid due0 k (RpiGpio.on_input p throws n).
Proof.
  intros W Q. cbn [rpi_quiet] in Q. unfold RpiGpio.on_input.
  destruct p as [s|[|]|]; try (apply rpi_kept_same, W).
  - destruct (String.eqb s "trigger") eqn:E1.
    { apply String.eqb_eq in E1. subst s. cbn in Q.
      rewrite rpi_trigger_busy by exact Q. apply rpi_kept_same, W. }
    destruct (String.eqb s "start") eqn:E2.
    { apply String.eqb_eq in E2. subst s. cbn in Q.
      assert (W1 : rpi_waiting sid due0
                     match RpiGpio.measurementTimer n with
                     | Some id => RpiGpio.clearInterval id n
                     | None => n
                     end k).
      { destruct (RpiGpio.measurementTimer n) eqn:Em;
          [apply rpi_waiting_clear; assumption|exact W]. }
      assert (Q1 : RpiGpio.isReading
                     match RpiGpio.measurementTimer n with
                     | Some id => RpiGpio.clearInterval id n
                     | None => n
                     end = true).
      { destruct (RpiGpio.measurementTimer n); exact Q. }
      destruct (rpi_start_busy sid due0 k throws _ Q1 W1) as [W2 Ho].
      split; [rewrite Ho; reflexivity|]. rewrite Ho, count_timeout_nil. exact W2. }
    destruct (String.eqb s "stop") eqn:E3; [|apply rpi_kept_same, W].
    split; [reflexivity|]. cbn [fst snd]. unfold count_status.
    cbn [filter is_status_text List.length text].
    change (String.eqb "stopped" "timeout") with false. cbn [List.length].
    rewrite Nat.add_0_r.
    destruct (RpiGpio.measurementTimer n) as [id|] eqn:Em; [|exact W].
    apply rpi_waiting_handle; [|discriminate].
    apply rpi_waiting_clear; assumption.
  - cbn in Q. rewrite rpi_trigger_busy by exact Q. apply rpi_kept_same, W.
Qed.

Lemma rpi_waiting_fields sid due0 k n m :
  rpi_waiting sid due0 n k ->
  RpiGpio.setup m <> RpiGpio.NoLibrary ->
  RpiGpio.next_id m = RpiGpio.next_id n ->
  RpiGpio.measurementTimer m = RpiGpio.measurementTimer n ->
  RpiGpio.timers m = RpiGpio.timers n ->
  RpiGpio.isReading m = RpiGpio.isReading n ->
  rpi_waiting sid due0 m k.
Proof.
  intros (Hs & Hid & Hm & Hcb & Hc) Es En Em Et Er. unfold rpi_waiting.
  rewrite En, Em, Et, Er. auto.
Qed.

Lemma rpi_kept_dispatch sid due0 k n t e :
  rpi_waiting sid due0 n k ->
  rpi_quiet n e = true ->
  rpi_kept sid due0 k (RpiGpio.dispatch t e n).
Proof.
  intros W Q.
  assert (W0 : rpi_waiting sid due0 (RpiGpio.set_clock t n) k) by exact W.
  assert (Q' : rpi_quiet (RpiGpio.set_clock t n) e = true) by exact Q.
  unfold RpiGpio.dispatch. cbv zeta. set (m := RpiGpio.set_clock t n) in *.
  clearbody m. clear Q W n. rename W0 into W.
  pose proof (rpi_kept_same _ _ _ _ W) as Same.
  assert (Hs : RpiGpio.setup m <> RpiGpio.NoLibrary) by apply W.
  destruct e as [err|err|channel value hr now|err|err|id throws|p throws|c].
  - (* SetupTriggerDone *)
    destruct (RpiGpio.setup m) eqn:Es; try exact Same.
    destruct err; (split; [reflexivity|]); cbn [fst snd RpiGpio.on_trigger_setup];
      unfold count_status; cbn [filter is_status_text List.length text];
      try change (String.eqb "trigger pin setup failed" "timeout") with false;
      cbn [List.length]; rewrite Nat.add_0_r;
      (apply (rpi_waiting_fields sid due0 k m); [exact W|discriminate|..]; reflexivity).
  - (* SetupEchoDone *)
    destruct (RpiGpio.setup m) eqn:Es; try exact Same.
    destruct err; (split; [reflexivity|]); cbn [fst snd RpiGpio.on_echo_setup];
      unfold count_status; cbn [filter is_status_text List.length text];
      try change (String.eqb "echo pin setup failed" "timeout") with false;
      try change (String.eqb "ready" "timeout") with false;
      cbn [List.length]; rewrite Nat.add_0_r;
      (apply (rpi_waiting_fields sid due0 k m); [exact W|discriminate|..]; reflexivity).
  - (* Change *)
    destruct (RpiGpio.setup m) eqn:Es; try exact Same.
    unfold RpiGpio.on_change. cbn [rpi_quiet] in Q'.
    destruct (channel =? RpiGpio.echoPin m) eqn:Ec; cbn [andb negb] in *; [|exact Same].
    destruct (RpiGpio.isReading m) eqn:Er; [|exact Same].
    rewrite orb_false_r in Q'. rewrite Q'.
    apply rpi_kept_same.
    apply (rpi_waiting_fields sid due0 k m); try reflexivity; try exact W.
    rpi_fields. rewrite Es. discriminate.
  - (* WriteHighDone *)
    cbn [rpi_quiet] in Q'. destruct err; [discriminate|].
    assert (K : rpi_kept sid due0 k (RpiGpio.on_write_high None m)).
    { apply rpi_kept_same. apply rpi_waiting_schedule, W. }
    destruct (RpiGpio.setup m); first [exact K | congruence].
  - (* WriteLowDone *)
    cbn [rpi_quiet] in Q'. destruct err; [discriminate|].
    destruct (RpiGpio.setup m); exact Same.
  - (* TimerFires *)
    pose proof (rpi_kept_fire sid due0 k m id throws W Q') as K.
    destruct (RpiGpio.setup m); first [exact K | congruence].
  - (* Input *)
    pose proof (rpi_kept_input sid due0 k m p throws W Q') as K.
    destruct (RpiGpio.setup m); first [exact K | congruence].
  - discriminate.
Qed.

Lemma rpi_kept_run sid due0 (trace : list (Z * RpiGpio.event)) : forall n k,
  rpi_waiting sid due0 n k ->
  rpi_quiet_trace n trace ->
  rpi_kept sid due0 k (RpiGpio.run trace n).
Proof.
  induction trace as [|[t e] rest IH]; intros n k W Q.
  - apply rpi_kept_same, W.
  - cbn [rpi_quiet_trace] in Q. destruct Q as [Q Qrest].
    destruct (rpi_kept_dispatch sid due0 k n t e W Q) as [R1 W1].
    cbn [RpiGpio.run].
    destruct (RpiGpio.dispatch t e n) as [n1 o1]. cbn [fst snd] in *.
    destruct (IH n1 _ W1 Qrest) as [R2 W2].
    destruct (RpiGpio.run rest n1) as [n2 o2]. cbn [fst snd] in *.
    split; cbn [fst snd].
    + rewrite readings_app, R1, R2. reflexivity.
    + rewrite count_status_app, Nat.add_assoc. exact W2.
Qed.

(** The safety timeout of the measurement fires. *)
Lemma rpi_waiting_ends sid due0 n k t throws :
  rpi_waiting sid due0 n k ->
  due0 <= t ->
  let r := RpiGpio.dispatch t (RpiGpio.TimerFires sid throws) n in
  readings (snd r) = []
  /\ RpiGpio.isReading (fst r) = false
  /\ (k + count_status "timeout" (snd r))%nat = 1%nat.
Proof.
  intros W Ht.
  assert (E : RpiGpio.dispatch t (RpiGpio.TimerFires sid throws) n
              = RpiGpio.fire sid throws (RpiGpio.set_clock t n)).
  { unfold RpiGpio.dispatch. cbv zeta.
    assert (Hs : RpiGpio.setup (RpiGpio.set_clock t n) <> RpiGpio.NoLibrary) by apply W.
    destruct (RpiGpio.setup (RpiGpio.set_clock t n)); first [reflexivity | congruence]. }
  cbv zeta. rewrite E. clear E.
  assert (W0 : rpi_waiting sid due0 (RpiGpio.set_clock t n) k) by exact W.
  assert (Hc : RpiGpio.clock (RpiGpio.set_clock t n) = t) by reflexivity.
  set (m := RpiGpio.set_clock t n) in *. clearbody m. clear W n.
  destruct W0 as (Hs & Hid & Hm & Hcb & Hcase). unfold RpiGpio.fire.
  destruct Hcase as [(Hr & Hk & ts & Hf & Hdue)|[Hr Hk]].
  - rewrite Hf. rewrite Hc, Hdue. apply Z.leb_le in Ht. rewrite Ht.
    rewrite (Hcb ts Hf). cbn [RpiGpio.run_callback]. unfold RpiGpio.safety_timeout.
    rpi_fields. rewrite Hr. subst k. repeat split.
  - destruct (Timers.find sid (RpiGpio.timers m)) as [u|] eqn:Ef.
    + rewrite (Hcb u eq_refl).
      destruct (Timers.due u <=? RpiGpio.clock m); cbn [RpiGpio.run_callback];
        unfold RpiGpio.safety_timeout; rpi_fields; rewrite ?Hr;
        cbn [fst snd]; rewrite count_timeout_nil; repeat split; assumption.
    + cbn [fst snd]. rewrite count_timeout_nil. repeat split; assumption.
Qed.

Ltac sysfs_fields :=
  cbn [fst snd Sysfs.triggerPin Sysfs.echoPin Sysfs.interval Sysfs.measurementTimer
       Sysfs.isReading Sysfs.startTime Sysfs.echoWatcher Sysfs.isInitialized
       Sysfs.lastValue Sysfs.clock Sysfs.timers Sysfs.next_id
       Sysfs.set_isReading Sysfs.set_startTime Sysfs.set_measurementTimer
       Sysfs.set_echoWatcher Sysfs.set_isInitialized Sysfs.set_lastValue
       Sysfs.set_clock Sysfs.set_timers Sysfs.schedule Sysfs.setTimeout
       Sysfs.setInterval Sysfs.clearInterval
       Timers.tid Timers.callback Timers.due Timers.repeat] in *.

Lemma sysfs_trigger_busy f s :
  Sysfs.isReading s = true -> Sysfs.triggerMeasurement f s = (s, []).
Proof. intros H. unfold Sysfs.triggerMeasurement. rewrite H. reflexivity. Qed.

Lemma sysfs_waiting_timers sid due0 s k q :
  sysfs_waiting sid due0 s k ->
  (forall u, Timers.find sid q = Some u ->
     exists w, Timers.find sid (Sysfs.timers s) = Some w
               /\ Timers.callback w = Timers.callback u) ->
  (Sysfs.isReading s = true -> Timers.find sid q = Timers.find sid (Sysfs.timers s)) ->
  sysfs_waiting sid due0 (Sysfs.set_timers q s) k.
Proof.
  intros (Hid & Hm & Hcb & Hc) Hq Hr. unfold sysfs_waiting. sysfs_fields.
  repeat (split; [assumption|]). split.
  - intros u Hu. destruct (Hq u Hu) as (w & Hw & E). rewrite <- E. apply Hcb, Hw.
  - destruct Hc as [(Hr' & Hk & Hts)|Hc]; [left|right; exact Hc].
    rewrite (Hr Hr'). auto.
Qed.

Lemma sysfs_waiting_schedule sid due0 s k cb after period :
  sysfs_waiting sid due0 s k ->
  sysfs_waiting sid due0 (fst (Sysfs.schedule cb after period s)) k.
Proof.
  intros (Hid & Hm & Hcb & Hc). unfold sysfs_waiting. sysfs_fields.
  rewrite find_app_other by (cbn; lia).
  split; [lia|]. auto.
Qed.

Lemma sysfs_waiting_clear sid due0 s k id :
  sysfs_waiting sid due0 s k ->
  Sysfs.measurementTimer s = Some id ->
  sysfs_waiting sid due0 (Sysfs.clearInterval id s) k.
Proof.
  intros W Hid. assert (Hne : id <> sid) by (destruct W as (_ & Hm & _); congruence).
  apply sysfs_waiting_timers; [exact W| |].
  - intros u Hu. exists u. rewrite find_clear_other in Hu by exact Hne. auto.
  - intros _. apply find_clear_other, Hne.
Qed.

Lemma sysfs_waiting_handle sid due0 s k h :
  sysfs_waiting sid due0 s k -> h <> Some sid ->
  sysfs_waiting sid due0 (Sysfs.set_measurementTimer h s) k.
Proof.
  intros (Hid & Hm & Hcb & Hc) Hh. unfold sysfs_waiting. sysfs_fields. auto.
Qed.

Lemma sysfs_waiting_fields sid due0 k s m :
  sysfs_waiting sid due0 s k ->
  Sysfs.next_id m = Sysfs.next_id s ->
  Sysfs.measurementTimer m = Sysfs.measurementTimer s ->
  Sysfs.timers m = Sysfs.timers s ->
  Sysfs.isReading m = Sysfs.isReading s ->
  sysfs_waiting sid due0 m k.
Proof.
  intros (Hid & Hm & Hcb & Hc) En Em Et Er. unfold sysfs_waiting.
  rewrite En, Em, Et, Er. auto.
Qed.

Lemma sysfs_start_busy sid due0 k f s :
  Sysfs.isReading s = true ->
  sysfs_waiting sid due0 s k ->
  sysfs_waiting sid due0 (fst (Sysfs.startMeasurements f s)) k
  /\ snd (Sysfs.startMeasurements f s) = [].
Proof.
  intros Hr W. unfold Sysfs.startMeasurements.
  rewrite sysfs_trigger_busy by exact Hr.
  split; [|reflexivity].
  pose proof (sysfs_waiting_schedule sid due0 s k Sysfs.CbTick
                (inject_Z (Sysfs.interval s))
                (Some (Timers.delay (inject_Z (Sysfs.interval s)))) W) as W1.
  unfold Sysfs.setInterval.
  destruct (Sysfs.schedule Sysfs.CbTick (inject_Z (Sysfs.interval s))
              (Some (Timers.delay (inject_Z (Sysfs.interval s)))) s) as [s2 id] eqn:E.
  assert (Eid : id = Sysfs.next_id s) by (unfold Sysfs.schedule in E; inversion E; reflexivity).
  cbn [fst snd] in *. apply sysfs_waiting_handle; [exact W1|].
  intros H. inversion H. destruct W as (Hlt & _). lia.
Qed.

Lemma sysfs_kept_same sid due0 k s :
  sysfs_waiting sid due0 s k -> sysfs_kept sid due0 k (s, []).
Proof.
  intros W. split; [reflexivity|]. cbn [fst snd]. rewrite count_timeout_nil. exact W.
Qed.

(** A poll that sees no falling edge sends nothing and keeps the
    measurement as it is. *)
Lemma sysfs_kept_poll sid due0 k s f :
  sysfs_waiting sid due0 s k ->
  sysfs_falling s f = false ->
  sysfs_kept sid due0 k (Sysfs.echo_poll f s).
Proof.
  intros W Q. unfold Sysfs.echo_poll, sysfs_falling in *.
  destruct (Sysfs.isReading s) eqn:Hr; cbn [negb]; [|apply sysfs_kept_same, W].
  destruct (Sysfs.read f) as [current|msg].
  - assert (K : forall v t, sysfs_kept sid due0 k
                  (Sysfs.set_lastValue v (Sysfs.set_startTime t s), [])).
    { intros v t. apply sysfs_kept_same.
      apply (sysfs_waiting_fields sid due0 k s); try reflexivity. exact W. }
    assert (K0 : forall v, sysfs_kept sid due0 k (Sysfs.set_lastValue v s, [])).
    { intros v. apply sysfs_kept_same.
      apply (sysfs_waiting_fields sid due0 k s); try reflexivity. exact W. }
    destruct (Sysfs.lastValue s) as [last|]; [|apply K0].
    destruct (negb (String.eqb current last)); [|apply K0].
    destruct (String.eqb current "1" && String.eqb last "0"); [apply K|].
    rewrite Q. apply K0.
  - split; [destruct (Sysfs.isInitialized s); reflexivity|]. cbn [fst snd].
    assert (E : count_status "timeout"
                  (if Sysfs.isInitialized s
                   then [Error ("Echo pin read error: " ++ msg)] else []) = 0%nat)
      by (destruct (Sysfs.isInitialized s); reflexivity).
    rewrite E, Nat.add_0_r. exact W.
Qed.

Lemma sysfs_kept_fire sid due0 k s id f :
  sysfs_waiting sid due0 s k ->
  sysfs_quiet s (Sysfs.TimerFires id f) = true ->
  sysfs_kept sid due0 k (Sysfs.fire id f s).
Proof.
  intros W Q. cbn [sysfs_quiet] in Q. unfold Sysfs.fire.
  destruct (Timers.find id (Sysfs.timers s)) as [t|] eqn:Ef;
    [|apply sysfs_kept_same, W].
  destruct (Timers.due t <=? Sysfs.clock s); [|apply sysfs_kept_same, W].
  destruct (find_some_tid _ _ _ Ef) as [Htid _].
  set (m := Sysfs.set_timers (Timers.fired (Sysfs.clock s) t (Sysfs.timers s)) s).
  assert (Hts : Timers.tid t = sid -> Timers.callback t = Sysfs.CbSafety).
  { intros He. destruct W as (_ & _ & Hcb & _). apply Hcb. congruence. }
  assert (Hm : Timers.callback t <> Sysfs.CbSafety \/ Sysfs.isReading s = false ->
               sysfs_waiting sid due0 m k).
  { intros Hne. apply sysfs_waiting_timers; [exact W| |].
    - intros u Hu. apply (find_fired_callback _ _ _ _ _ Hu).
    - intros Hr. apply find_fired_other. intros He. specialize (Hts He).
      destruct Hne; congruence. }
  destruct (Timers.callback t) eqn:Ecb; cbn [Sysfs.run_callback].
  - discriminate.
  - assert (W' : sysfs_waiting sid due0 m k) by (apply Hm; left; discriminate).
    destruct (sysfs_start_busy sid due0 k f m Q W') as [W2 Ho].
    split; [rewrite Ho; reflexivity|]. rewrite Ho, count_timeout_nil. exact W2.
  - assert (W' : sysfs_waiting sid due0 m k) by (apply Hm; left; discriminate).
    rewrite sysfs_trigger_busy by exact Q. apply sysfs_kept_same, W'.
  - assert (W' : sysfs_waiting sid due0 m k) by (apply Hm; left; discriminate).
    apply sysfs_kept_poll; [exact W'|]. apply negb_true_iff in Q. exact Q.
  - unfold Sysfs.pulse_low, Sysfs.writeGpio.
    assert (W' : sysfs_waiting sid due0 m k) by (apply Hm; left; discriminate).
    destruct (Sysfs.write f); (split; [reflexivity|]); cbn [fst snd];
      unfold count_status; cbn [filter is_status_text List.length];
      rewrite Nat.add_0_r; exact W'.
  - unfold Sysfs.safety_timeout.
    destruct (Sysfs.isReading m) eqn:Hr.
    + split; [reflexivity|]. cbn [fst snd].
      destruct W as (Hid & Hmt & Hcb & [(_ & Hk & _)|[Hc _]]);
        [|unfold m in Hr; sysfs_fields; congruence].
      subst k. unfold sysfs_waiting, m. sysfs_fields.
      repeat (split; [assumption|]). split; [|right; split; reflexivity].
      intros u Hu. destruct (find_fired_callback _ _ _ _ _ Hu) as (w & Hw & E).
      rewrite <- E. apply Hcb, Hw.
    + apply sysfs_kept_same. apply Hm. right. exact Hr.
Qed.

Lemma sysfs_kept_input sid due0 k s p f :
  sysfs_waiting sid due0 s k ->
  sysfs_quiet s (Sysfs.Input p f) = true ->
  sysfs_kept sid due0 k (Sysfs.on_input p f s).
Proof.
  intros W Q. cbn [sysfs_quiet] in Q. unfold Sysfs.on_input.
  destruct p as [x|[|]|]; try (apply sysfs_kept_same, W).
  - destruct (String.eqb x "trigger") eqn:E1.
    { apply String.eqb_eq in E1. subst x. cbn in Q.
      rewrite sysfs_trigger_busy by exact Q. apply sysfs_kept_same, W. }
    destruct (String.eqb x "start") eqn:E2.
    { apply String.eqb_eq in E2. subst x. cbn in Q.
      assert (W1 : sysfs_waiting sid due0
                     match Sysfs.measurementTimer s with
                     | Some id => Sysfs.clearInterval id s
                     | None => s
                     end k).
      { destruct (Sysfs.measurementTimer s) eqn:Em;
          [apply sysfs_waiting_clear; assumption|exact W]. }
      assert (Q1 : Sysfs.isReading
                     match Sysfs.measurementTimer s with
                     | Some id => Sysfs.clearInterval id s
                     | None => s
                     end = true).
      { destruct (Sysfs.measurementTimer s); exact Q. }
      destruct (sysfs_start_busy sid due0 k f _ Q1 W1) as [W2 Ho].
      split; [rewrite Ho; reflexivity|]. rewrite Ho, count_timeout_nil. exact W2. }
    destruct (String.eqb x "stop") eqn:E3; [|apply sysfs_kept_same, W].
    split; [reflexivity|]. cbn [fst snd]. unfold count_status.
    cbn [filter is_status_text List.length text].
    change (String.eqb "stopped" "timeout") with false. cbn [List.length].
    rewrite Nat.add_0_r.
    destruct (Sysfs.measurementTimer s) as [id|] eqn:Em; [|exact W].
    apply sysfs_waiting_handle; [|discriminate].
    apply sysfs_waiting_clear; assumption.
  - cbn in Q. rewrite sysfs_trigger_busy by exact Q. apply sysfs_kept_same, W.
Qed.

Lemma sysfs_kept_dispatch sid due0 k s t e :
  sysfs_waiting sid due0 s k ->
  sysfs_quiet s e = true ->
  sysfs_kept sid due0 k (Sysfs.dispatch t e s).
Proof.
  intros W Q.
  assert (W0 : sysfs_waiting sid due0 (Sysfs.set_clock t s) k) by exact W.
  assert (Q' : sysfs_quiet (Sysfs.set_clock t s) e = true) by exact Q.
  unfold Sysfs.dispatch. cbv zeta.
  destruct e as [id f|p f|c].
  - apply sysfs_kept_fire; assumption.
  - apply sysfs_kept_input; assumption.
  - discriminate.
Qed.

Lemma sysfs_kept_run sid due0 (trace : list (Z * Sysfs.event)) : forall s k,
  sysfs_waiting sid due0 s k ->
  sysfs_quiet_trace s trace ->
  sysfs_kept sid due0 k (Sysfs.run trace s).
Proof.
  induction trace as [|[t e] rest IH]; intros s k W Q.
  - apply sysfs_kept_same, W.
  - cbn [sysfs_quiet_trace] in Q. destruct Q as [Q Qrest].
    destruct (sysfs_kept_dispatch sid due0 k s t e W Q) as [R1 W1].
    cbn [Sysfs.run].
    destruct (Sysfs.dispatch t e s) as [s1 o1]. cbn [fst snd] in *.
    destruct (IH s1 _ W1 Qrest) as [R2 W2].
    destruct (Sysfs.run rest s1) as [s2 o2]. cbn [fst snd] in *.
    split; cbn [fst snd].
    + rewrite readings_app, R1, R2. reflexivity.
    + rewrite count_status_app, Nat.add_assoc. exact W2.
Qed.

Lemma sysfs_waiting_ends sid due0 s k t f :
  sysfs_waiting sid due0 s k ->
  due0 <= t ->
  let r := Sysfs.dispatch t (Sysfs.TimerFires sid f) s in
  readings (snd r) = []
  /\ Sysfs.isReading (fst r) = false
  /\ (k + count_status "timeout" (snd r))%nat = 1%nat.
Proof.
  intros W Ht. cbv zeta. unfold Sysfs.dispatch. cbv zeta.
  assert (W0 : sysfs_waiting sid due0 (Sysfs.set_clock t s) k) by exact W.
  assert (Hc : Sysfs.clock (Sysfs.set_clock t s) = t) by reflexivity.
  set (m := Sysfs.set_clock t s) in *. clearbody m. clear W s.
  destruct W0 as (Hid & Hm & Hcb & Hcase). unfold Sysfs.fire.
  destruct Hcase as [(Hr & Hk & ts & Hf & Hdue)|[Hr Hk]].
  - rewrite Hf. rewrite Hc, Hdue. apply Z.leb_le in Ht. rewrite Ht.
    rewrite (Hcb ts Hf). cbn [Sysfs.run_callback]. unfold Sysfs.safety_timeout.
    sysfs_fields. rewrite Hr. subst k. repeat split.
  - destruct (Timers.find sid (Sysfs.timers m)) as [u|] eqn:Ef.
    + rewrite (Hcb u eq_refl).
      destruct (Timers.due u <=? Sysfs.clock m); cbn [Sysfs.run_callback];
        unfold Sysfs.safety_timeout; sysfs_fields; rewrite ?Hr;
        cbn [fst snd]; rewrite count_timeout_nil; repeat split; assumption.
    + cbn [fst snd]. rewrite count_timeout_nil. repeat split; assumption.
Qed.

(** triggerMeasurement begins the measurement and arms its safety timeout. *)
Lemma rpi_trigger_waits (n : RpiGpio.node) (T : Z) :
  RpiGpio.isReading n = false ->
  RpiGpio.setup n <> RpiGpio.NoLibrary ->
  rpi_handles_fresh n ->
  let r := RpiGpio.dispatch T (RpiGpio.Input (PBool true) None) n in
  snd r = [ GpioWrite (RpiGpio.triggerPin n) true ]
  /\ rpi_waiting (RpiGpio.next_id n) (T + 100) (fst r) 0.
Proof.
  intros Hr Hs [Hq Hm].
  assert (E : RpiGpio.dispatch T (RpiGpio.Input (PBool true) None) n
              = (RpiGpio.setTimeout RpiGpio.CbSafety 100
                   (RpiGpio.set_startTime None
                      (RpiGpio.set_isReading true (RpiGpio.set_clock T n))),
                 [ GpioWrite (RpiGpio.triggerPin n) true ])).
  { unfold RpiGpio.dispatch. cbv zeta.
    assert (E1 : RpiGpio.on_input (PBool true) None (RpiGpio.set_clock T n)
                 = RpiGpio.triggerMeasurement None (RpiGpio.set_clock T n)) by reflexivity.
    assert (E2 : RpiGpio.setup (RpiGpio.set_clock T n) = RpiGpio.setup n) by reflexivity.
    rewrite E2.
    destruct (RpiGpio.setup n); try congruence; rewrite E1;
      unfold RpiGpio.triggerMeasurement; rpi_fields; rewrite Hr; reflexivity. }
  cbv zeta. rewrite E. split; [reflexivity|].
  unfold rpi_waiting. rpi_fields.
  assert (F : Timers.find (RpiGpio.next_id n)
                (RpiGpio.timers n
                 ++ [ {| Timers.tid := RpiGpio.next_id n; Timers.callback := RpiGpio.CbSafety;
                         Timers.due := T + Timers.delay 100; Timers.repeat := None |} ])
              = Some {| Timers.tid := RpiGpio.next_id n; Timers.callback := RpiGpio.CbSafety;
                        Timers.due := T + Timers.delay 100; Timers.repeat := None |}).
  { apply find_app_fresh; [|reflexivity].
    intros u Hu. specialize (Hq u Hu). lia. }
  rewrite F.
  split; [exact Hs|]. split; [lia|].
  split; [intros H; specialize (Hm _ H); lia|].
  split; [intros t Ht; inversion Ht; reflexivity|].
  left. split; [reflexivity|]. split; [reflexivity|].
  eexists. split; [reflexivity|]. reflexivity.
Qed.

Lemma sysfs_trigger_waits (s : Sysfs.node) (T : Z) (f : Sysfs.io) :
  Sysfs.isReading s = false ->
  Sysfs.isInitialized s = true ->
  Sysfs.write f = None ->
  sysfs_handles_fresh s ->
  let r := Sysfs.dispatch T (Sysfs.Input (PBool true) f) s in
  snd r = [ GpioWrite (Sysfs.triggerPin s) true ]
  /\ sysfs_waiting (S (Sysfs.next_id s)) (T + 100) (fst r) 0.
Proof.
  intros Hr Hi Hw [Hq Hm].
  assert (E : Sysfs.dispatch T (Sysfs.Input (PBool true) f) s
              = (Sysfs.setTimeout Sysfs.CbSafety 100
                   (Sysfs.setTimeout Sysfs.CbPulseLow (1 # 100)
                      (Sysfs.set_startTime None
                         (Sysfs.set_isReading true (Sysfs.set_clock T s)))),
                 [ GpioWrite (Sysfs.triggerPin s) true ])).
  { unfold Sysfs.dispatch. cbv zeta.
    change (Sysfs.on_input (PBool true) f (Sysfs.set_clock T s))
      with (Sysfs.triggerMeasurement f (Sysfs.set_clock T s)).
    unfold Sysfs.triggerMeasurement. sysfs_fields. rewrite Hr, Hi, Hw. reflexivity. }
  cbv zeta. rewrite E. split; [reflexivity|].
  unfold sysfs_waiting. sysfs_fields.
  set (pulse := {| Timers.tid := Sysfs.next_id s; Timers.callback := Sysfs.CbPulseLow;
                   Timers.due := T + Timers.delay (1 # 100); Timers.repeat := None |}).
  set (safety := {| Timers.tid := S (Sysfs.next_id s); Timers.callback := Sysfs.CbSafety;
                    Timers.due := T + Timers.delay 100; Timers.repeat := None |}).
  assert (F : Timers.find (S (Sysfs.next_id s)) ((Sysfs.timers s ++ [pulse]) ++ [safety])
              = Some safety).
  { apply find_app_fresh; [|reflexivity].
    intros u Hu. apply in_app_or in Hu. destruct Hu as [Hu|[<-|[]]].
    - specialize (Hq u Hu). lia.
    - cbn. lia. }
  rewrite F.
  split; [lia|].
  split; [intros H; specialize (Hm _ H); lia|].
  split; [intros t Ht; inversion Ht; reflexivity|].
  left. split; [reflexivity|]. split; [reflexivity|].
  exists safety. split; reflexivity.
Qed.

Lemma rpi_run_app (tr1 : list (Z * RpiGpio.event)) : forall tr2 m,
  RpiGpio.run (tr1 ++ tr2) m
  = (fst (RpiGpio.run tr2 (fst (RpiGpio.run tr1 m))),
     snd (RpiGpio.run tr1 m) ++ snd (RpiGpio.run tr2 (fst (RpiGpio.run tr1 m)))).
Proof.
  induction tr1 as [|[t1 e1] tr1 IH]; intros tr2 m; cbn [app RpiGpio.run fst snd].
  - destruct (RpiGpio.run tr2 m); reflexivity.
  - destruct (RpiGpio.dispatch t1 e1 m) as [m1 p1]. rewrite IH.
    destruct (RpiGpio.run tr1 m1) as [m2 p2]. cbn [fst snd].
    destruct (RpiGpio.run tr2 m2) as [m3 p3]. cbn [fst snd].
    rewrite app_assoc. reflexivity.
Qed.

Lemma sysfs_run_app (tr1 : list (Z * Sysfs.event)) : forall tr2 m,
  Sysfs.run (tr1 ++ tr2) m
  = (fst (Sysfs.run tr2 (fst (Sysfs.run tr1 m))),
     snd (Sysfs.run tr1 m) ++ snd (Sysfs.run tr2 (fst (Sysfs.run tr1 m)))).
Proof.
  induction tr1 as [|[t1 e1] tr1 IH]; intros tr2 m; cbn [app Sysfs.run fst snd].
  - destruct (Sysfs.run tr2 m); reflexivity.
  - destruct (Sysfs.dispatch t1 e1 m) as [m1 p1]. rewrite IH.
    destruct (Sysfs.run tr1 m1) as [m2 p2]. cbn [fst snd].
    destruct (Sysfs.run tr2 m2) as [m3 p3]. cbn [fst snd].
    rewrite app_assoc. reflexivity.
Qed.

(** C4: a measurement whose echo never falls ends by a safety timeout: from
    the call of triggerMeasurement that begins it, through any events that
    bring no falling echo edge, no failed write and no shutdown and begin no
    other measurement (rising edges, finished writes, other timers, messages
    that are ignored or stop the interval), up to its own safety timeout 100
    ms after the call, the status "timeout" is set exactly once, nothing is
    sent, and [isReading] is false in the end.  Both variants. *)
Theorem C4_timeout_without_falling_edge
  (n : RpiGpio.node) (s : Sysfs.node) (f g : Sysfs.io) (T t : Z)
  (events : list (Z * RpiGpio.event)) (sevents : list (Z * Sysfs.event)) :
  RpiGpio.isReading n = false ->
  RpiGpio.setup n <> RpiGpio.NoLibrary ->
  rpi_handles_fresh n ->
  Sysfs.isReading s = false ->
  Sysfs.isInitialized s = true ->
  Sysfs.write f = None ->
  sysfs_handles_fresh s ->
  rpi_quiet_trace (fst (RpiGpio.dispatch T (RpiGpio.Input (PBool true) None) n)) events ->
  sysfs_quiet_trace (fst (Sysfs.dispatch T (Sysfs.Input (PBool true) f) s)) sevents ->
  T + 100 <= t ->
  let r := RpiGpio.run
             (((T, RpiGpio.Input (PBool true) None) :: events)
                ++ [ (t, RpiGpio.TimerFires (RpiGpio.next_id n) None) ]) n in
  let q := Sysfs.run
             (((T, Sysfs.Input (PBool true) f) :: sevents)
                ++ [ (t, Sysfs.TimerFires (S (Sysfs.next_id s)) g) ]) s in
  (count_status "timeout" (snd r) = 1%nat
   /\ readings (snd r) = []
   /\ RpiGpio.isReading (fst r) = false)
  /\ (count_status "timeout" (snd q) = 1%nat
      /\ readings (snd q) = []
      /\ Sysfs.isReading (fst q) = false).
Proof.
  intros Hr Hs Hf Hsr Hsi Hw Hsf Q SQ Ht. cbv zeta. split.
  - destruct (rpi_trigger_waits n T Hr Hs Hf) as [Ho W].
    cbn [app RpiGpio.run].
    destruct (RpiGpio.dispatch T (RpiGpio.Input (PBool true) None) n) as [n1 o1].
    cbn [fst snd] in *.
    rewrite rpi_run_app.
    destruct (rpi_kept_run _ _ events n1 0%nat W Q) as [R1 W1].
    destruct (RpiGpio.run events n1) as [n2 o2]. cbn [fst snd] in *.
    destruct (rpi_waiting_ends _ _ n2 _ t None W1 Ht) as (R2 & I2 & K2).
    cbn [RpiGpio.run].
    destruct (RpiGpio.dispatch t (RpiGpio.TimerFires (RpiGpio.next_id n) None) n2)
      as [n3 o3]. cbn [fst snd] in *.
    rewrite app_nil_r. subst o1.
    rewrite !count_status_app, !readings_app, R1, R2.
    repeat split; try assumption; cbn in K2 |- *; exact K2.
  - destruct (sysfs_trigger_waits s T f Hsr Hsi Hw Hsf) as [Ho W].
    cbn [app Sysfs.run].
    destruct (Sysfs.dispatch T (Sysfs.Input (PBool true) f) s) as [s1 o1].
    cbn [fst snd] in *.
    rewrite sysfs_run_app.
    destruct (sysfs_kept_run _ _ sevents s1 0%nat W SQ) as [R1 W1].
    destruct (Sysfs.run sevents s1) as [s2 o2]. cbn [fst snd] in *.
    destruct (sysfs_waiting_ends _ _ s2 _ t g W1 Ht) as (R2 & I2 & K2).
    cbn [Sysfs.run].
    destruct (Sysfs.dispatch t (Sysfs.TimerFires (S (Sysfs.next_id s)) g) s2)
      as [s3 o3]. cbn [fst snd] in *.
    rewrite app_nil_r. subst o1.
    rewrite !count_status_app, !readings_app, R1, R2.
    repeat split; try assumption; cbn in K2 |- *; exact K2.
Qed.

Lemma C4_timeout_without_falling_edge_witness :
  (count_status "timeout"
     (snd (RpiGpio.run
             (((100, RpiGpio.Input (PBool true) None) :: Examples.rpi_no_echo)
                ++ [ (200, RpiGpio.TimerFires (RpiGpio.next_id Examples.rpi_ready) None) ])
             Examples.rpi_ready)) = 1%nat
   /\ readings
        (snd (RpiGpio.run
                (((100, RpiGpio.Input (PBool true) None) :: Examples.rpi_no_echo)
                   ++ [ (200, RpiGpio.TimerFires (RpiGpio.next_id Examples.rpi_ready) None) ])
                Examples.rpi_ready)) = []
   /\ RpiGpio.isReading
        (fst (RpiGpio.run
                (((100, RpiGpio.Input (PBool true) None) :: Examples.rpi_no_echo)
                   ++ [ (200, RpiGpio.TimerFires (RpiGpio.next_id Examples.rpi_ready) None) ])
                Examples.rpi_ready)) = false)
  /\ (count_status "timeout"
        (snd (Sysfs.run
                (((100, Sysfs.Input (PBool true) (Examples.reads "0" 0))
                    :: Examples.sysfs_no_echo)
                   ++ [ (200, Sysfs.TimerFires (S (Sysfs.next_id Examples.sysfs_ready))
                                (Examples.reads "1" 0)) ])
                Examples.sysfs_ready)) = 1%nat
      /\ readings
           (snd (Sysfs.run
                   (((100, Sysfs.Input (PBool true) (Examples.reads "0" 0))
                       :: Examples.sysfs_no_echo)
                      ++ [ (200, Sysfs.TimerFires (S (Sysfs.next_id Examples.sysfs_ready))
                                   (Examples.reads "1" 0)) ])
                   Examples.sysfs_ready)) = []
      /\ Sysfs.isReading
           (fst (Sysfs.run
                   (((100, Sysfs.Input (PBool true) (Examples.reads "0" 0))
                       :: Examples.sysfs_no_echo)
                      ++ [ (200, Sysfs.TimerFires (S (Sysfs.next_id Examples.sysfs_ready))
                                   (Examples.reads "1" 0)) ])
                   Examples.sysfs_ready)) = false).
Proof.
  apply (C4_timeout_without_falling_edge Examples.rpi_ready Examples.sysfs_ready
           (Examples.reads "0" 0) (Examples.reads "1" 0) 100 200
           Examples.rpi_no_echo Examples.sysfs_no_echo).
  - reflexivity.
  - discriminate.
  - split.
    + intros t [<-|[]]. cbn. lia.
    + intros id H. discriminate H.
  - reflexivity.
  - reflexivity.
  - reflexivity.
  - split.
    + intros t [<-|[<-|[]]]; cbn; lia.
    + intros id H. discriminate H.
  - vm_compute. repeat split; reflexivity.
  - vm_compute. repeat split; reflexivity.
  - lia.
Defined.

(** ** What sends a message *)

Lemma report_readings (d : float) (now : Z) :
  readings (Echo.report d now) <> [] ->
  exists k, 200 <= k <= 40000 /\ Echo.report d now = valid_measurement k now.
Proof.
  unfold Echo.report. destruct (Echo.in_range d) eqn:E; [|intros H; exfalso; apply H; reflexivity].
  intros _. destruct (in_range_rounding d E) as (k & _ & Hk & Hf & Hp).
  exists k. split; [exact Hk|]. unfold valid_measurement. rewrite Hp, Hf. reflexivity.
Qed.

Lemma rpi_trigger_sends_nothing throws n :
  readings (snd (RpiGpio.triggerMeasurement throws n)) = [].
Proof.
  unfold RpiGpio.triggerMeasurement. destruct (RpiGpio.isReading n); [reflexivity|].
  destruct throws; reflexivity.
Qed.

Lemma rpi_start_sends_nothing throws n :
  readings (snd (RpiGpio.startMeasurements throws n)) = [].
Proof.
  unfold RpiGpio.startMeasurements.
  pose proof (rpi_trigger_sends_nothing throws n) as H.
  destruct (RpiGpio.triggerMeasurement throws n) as [n1 o1]. exact H.
Qed.

Lemma rpi_fire_sends_nothing id throws n :
  readings (snd (RpiGpio.fire id throws n)) = [].
Proof.
  unfold RpiGpio.fire. destruct (Timers.find id (RpiGpio.timers n)) as [t|]; [|reflexivity].
  destruct (Timers.due t <=? RpiGpio.clock n); [|reflexivity].
  destruct (Timers.callback t); cbn [RpiGpio.run_callback].
  - apply rpi_start_sends_nothing.
  - apply rpi_trigger_sends_nothing.
  - reflexivity.
  - unfold RpiGpio.safety_timeout. destruct (RpiGpio.isReading _); reflexivity.
Qed.

Lemma rpi_input_sends_nothing p throws n :
  readings (snd (RpiGpio.on_input p throws n)) = [].
Proof.
  unfold RpiGpio.on_input. destruct p as [s|[|]|]; try reflexivity.
  - destruct (String.eqb s "trigger"); [apply rpi_trigger_sends_nothing|].
    destruct (String.eqb s "start"); [apply rpi_start_sends_nothing|].
    destruct (String.eqb s "stop"); reflexivity.
  - apply rpi_trigger_sends_nothing.
Qed.

Lemma rpi_close_sends_nothing c n : readings (snd (RpiGpio.on_close c n)) = [].
Proof. unfold RpiGpio.on_close. destruct c; reflexivity. Qed.

Lemma rpi_dispatch_readings (n : RpiGpio.node) (t : Z) (e : RpiGpio.event) :
  readings (snd (RpiGpio.dispatch t e n)) <> [] ->
  RpiGpio.setup n = RpiGpio.Listening
  /\ RpiGpio.isReading n = true
  /\ RpiGpio.isReading (fst (RpiGpio.dispatch t e n)) = false
  /\ exists hr now k,
       e = RpiGpio.Change (RpiGpio.echoPin n) false hr now
       /\ 200 <= k <= 40000
       /\ snd (RpiGpio.dispatch t e n) = valid_measurement k now.
Proof.
  unfold RpiGpio.dispatch. cbv zeta.
  change (RpiGpio.setup (RpiGpio.set_clock t n)) with (RpiGpio.setup n).
  intros H.
  assert (No : forall r : RpiGpio.node * list output,
             readings (snd r) = [] -> readings (snd r) <> [] -> False)
    by (intros r E1 E2; apply E2, E1).
  destruct e as [err|err|channel value hr now|err|err|id throws|p throws|c].
  - exfalso. destruct (RpiGpio.setup n); try (apply H; reflexivity).
    destruct err; apply H; reflexivity.
  - exfalso. destruct (RpiGpio.setup n); try (apply H; reflexivity).
    destruct err; apply H; reflexivity.
  - destruct (RpiGpio.setup n) eqn:Es; try (exfalso; apply H; reflexivity).
    split; [reflexivity|].
    unfold RpiGpio.on_change in *.
    change (RpiGpio.echoPin (RpiGpio.set_clock t n)) with (RpiGpio.echoPin n) in *.
    change (RpiGpio.isReading (RpiGpio.set_clock t n)) with (RpiGpio.isReading n) in *.
    change (RpiGpio.startTime (RpiGpio.set_clock t n)) with (RpiGpio.startTime n) in *.
    destruct (channel =? RpiGpio.echoPin n) eqn:Ec; cbn [andb] in *;
      [|exfalso; apply H; reflexivity].
    destruct (RpiGpio.isReading n) eqn:Er; [|exfalso; apply H; reflexivity].
    destruct value; [exfalso; apply H; reflexivity|].
    destruct (RpiGpio.startTime n) as [start|]; [|exfalso; apply H; reflexivity].
    destruct (Js.truthy (Some start)); [|exfalso; apply H; reflexivity].
    cbn [fst snd] in *. split; [reflexivity|]. split; [reflexivity|].
    destruct (report_readings _ _ H) as (k & Hk & Hrep).
    apply Z.eqb_eq in Ec. subst channel.
    exists hr, now, k. auto.
  - exfalso. destruct (RpiGpio.setup n); try (apply H; reflexivity);
      destruct err; apply H; reflexivity.
  - exfalso. destruct (RpiGpio.setup n); try (apply H; reflexivity);
      destruct err; apply H; reflexivity.
  - exfalso. destruct (RpiGpio.setup n); try (apply H; reflexivity);
      apply H, rpi_fire_sends_nothing.
  - exfalso. destruct (RpiGpio.setup n); try (apply H; reflexivity);
      apply H, rpi_input_sends_nothing.
  - exfalso. destruct (RpiGpio.setup n); try (apply H; reflexivity);
      apply H, rpi_close_sends_nothing.
Qed.

(** Nothing but a falling edge of the echo pin makes [src/hcsr04.js] send a
    reading: when an event puts out a reading, the 'change' listener is
    registered, a measurement was in flight and is over afterwards, the
    event is a falling edge on the echo pin, and the output is the reading
    and its status for a distance of [k] hundredths of a centimetre, with
    2.00 <= k/100 <= 400.00. *)
Theorem rpi_reading_only_by_falling_edge (n : RpiGpio.node) (t : Z) (e : RpiGpio.event) :
  readings (snd (RpiGpio.dispatch t e n)) <> [] ->
  RpiGpio.setup n = RpiGpio.Listening
  /\ RpiGpio.isReading n = true
  /\ RpiGpio.isReading (fst (RpiGpio.dispatch t e n)) = false
  /\ exists hr now k,
       e = RpiGpio.Change (RpiGpio.echoPin n) false hr now
       /\ 200 <= k <= 40000
       /\ snd (RpiGpio.dispatch t e n) = valid_measurement k now.
Proof. exact (rpi_dispatch_readings n t e). Qed.

Lemma sysfs_trigger_sends_nothing f s :
  readings (snd (Sysfs.triggerMeasurement f s)) = [].
Proof.
  unfold Sysfs.triggerMeasurement.
  destruct (Sysfs.isReading s || negb (Sysfs.isInitialized s)); [reflexivity|].
  unfold Sysfs.writeGpio. destruct (Sysfs.write f); reflexivity.
Qed.

Lemma sysfs_start_sends_nothing f s :
  readings (snd (Sysfs.startMeasurements f s)) = [].
Proof.
  unfold Sysfs.startMeasurements.
  pose proof (sysfs_trigger_sends_nothing f s) as H.
  destruct (Sysfs.triggerMeasurement f s) as [s1 o1]. exact H.
Qed.

Lemma sysfs_input_sends_nothing p f s :
  readings (snd (Sysfs.on_input p f s)) = [].
Proof.
  unfold Sysfs.on_input. destruct p as [x|[|]|]; try reflexivity.
  - destruct (String.eqb x "trigger"); [apply sysfs_trigger_sends_nothing|].
    destruct (String.eqb x "start"); [apply sysfs_start_sends_nothing|].
    destruct (String.eqb x "stop"); reflexivity.
  - apply sysfs_trigger_sends_nothing.
Qed.

Lemma sysfs_close_sends_nothing c s : readings (snd (Sysfs.on_close c s)) = [].
Proof.
  unfold Sysfs.on_close. cbn [snd]. unfold Sysfs.writeGpio, Sysfs.unexports.
  destruct (Sysfs.close_write c), (Sysfs.unexport_trigger c), (Sysfs.unexport_echo c);
    reflexivity.
Qed.

Lemma sysfs_initialize_sends_nothing f s :
  readings (snd (Sysfs.initialize f s)) = [].
Proof.
  unfold Sysfs.initialize, Sysfs.initializeGpio, Sysfs.exportPin, Sysfs.setPinDirection,
    Sysfs.writeGpio, Sysfs.failed.
  destruct (Sysfs.export_trigger f); cbn; try reflexivity;
  destruct (Sysfs.direction_trigger f); cbn; try reflexivity;
  destruct (Sysfs.write_trigger f); cbn; try reflexivity;
  destruct (Sysfs.export_echo f); cbn; try reflexivity;
  destruct (Sysfs.direction_echo f); cbn; try reflexivity;
  destruct (Sysfs.edge_echo f); cbn; reflexivity.
Qed.

Lemma sysfs_poll_readings f s :
  readings (snd (Sysfs.echo_poll f s)) <> [] ->
  Sysfs.isReading s = true
  /\ sysfs_falling s f = true
  /\ Sysfs.isReading (fst (Sysfs.echo_poll f s)) = false
  /\ exists k, 200 <= k <= 40000
               /\ snd (Sysfs.echo_poll f s) = valid_measurement k (Sysfs.now f).
Proof.
  unfold Sysfs.echo_poll, sysfs_falling.
  destruct (Sysfs.isReading s) eqn:Er; cbn [negb]; [|intros H; exfalso; apply H; reflexivity].
  destruct (Sysfs.read f) as [current|msg];
    [|intros H; exfalso; apply H; destruct (Sysfs.isInitialized s); reflexivity].
  destruct (Sysfs.lastValue s) as [last|]; [|intros H; exfalso; apply H; reflexivity].
  destruct (negb (String.eqb current last)); [|intros H; exfalso; apply H; reflexivity].
  destruct (String.eqb current "1" && String.eqb last "0");
    [intros H; exfalso; apply H; reflexivity|].
  destruct (String.eqb current "0" && String.eqb last "1");
    [|intros H; exfalso; apply H; reflexivity].
  destruct (Sysfs.startTime s) as [start|]; [|intros H; exfalso; apply H; reflexivity].
  destruct (Js.truthy (Some start)); [|intros H; exfalso; apply H; reflexivity].
  cbn [fst snd]. intros H. destruct (report_readings _ _ H) as (k & Hk & Hrep).
  repeat split. exists k. auto.
Qed.

Lemma sysfs_fire_readings id f s :
  readings (snd (Sysfs.fire id f s)) <> [] ->
  (exists t, Timers.find id (Sysfs.timers s) = Some t
             /\ Timers.callback t = Sysfs.CbEchoPoll)
  /\ Sysfs.isReading s = true
  /\ sysfs_falling s f = true
  /\ Sysfs.isReading (fst (Sysfs.fire id f s)) = false
  /\ exists k, 200 <= k <= 40000
               /\ snd (Sysfs.fire id f s) = valid_measurement k (Sysfs.now f).
Proof.
  unfold Sysfs.fire.
  destruct (Timers.find id (Sysfs.timers s)) as [t|];
    [|intros H; exfalso; apply H; reflexivity].
  destruct (Timers.due t <=? Sysfs.clock s); [|intros H; exfalso; apply H; reflexivity].
  destruct (Timers.callback t) eqn:Ecb; cbn [Sysfs.run_callback]; intros H.
  - exfalso. apply H, sysfs_initialize_sends_nothing.
  - exfalso. apply H, sysfs_start_sends_nothing.
  - exfalso. apply H, sysfs_trigger_sends_nothing.
  - split; [exists t; auto|]. apply (sysfs_poll_readings _ _ H).
  - exfalso. apply H. unfold Sysfs.pulse_low, Sysfs.writeGpio.
    destruct (Sysfs.write f); reflexivity.
  - exfalso. apply H. unfold Sysfs.safety_timeout.
    destruct (Sysfs.isReading _); reflexivity.
Qed.

Lemma sysfs_dispatch_readings (s : Sysfs.node) (t : Z) (e : Sysfs.event) :
  readings (snd (Sysfs.dispatch t e s)) <> [] ->
  Sysfs.isReading s = true
  /\ Sysfs.isReading (fst (Sysfs.dispatch t e s)) = false
  /\ exists id f k,
       e = Sysfs.TimerFires id f
       /\ (exists w, Timers.find id (Sysfs.timers s) = Some w
                     /\ Timers.callback w = Sysfs.CbEchoPoll)
       /\ sysfs_falling s f = true
       /\ 200 <= k <= 40000
       /\ snd (Sysfs.dispatch t e s) = valid_measurement k (Sysfs.now f).
Proof.
  unfold Sysfs.dispatch. cbv zeta. intros H. destruct e as [id f|p f|c].
  - destruct (sysfs_fire_readings id f (Sysfs.set_clock t s) H)
      as (Ht & Hr & Hf & Hr' & k & Hk & Ho).
    split; [exact Hr|]. split; [exact Hr'|]. exists id, f, k. auto.
  - exfalso. apply H, sysfs_input_sends_nothing.
  - exfalso. apply H, sysfs_close_sends_nothing.
Qed.

(** Nothing but a poll of the echo watcher that sees the echo file go from
    "1" to "0" makes [src/unnamed/part_000] send a reading: when an event
    puts out a reading, a measurement was in flight and is over afterwards,
    the event is the echo watcher's timer firing on such a poll, and the
    output is the reading and its status for a distance of [k] hundredths
    of a centimetre, with 2.00 <= k/100 <= 400.00. *)
Theorem sysfs_reading_only_by_falling_edge (s : Sysfs.node) (t : Z) (e : Sysfs.event) :
  readings (snd (Sysfs.dispatch t e s)) <> [] ->
  Sysfs.isReading s = true
  /\ Sysfs.isReading (fst (Sysfs.dispatch t e s)) = false
  /\ exists id f k,
       e = Sysfs.TimerFires id f
       /\ (exists w, Timers.find id (Sysfs.timers s) = Some w
                     /\ Timers.callback w = Sysfs.CbEchoPoll)
       /\ sysfs_falling s f = true
       /\ 200 <= k <= 40000
       /\ snd (Sysfs.dispatch t e s) = valid_measurement k (Sysfs.now f).
Proof. exact (sysfs_dispatch_readings s t e). Qed.

(** ** What raises the trigger pin *)

Lemma rpi_trigger_pulse throws n pin :
  In (GpioWrite pin true) (snd (RpiGpio.triggerMeasurement throws n)) ->
  pin = RpiGpio.triggerPin n
  /\ rpi_began (RpiGpio.clock n) n (fst (RpiGpio.triggerMeasurement throws n)).
Proof.
  unfold RpiGpio.triggerMeasurement.
  destruct (RpiGpio.isReading n) eqn:Er; cbn [snd]; [intros []|].
  destruct throws; cbn [snd fst].
  - intros [H|[H|[]]]; discriminate H.
  - intros [H|[]]. inversion H. split; [reflexivity|].
    unfold rpi_began. rpi_fields. repeat split; try assumption.
    eexists. split; [apply in_or_app; right; left; reflexivity|].
    split; reflexivity.
Qed.

Lemma rpi_start_pulse throws n pin :
  In (GpioWrite pin true) (snd (RpiGpio.startMeasurements throws n)) ->
  pin = RpiGpio.triggerPin n
  /\ rpi_began (RpiGpio.clock n) n (fst (RpiGpio.startMeasurements throws n)).
Proof.
  unfold RpiGpio.startMeasurements. intros H.
  pose proof (rpi_trigger_pulse throws n pin) as P.
  destruct (RpiGpio.triggerMeasurement throws n) as [n1 o1]. cbn [fst snd] in *.
  destruct (P H) as (Hp & Hr & Hr1 & Hs & ts & Hin & Hcb & Hdue).
  split; [exact Hp|]. unfold rpi_began. rpi_fields.
  repeat (split; [assumption|]).
  exists ts. split; [apply in_or_app; left; exact Hin|]. auto.
Qed.

Lemma rpi_fire_pulse id throws n pin :
  In (GpioWrite pin true) (snd (RpiGpio.fire id throws n)) ->
  pin = RpiGpio.triggerPin n
  /\ rpi_began (RpiGpio.clock n) n (fst (RpiGpio.fire id throws n)).
Proof.
  unfold RpiGpio.fire.
  destruct (Timers.find id (RpiGpio.timers n)) as [t|]; [|intros []].
  destruct (Timers.due t <=? RpiGpio.clock n); [|intros []].
  set (m := RpiGpio.set_timers _ n).
  destruct (Timers.callback t); cbn [RpiGpio.run_callback]; intros H.
  - apply (rpi_start_pulse throws m pin H).
  - apply (rpi_trigger_pulse throws m pin H).
  - destruct H as [H|[]]. discriminate H.
  - unfold RpiGpio.safety_timeout in H. destruct (RpiGpio.isReading m); cbn in H.
    + destruct H as [H|[]]. discriminate H.
    + destruct H.
Qed.

Lemma rpi_input_pulse p throws n pin :
  In (GpioWrite pin true) (snd (RpiGpio.on_input p throws n)) ->
  pin = RpiGpio.triggerPin n
  /\ rpi_began (RpiGpio.clock n) n (fst (RpiGpio.on_input p throws n)).
Proof.
  unfold RpiGpio.on_input. destruct p as [x|[|]|]; try (intros []).
  - destruct (String.eqb x "trigger"); [apply rpi_trigger_pulse|].
    destruct (String.eqb x "start").
    { intros H.
      destruct (RpiGpio.measurementTimer n) as [id|];
        [apply (rpi_start_pulse throws (RpiGpio.clearInterval id n) pin H)
        |apply (rpi_start_pulse throws n pin H)]. }
    destruct (String.eqb x "stop"); [|intros []].
    intros [H|[]]. discriminate H.
  - apply rpi_trigger_pulse.
Qed.

Lemma rpi_dispatch_pulse (n : RpiGpio.node) (t : Z) (e : RpiGpio.event) (pin : Z) :
  In (GpioWrite pin true) (snd (RpiGpio.dispatch t e n)) ->
  pin = RpiGpio.triggerPin n
  /\ rpi_began t n (fst (RpiGpio.dispatch t e n)).
Proof.
  unfold RpiGpio.dispatch. cbv zeta.
  change (RpiGpio.setup (RpiGpio.set_clock t n)) with (RpiGpio.setup n).
  intros H.
  assert (F : forall id throws,
             In (GpioWrite pin true) (snd (RpiGpio.fire id throws (RpiGpio.set_clock t n))) ->
             pin = RpiGpio.triggerPin n
             /\ rpi_began t n (fst (RpiGpio.fire id throws (RpiGpio.set_clock t n))))
    by (intros id throws; apply rpi_fire_pulse).
  assert (I : forall p throws,
             In (GpioWrite pin true) (snd (RpiGpio.on_input p throws (RpiGpio.set_clock t n))) ->
             pin = RpiGpio.triggerPin n
             /\ rpi_began t n (fst (RpiGpio.on_input p throws (RpiGpio.set_clock t n))))
    by (intros p throws; apply rpi_input_pulse).
  assert (C : forall c, ~ In (GpioWrite pin true)
                          (snd (RpiGpio.on_close c (RpiGpio.set_clock t n)))).
  { intros c. unfold RpiGpio.on_close. cbn [snd].
    destruct c; cbn; intros K; repeat (destruct K as [K|K]; try discriminate K); exact K. }
  assert (Wh : forall err, ~ In (GpioWrite pin true)
                             (snd (RpiGpio.on_write_high err (RpiGpio.set_clock t n)))).
  { intros [msg|]; cbn; intros K; repeat (destruct K as [K|K]; try discriminate K); exact K. }
  assert (Wl : forall err, ~ In (GpioWrite pin true)
                             (snd (RpiGpio.on_write_low err (RpiGpio.set_clock t n)))).
  { intros [msg|]; cbn; intros K; repeat (destruct K as [K|K]; try discriminate K); exact K. }
  destruct e as [err|err|channel value hr now|err|err|id throws|p throws|c];
    destruct (RpiGpio.setup n);
    try (destruct H; fail);
    try (apply F; exact H); try (apply I; exact H);
    try (exfalso; apply (C _ H)); try (exfalso; apply (Wh _ H));
    try (exfalso; apply (Wl _ H)).
  - destruct err; cbn in H; repeat (destruct H as [H|H]; try discriminate H); destruct H.
  - destruct err; cbn in H; repeat (destruct H as [H|H]; try discriminate H); destruct H.
  - exfalso. unfold RpiGpio.on_change in H.
    destruct ((channel =? RpiGpio.echoPin (RpiGpio.set_clock t n))
              && RpiGpio.isReading (RpiGpio.set_clock t n)); [|destruct H].
    destruct value; [destruct H|].
    destruct (RpiGpio.startTime (RpiGpio.set_clock t n)); [|destruct H].
    destruct (Js.truthy (Some z)); [|destruct H].
    cbn [snd] in H. unfold Echo.report in H.
    destruct (Echo.in_range _); cbn in H;
      repeat (destruct H as [H|H]; try discriminate H); exact H.
Qed.

(** [src/hcsr04.js] raises no pin but the trigger pin, and only to begin a
    measurement: whenever an event writes a pin high, the pin is the
    trigger pin, no measurement was in flight before, and afterwards one
    is, with [startTime] reset and a safety timeout due 100 ms later. *)
Theorem rpi_pulse_only_from_idle (n : RpiGpio.node) (t : Z) (e : RpiGpio.event) (pin : Z) :
  In (GpioWrite pin true) (snd (RpiGpio.dispatch t e n)) ->
  pin = RpiGpio.triggerPin n
  /\ rpi_began t n (fst (RpiGpio.dispatch t e n)).
Proof. exact (rpi_dispatch_pulse n t e pin). Qed.

Lemma delay_pulse : Timers.delay (1 # 100) = 1.
Proof. reflexivity. Qed.

Lemma sysfs_trigger_pulse f s pin :
  In (GpioWrite pin true) (snd (Sysfs.triggerMeasurement f s)) ->
  pin = Sysfs.triggerPin s
  /\ sysfs_began (Sysfs.clock s) s (fst (Sysfs.triggerMeasurement f s)).
Proof.
  unfold Sysfs.triggerMeasurement.
  destruct (Sysfs.isReading s) eqn:Er; cbn [orb snd]; [intros []|].
  destruct (Sysfs.isInitialized s) eqn:Ei; cbn [negb snd]; [|intros []].
  unfold Sysfs.writeGpio. destruct (Sysfs.write f); cbn [snd fst].
  - intros [H|[]]. discriminate H.
  - intros [H|[]]. inversion H. split; [reflexivity|].
    unfold sysfs_began. sysfs_fields. repeat (split; [assumption || reflexivity|]).
    split.
    + eexists. split; [apply in_or_app; right; left; reflexivity|].
      split; reflexivity.
    + eexists. split; [apply in_or_app; left; apply in_or_app; right; left; reflexivity|].
      split; reflexivity.
Qed.

Lemma sysfs_start_pulse f s pin :
  In (GpioWrite pin true) (snd (Sysfs.startMeasurements f s)) ->
  pin = Sysfs.triggerPin s
  /\ sysfs_began (Sysfs.clock s) s (fst (Sysfs.startMeasurements f s)).
Proof.
  unfold Sysfs.startMeasurements. intros H.
  pose proof (sysfs_trigger_pulse f s pin) as P.
  destruct (Sysfs.triggerMeasurement f s) as [s1 o1]. cbn [fst snd] in *.
  destruct (P H) as (Hp & Hr & Hi & Hr1 & Hs & (ts & Hin & Hcb & Hdue)
                     & (tp & Hinp & Hcbp & Hduep)).
  split; [exact Hp|]. unfold sysfs_began. sysfs_fields.
  repeat (split; [assumption|]). split.
  - exists ts. split; [apply in_or_app; left; exact Hin|]. auto.
  - exists tp. split; [apply in_or_app; left; exact Hinp|]. auto.
Qed.

Lemma sysfs_initialize_no_pulse f s pin :
  ~ In (GpioWrite pin true) (snd (Sysfs.initialize f s)).
Proof.
  unfold Sysfs.initialize, Sysfs.initializeGpio, Sysfs.exportPin, Sysfs.setPinDirection,
    Sysfs.writeGpio, Sysfs.failed.
  destruct (Sysfs.export_trigger f); cbn;
    try (intros K; repeat (destruct K as [K|K]; try discriminate K); exact K);
  destruct (Sysfs.direction_trigger f); cbn;
    try (intros K; repeat (destruct K as [K|K]; try discriminate K); exact K);
  destruct (Sysfs.write_trigger f); cbn;
    try (intros K; repeat (destruct K as [K|K]; try discriminate K); exact K);
  destruct (Sysfs.export_echo f); cbn;
    try (intros K; repeat (destruct K as [K|K]; try discriminate K); exact K);
  destruct (Sysfs.direction_echo f); cbn;
    try (intros K; repeat (destruct K as [K|K]; try discriminate K); exact K);
  destruct (Sysfs.edge_echo f); cbn;
    intros K; repeat (destruct K as [K|K]; try discriminate K); exact K.
Qed.

Lemma sysfs_poll_no_pulse f s pin :
  ~ In (GpioWrite pin true) (snd (Sysfs.echo_poll f s)).
Proof.
  unfold Sysfs.echo_poll.
  destruct (negb (Sysfs.isReading s)); [intros []|].
  destruct (Sysfs.read f) as [current|msg].
  - destruct (Sysfs.lastValue s) as [last|]; [|intros []].
    destruct (negb (String.eqb current last)); [|intros []].
    destruct (String.eqb current "1" && String.eqb last "0"); [intros []|].
    destruct (String.eqb current "0" && String.eqb last "1"); [|intros []].
    destruct (Sysfs.startTime s) as [start|]; [|intros []].
    destruct (Js.truthy (Some start)); [|intros []].
    cbn [snd]. unfold Echo.report. destruct (Echo.in_range _); cbn;
      intros K; repeat (destruct K as [K|K]; try discriminate K); exact K.
  - destruct (Sysfs.isInitialized s); cbn;
      intros K; repeat (destruct K as [K|K]; try discriminate K); exact K.
Qed.

Lemma sysfs_fire_pulse id f s pin :
  In (GpioWrite pin true) (snd (Sysfs.fire id f s)) ->
  pin = Sysfs.triggerPin s
  /\ sysfs_began (Sysfs.clock s) s (fst (Sysfs.fire id f s)).
Proof.
  unfold Sysfs.fire.
  destruct (Timers.find id (Sysfs.timers s)) as [t|]; [|intros []].
  destruct (Timers.due t <=? Sysfs.clock s); [|intros []].
  set (m := Sysfs.set_timers _ s).
  destruct (Timers.callback t); cbn [Sysfs.run_callback]; intros H.
  - exfalso. apply (sysfs_initialize_no_pulse _ _ _ H).
  - apply (sysfs_start_pulse f m pin H).
  - apply (sysfs_trigger_pulse f m pin H).
  - exfalso. apply (sysfs_poll_no_pulse _ _ _ H).
  - exfalso. unfold Sysfs.pulse_low, Sysfs.writeGpio in H.
    destruct (Sysfs.write f); cbn in H;
      repeat (destruct H as [H|H]; try discriminate H); exact H.
  - exfalso. unfold Sysfs.safety_timeout in H. destruct (Sysfs.isReading m); cbn in H;
      repeat (destruct H as [H|H]; try discriminate H); exact H.
Qed.

Lemma sysfs_input_pulse p f s pin :
  In (GpioWrite pin true) (snd (Sysfs.on_input p f s)) ->
  pin = Sysfs.triggerPin s
  /\ sysfs_began (Sysfs.clock s) s (fst (Sysfs.on_input p f s)).
Proof.
  unfold Sysfs.on_input. destruct p as [x|[|]|]; try (intros []).
  - destruct (String.eqb x "trigger"); [apply sysfs_trigger_pulse|].
    destruct (String.eqb x "start").
    { intros H.
      destruct (Sysfs.measurementTimer s) as [id|];
        [apply (sysfs_start_pulse f (Sysfs.clearInterval id s) pin H)
        |apply (sysfs_start_pulse f s pin H)]. }
    destruct (String.eqb x "stop"); [|intros []].
    intros [H|[]]. discriminate H.
  - apply sysfs_trigger_pulse.
Qed.

Lemma sysfs_dispatch_pulse (s : Sysfs.node) (t : Z) (e : Sysfs.event) (pin : Z) :
  In (GpioWrite pin true) (snd (Sysfs.dispatch t e s)) ->
  pin = Sysfs.triggerPin s
  /\ sysfs_began t s (fst (Sysfs.dispatch t e s)).
Proof.
  unfold Sysfs.dispatch. cbv zeta. intros H. destruct e as [id f|p f|c].
  - apply (sysfs_fire_pulse id f (Sysfs.set_clock t s) pin H).
  - apply (sysfs_input_pulse p f (Sysfs.set_clock t s) pin H).
  - exfalso. unfold Sysfs.on_close in H. cbn [snd] in H.
    unfold Sysfs.writeGpio, Sysfs.unexports in H.
    destruct (Sysfs.close_write c), (Sysfs.unexport_trigger c), (Sysfs.unexport_echo c);
      cbn in H; repeat (destruct H as [H|H]; try discriminate H); exact H.
Qed.

(** [src/unnamed/part_000] raises no pin but the trigger pin, and only to
    begin a measurement on an initialised node: whenever an event writes a
    pin high, the pin is the trigger pin, the node was initialised with no
    measurement in flight, and afterwards one is, with [startTime] reset,
    the end of the pulse due 1 ms later (the 0.01 ms asked for is below
    what a timer takes) and the safety timeout due 100 ms later. *)
Theorem sysfs_pulse_only_from_idle (s : Sysfs.node) (t : Z) (e : Sysfs.event) (pin : Z) :
  In (GpioWrite pin true) (snd (Sysfs.dispatch t e s)) ->
  pin = Sysfs.triggerPin s
  /\ sysfs_began t s (fst (Sysfs.dispatch t e s)).
Proof. exact (sysfs_dispatch_pulse s t e pin). Qed.

(** ** The bookkeeping of the event loop *)

Section QueueBookkeeping.

Variable C : Type.
Implicit Types (q : list (Timers.timer C)) (t u : Timers.timer C).

Lemma tid_fired now t q :
  map Timers.tid (Timers.fired now t q)
  = match Timers.repeat t with
    | Some _ => map Timers.tid q
    | None => map Timers.tid (Timers.clear (Timers.tid t) q)
    end.
Proof.
  unfold Timers.fired. destruct (Timers.repeat t); [|reflexivity].
  rewrite map_map. apply map_ext. intros u.
  destruct (Nat.eqb (Timers.tid u) (Timers.tid t)); reflexivity.
Qed.

Lemma nodup_clear id q :
  NoDup (map Timers.tid q) -> NoDup (map Timers.tid (Timers.clear id q)).
Proof.
  unfold Timers.clear. induction q as [|u q IH]; cbn; intros H; [constructor|].
  inversion H as [|x l Hn Hd]; subst.
  destruct (negb (Nat.eqb (Timers.tid u) id)); cbn; [|apply IH, Hd].
  constructor; [|apply IH, Hd].
  intros Hin. apply Hn. apply in_map_iff in Hin. destruct Hin as (w & Ew & Hw).
  apply filter_In in Hw. apply in_map_iff. exists w. split; [exact Ew|apply Hw].
Qed.

Lemma nodup_fired now t q :
  NoDup (map Timers.tid q) -> NoDup (map Timers.tid (Timers.fired now t q)).
Proof.
  intros H. rewrite tid_fired. destruct (Timers.repeat t); [exact H|apply nodup_clear, H].
Qed.

Lemma nodup_schedule q t :
  NoDup (map Timers.tid q) ->
  (forall u, In u q -> Timers.tid u <> Timers.tid t) ->
  NoDup (map Timers.tid (q ++ [t])).
Proof.
  intros H Hf. rewrite map_app. cbn. apply NoDup_app; [exact H | repeat constructor; intros [] |].
  intros x Hx [<-|[]]. apply in_map_iff in Hx. destruct Hx as (u & Eu & Hu).
  apply (Hf u Hu Eu).
Qed.

Lemma in_clear_iff id q u :
  In u (Timers.clear id q) <-> In u q /\ Timers.tid u <> id.
Proof.
  unfold Timers.clear. rewrite filter_In, negb_true_iff, Nat.eqb_neq. reflexivity.
Qed.

(** A timer other than the one that fired stays in the queue as it is. *)
Lemma in_fired_other now t q u :
  In u q -> Timers.tid u <> Timers.tid t -> In u (Timers.fired now t q).
Proof.
  intros Hu Hne. unfold Timers.fired. destruct (Timers.repeat t).
  - apply in_map_iff. exists u. apply Nat.eqb_neq in Hne. rewrite Hne. auto.
  - apply in_clear_iff. auto.
Qed.

(** A timer of the queue after one fired was there before, with the same
    handle and the same callback. *)
Lemma in_fired_before now t q u :
  In u (Timers.fired now t q) ->
  exists w, In w q /\ Timers.tid w = Timers.tid u /\ Timers.callback w = Timers.callback u.
Proof.
  unfold Timers.fired. destruct (Timers.repeat t).
  - intros H. apply in_map_iff in H. destruct H as (w & Ew & Hw). exists w.
    split; [exact Hw|].
    destruct (Nat.eqb (Timers.tid w) (Timers.tid t)); subst u; split; reflexivity.
  - intros H. apply in_clear_iff in H. exists u. split; [apply H|split; reflexivity].
Qed.

Lemma nodup_same_tid q t u :
  NoDup (map Timers.tid q) -> In t q -> In u q -> Timers.tid t = Timers.tid u -> t = u.
Proof.
  induction q as [|w q IH]; cbn; intros H Ht Hu E; [destruct Ht|].
  inversion H as [|x l Hn Hd]; subst.
  destruct Ht as [->|Ht], Hu as [->|Hu]; try reflexivity.
  - exfalso. apply Hn. rewrite E. apply in_map, Hu.
  - exfalso. apply Hn. rewrite <- E. apply in_map, Ht.
  - apply IH; assumption.
Qed.

End QueueBookkeeping.

Arguments tid_fired {C}.
Arguments nodup_clear {C}.
Arguments nodup_fired {C}.
Arguments nodup_schedule {C}.
Arguments in_clear_iff {C}.
Arguments in_fired_other {C}.
Arguments in_fired_before {C}.
Arguments nodup_same_tid {C}.

(** The fields the bookkeeping reads are those of another sound node, on a
    later clock, with no measurement in flight that was not. *)
Lemma rpi_sound_fields n m :
  rpi_sound n ->
  RpiGpio.timers m = RpiGpio.timers n ->
  RpiGpio.next_id m = RpiGpio.next_id n ->
  RpiGpio.measurementTimer m = RpiGpio.measurementTimer n ->
  RpiGpio.clock n <= RpiGpio.clock m ->
  (RpiGpio.isReading m = true -> RpiGpio.isReading n = true) ->
  rpi_sound m.
Proof.
  intros (H1 & H2 & H3 & H4 & H5) Et En Em Ec Er. unfold rpi_sound.
  rewrite Et, En, Em. repeat (split; [assumption|]).
  intros Hr. destruct (H5 (Er Hr)) as (t & Ht & Hcb & Hdue). exists t.
  repeat split; try assumption. lia.
Qed.

Ltac rpi_same S :=
  apply (rpi_sound_fields _ _ S); try reflexivity; try (rpi_fields; lia);
  try (rpi_fields; intros; congruence).

Lemma rpi_sound_schedule n cb after period :
  rpi_sound n ->
  RpiGpio.measurementTimer n <> Some (RpiGpio.next_id n) ->
  rpi_sound (fst (RpiGpio.schedule cb after period n)).
Proof.
  intros (H1 & H2 & H3 & H4 & H5) _. unfold rpi_sound. rpi_fields.
  split; [apply nodup_schedule; [exact H1|]; intros u Hu; specialize (H2 u Hu); cbn; lia|].
  split; [intros t Ht; apply in_app_or in Ht; destruct Ht as [Ht|[<-|[]]];
          [specialize (H2 t Ht); lia|cbn; lia]|].
  split; [intros id Hid; specialize (H3 id Hid); lia|].
  split.
  - intros t Ht Hm. apply in_app_or in Ht. destruct Ht as [Ht|[<-|[]]]; [apply H4; assumption|].
    cbn in Hm. specialize (H3 _ Hm). lia.
  - intros Hr. destruct (H5 Hr) as (t & Ht & Hcb & Hdue). exists t.
    split; [apply in_or_app; left; exact Ht|auto].
Qed.

Lemma rpi_sound_clear n id :
  rpi_sound n ->
  RpiGpio.measurementTimer n = Some id ->
  rpi_sound (RpiGpio.clearInterval id n).
Proof.
  intros (H1 & H2 & H3 & H4 & H5) Hid. unfold rpi_sound. rpi_fields.
  split; [apply nodup_clear, H1|].
  split; [intros t Ht; apply in_clear_iff in Ht; apply H2, Ht|].
  split; [exact H3|].
  split; [intros t Ht; apply in_clear_iff in Ht; apply H4, Ht|].
  intros Hr. destruct (H5 Hr) as (t & Ht & Hcb & Hdue). exists t.
  split; [|auto]. apply in_clear_iff. split; [exact Ht|].
  intros E. rewrite <- E in Hid. specialize (H4 t Ht Hid). congruence.
Qed.

Lemma rpi_sound_forget n :
  rpi_sound n -> rpi_sound (RpiGpio.set_measurementTimer None n).
Proof.
  intros (H1 & H2 & H3 & H4 & H5). unfold rpi_sound. rpi_fields.
  repeat (split; [assumption || (intros; discriminate)|]). exact H5.
Qed.

Lemma rpi_sound_idle n :
  rpi_sound n -> rpi_sound (RpiGpio.set_isReading false n).
Proof.
  intros (H1 & H2 & H3 & H4 & H5). unfold rpi_sound. rpi_fields.
  repeat (split; [assumption|]). intros H. discriminate H.
Qed.

Lemma rpi_sound_trigger throws n :
  rpi_sound n -> rpi_sound (fst (RpiGpio.triggerMeasurement throws n)).
Proof.
  intros S. unfold RpiGpio.triggerMeasurement.
  destruct (RpiGpio.isReading n) eqn:Er; [exact S|].
  destruct throws; cbn [fst].
  - rpi_same S.
  - destruct S as (H1 & H2 & H3 & H4 & H5). unfold rpi_sound. rpi_fields.
    split; [apply nodup_schedule; [exact H1|]; intros u Hu; specialize (H2 u Hu); cbn; lia|].
    split; [intros t Ht; apply in_app_or in Ht; destruct Ht as [Ht|[<-|[]]];
            [specialize (H2 t Ht); lia|cbn; lia]|].
    split; [intros id Hid; specialize (H3 id Hid); lia|].
    split.
    + intros t Ht Hm. apply in_app_or in Ht.
      destruct Ht as [Ht|[<-|[]]]; [apply H4; assumption|].
      cbn in Hm. specialize (H3 _ Hm). lia.
    + intros _. eexists. split; [apply in_or_app; right; left; reflexivity|].
      split; [reflexivity|]. cbn [Timers.due]. change (Timers.delay 100) with 100. lia.
Qed.

Lemma rpi_sound_start throws n :
  rpi_sound n -> rpi_sound (fst (RpiGpio.startMeasurements throws n)).
Proof.
  intros S. unfold RpiGpio.startMeasurements.
  pose proof (rpi_sound_trigger throws n S) as S1.
  destruct (RpiGpio.triggerMeasurement throws n) as [n1 o1]. cbn [fst] in *.
  destruct S1 as (H1 & H2 & H3 & H4 & H5). unfold rpi_sound. rpi_fields.
  split; [apply nodup_schedule; [exact H1|]; intros u Hu; specialize (H2 u Hu); cbn; lia|].
  split; [intros t Ht; apply in_app_or in Ht; destruct Ht as [Ht|[<-|[]]];
          [specialize (H2 t Ht); lia|cbn; lia]|].
  split; [intros id Hid; inversion Hid; lia|].
  split.
  - intros t Ht Hm. inversion Hm as [E]. apply in_app_or in Ht.
    destruct Ht as [Ht|[<-|[]]]; [specialize (H2 t Ht); lia|reflexivity].
  - intros Hr. destruct (H5 Hr) as (t & Ht & Hcb & Hdue). exists t.
    split; [apply in_or_app; left; exact Ht|auto].
Qed.

Lemma rpi_sound_fire id throws n :
  rpi_sound n -> rpi_sound (fst (RpiGpio.fire id throws n)).
Proof.
  intros S. unfold RpiGpio.fire.
  destruct (Timers.find id (RpiGpio.timers n)) as [t|] eqn:Ef; [|exact S].
  destruct (Timers.due t <=? RpiGpio.clock n); [|exact S].
  destruct (find_some_tid _ _ _ Ef) as [Htid Hin].
  set (m := RpiGpio.set_timers (Timers.fired (RpiGpio.clock n) t (RpiGpio.timers n)) n).
  assert (Sm : Timers.callback t <> RpiGpio.CbSafety -> rpi_sound m).
  { intros Hne. destruct S as (H1 & H2 & H3 & H4 & H5). unfold rpi_sound, m. rpi_fields.
    split; [apply nodup_fired, H1|].
    split; [intros u Hu; destruct (in_fired_before _ _ _ _ Hu) as (w & Hw & Et & _);
            rewrite <- Et; apply H2, Hw|].
    split; [exact H3|].
    split; [intros u Hu Hm; destruct (in_fired_before _ _ _ _ Hu) as (w & Hw & Et & Ec);
            rewrite <- Ec; apply H4; [exact Hw|rewrite Et; exact Hm]|].
    intros Hr. destruct (H5 Hr) as (ts & Hts & Hcb & Hdue). exists ts.
    split; [|auto]. apply in_fired_other; [exact Hts|].
    intros E. apply Hne. rewrite <- (nodup_same_tid _ _ _ H1 Hts Hin E). exact Hcb. }
  destruct (Timers.callback t) eqn:Ecb; cbn [RpiGpio.run_callback fst].
  - apply rpi_sound_start, Sm. discriminate.
  - apply rpi_sound_trigger, Sm. discriminate.
  - apply Sm. discriminate.
  - unfold RpiGpio.safety_timeout.
    assert (Sidle : rpi_sound (RpiGpio.set_isReading false m)).
    { destruct S as (H1 & H2 & H3 & H4 & H5). unfold rpi_sound, m. rpi_fields.
      split; [apply nodup_fired, H1|].
      split; [intros u Hu; destruct (in_fired_before _ _ _ _ Hu) as (w & Hw & Et & _);
              rewrite <- Et; apply H2, Hw|].
      split; [exact H3|].
      split; [intros u Hu Hm; destruct (in_fired_before _ _ _ _ Hu) as (w & Hw & Et & Ec);
              rewrite <- Ec; apply H4; [exact Hw|rewrite Et; exact Hm]|].
      intros H. discriminate H. }
    destruct (RpiGpio.isReading m) eqn:Er; cbn [fst]; [exact Sidle|].
    rpi_same Sidle.
Qed.

Lemma rpi_sound_input p throws n :
  rpi_sound n -> rpi_sound (fst (RpiGpio.on_input p throws n)).
Proof.
  intros S. unfold RpiGpio.on_input. destruct p as [x|[|]|]; try exact S.
  - destruct (String.eqb x "trigger"); [apply rpi_sound_trigger, S|].
    destruct (String.eqb x "start").
    { apply rpi_sound_start.
      destruct (RpiGpio.measurementTimer n) eqn:Em; [apply rpi_sound_clear; assumption|exact S]. }
    destruct (String.eqb x "stop"); [|exact S]. cbn [fst].
    destruct (RpiGpio.measurementTimer n) eqn:Em; [|exact S].
    apply rpi_sound_forget, rpi_sound_clear; assumption.
  - apply rpi_sound_trigger, S.
Qed.

Lemma rpi_sound_close c n :
  rpi_sound n -> rpi_sound (fst (RpiGpio.on_close c n)).
Proof.
  intros S. unfold RpiGpio.on_close. cbn [fst].
  destruct (RpiGpio.measurementTimer n) eqn:Em; [|exact S].
  apply rpi_sound_forget, rpi_sound_clear; assumption.
Qed.

Lemma rpi_sound_dispatch t e n :
  rpi_sound n -> RpiGpio.clock n <= t -> rpi_sound (fst (RpiGpio.dispatch t e n)).
Proof.
  intros S Ht.
  assert (S0 : rpi_sound (RpiGpio.set_clock t n)).
  { rpi_same S. }
  unfold RpiGpio.dispatch. cbv zeta. set (m := RpiGpio.set_clock t n) in *.
  clearbody m.
  assert (Same : forall p, rpi_sound (RpiGpio.set_setup p m)).
  { intros p. rpi_same S0. }
  destruct e as [err|err|channel value hr now|err|err|id throws|p throws|c];
    destruct (RpiGpio.setup m); try exact S0;
    try (apply rpi_sound_fire, S0); try (apply rpi_sound_input, S0);
    try (apply rpi_sound_close, S0).
  - destruct err; apply Same.
  - destruct err; apply Same.
  - unfold RpiGpio.on_change.
    destruct ((channel =? RpiGpio.echoPin m) && RpiGpio.isReading m); [|exact S0].
    destruct value; cbn [fst].
    + rpi_same S0.
    + destruct (RpiGpio.startTime m); [|exact S0].
      destruct (Js.truthy (Some z)); [|exact S0]. apply rpi_sound_idle, S0.
  - destruct err; cbn [RpiGpio.on_write_high fst]; [apply rpi_sound_idle, S0|].
    apply rpi_sound_schedule; [exact S0|].
    intros H. destruct S0 as (_ & _ & H3 & _). specialize (H3 _ H). lia.
  - destruct err; cbn [RpiGpio.on_write_high fst]; [apply rpi_sound_idle, S0|].
    apply rpi_sound_schedule; [exact S0|].
    intros H. destruct S0 as (_ & _ & H3 & _). specialize (H3 _ H). lia.
  - destruct err; cbn [RpiGpio.on_write_high fst]; [apply rpi_sound_idle, S0|].
    apply rpi_sound_schedule; [exact S0|].
    intros H. destruct S0 as (_ & _ & H3 & _). specialize (H3 _ H). lia.
  - destruct err; cbn [RpiGpio.on_write_high fst]; [apply rpi_sound_idle, S0|].
    apply rpi_sound_schedule; [exact S0|].
    intros H. destruct S0 as (_ & _ & H3 & _). specialize (H3 _ H). lia.
  - destruct err; cbn [RpiGpio.on_write_low fst]; [apply rpi_sound_idle, S0|exact S0].
  - destruct err; cbn [RpiGpio.on_write_low fst]; [apply rpi_sound_idle, S0|exact S0].
  - destruct err; cbn [RpiGpio.on_write_low fst]; [apply rpi_sound_idle, S0|exact S0].
  - destruct err; cbn [RpiGpio.on_write_low fst]; [apply rpi_sound_idle, S0|exact S0].
Qed.

Lemma rpi_clock_trigger throws n :
  RpiGpio.clock (fst (RpiGpio.triggerMeasurement throws n)) = RpiGpio.clock n.
Proof.
  unfold RpiGpio.triggerMeasurement. destruct (RpiGpio.isReading n); [reflexivity|].
  destruct throws; reflexivity.
Qed.

Lemma rpi_clock_start throws n :
  RpiGpio.clock (fst (RpiGpio.startMeasurements throws n)) = RpiGpio.clock n.
Proof.
  unfold RpiGpio.startMeasurements. pose proof (rpi_clock_trigger throws n) as H.
  destruct (RpiGpio.triggerMeasurement throws n) as [n1 o1]. exact H.
Qed.

Lemma rpi_clock_dispatch t e n : RpiGpio.clock (fst (RpiGpio.dispatch t e n)) = t.
Proof.
  unfold RpiGpio.dispatch. cbv zeta. set (m := RpiGpio.set_clock t n).
  assert (Hm : RpiGpio.clock m = t) by reflexivity. clearbody m.
  assert (F : forall id throws, RpiGpio.clock (fst (RpiGpio.fire id throws m)) = t).
  { intros id throws. unfold RpiGpio.fire.
    destruct (Timers.find id (RpiGpio.timers m)) as [u|]; [|exact Hm].
    destruct (Timers.due u <=? RpiGpio.clock m); [|exact Hm].
    destruct (Timers.callback u); cbn [RpiGpio.run_callback].
    - rewrite rpi_clock_start. exact Hm.
    - rewrite rpi_clock_trigger. exact Hm.
    - exact Hm.
    - unfold RpiGpio.safety_timeout. destruct (RpiGpio.isReading _); exact Hm. }
  assert (I : forall p throws, RpiGpio.clock (fst (RpiGpio.on_input p throws m)) = t).
  { intros p throws. unfold RpiGpio.on_input. destruct p as [x|[|]|]; try exact Hm.
    - destruct (String.eqb x "trigger"); [rewrite rpi_clock_trigger; exact Hm|].
      destruct (String.eqb x "start").
      { rewrite rpi_clock_start. destruct (RpiGpio.measurementTimer m); exact Hm. }
      destruct (String.eqb x "stop"); [|exact Hm].
      destruct (RpiGpio.measurementTimer m); exact Hm.
    - rewrite rpi_clock_trigger. exact Hm. }
  assert (Cl : forall c, RpiGpio.clock (fst (RpiGpio.on_close c m)) = t).
  { intros c. unfold RpiGpio.on_close. cbn [fst].
    destruct (RpiGpio.measurementTimer m); exact Hm. }
  assert (Ch : forall channel value hr now,
             RpiGpio.clock (fst (RpiGpio.on_change channel value hr now m)) = t).
  { intros channel value hr now. unfold RpiGpio.on_change.
    destruct ((channel =? RpiGpio.echoPin m) && RpiGpio.isReading m); [|exact Hm].
    destruct value; [exact Hm|].
    destruct (RpiGpio.startTime m); [|exact Hm].
    destruct (Js.truthy (Some z)); exact Hm. }
  destruct e as [err|err|channel value hr now|err|err|id throws|p throws|c];
    destruct (RpiGpio.setup m); try exact Hm;
    try apply F; try apply I; try apply Cl; try apply Ch;
    destruct err; exact Hm.
Qed.

Lemma rpi_sound_constructor config library :
  rpi_sound (fst (RpiGpio.HCSR04Node config library)).
Proof.
  unfold RpiGpio.HCSR04Node. destruct library; unfold rpi_sound; rpi_fields.
  - repeat split; try constructor; try (intros; discriminate); intros t [].
  - repeat split; try (intros; discriminate);
      try (repeat constructor; intros []; fail);
      intros t [<-|[]]; cbn; lia.
Qed.

Lemma rpi_sound_run (trace : list (Z * RpiGpio.event)) : forall n,
  rpi_sound n -> monotone (RpiGpio.clock n) trace -> rpi_sound (fst (RpiGpio.run trace n)).
Proof.
  induction trace as [|[t e] rest IH]; intros n S M; [exact S|].
  cbn [monotone] in M. destruct M as [Ht M]. cbn [RpiGpio.run].
  pose proof (rpi_sound_dispatch t e n S Ht) as S1.
  pose proof (rpi_clock_dispatch t e n) as C1.
  destruct (RpiGpio.dispatch t e n) as [n1 o1]. cbn [fst] in *.
  rewrite <- C1 in M. specialize (IH n1 S1 M).
  destruct (RpiGpio.run rest n1) as [n2 o2]. exact IH.
Qed.

(** A measurement of [src/hcsr04.js] cannot stay in flight for ever:
    after any events whose times do not go back, from the constructor on,
    the timer handles are fresh, and whenever [isReading] is set a safety
    timeout is pending that is due at most 100 ms after the present. *)
Theorem rpi_in_flight_has_safety_timeout
  (config : Config.t) (library : option string) (trace : list (Z * RpiGpio.event)) :
  monotone 0 trace ->
  let n := fst (RpiGpio.run trace (fst (RpiGpio.HCSR04Node config library))) in
  rpi_handles_fresh n
  /\ (RpiGpio.isReading n = true ->
      exists t, In t (RpiGpio.timers n)
                /\ Timers.callback t = RpiGpio.CbSafety
                /\ Timers.due t <= RpiGpio.clock n + 100).
Proof.
  intros M n.
  assert (S : rpi_sound n).
  { apply rpi_sound_run; [apply rpi_sound_constructor|].
    destruct library; exact M. }
  destruct S as (H1 & H2 & H3 & H4 & H5). split; [split; assumption|exact H5].
Qed.

(** ** initializeGpio *)

Ltac init_case :=
  cbn; repeat split; try discriminate; try reflexivity;
  try (intros pin K; repeat (destruct K as [K|K]; try discriminate K); exact K);
  try (intros _; cbn; lia); try lia.

Lemma sysfs_initializeGpio_cases (f : Sysfs.init_io) (s : Sysfs.node) :
  let r := Sysfs.initializeGpio f s in
  fst (fst r) = init_succeeds f
  /\ snd (fst r) = (if init_succeeds f then sysfs_initialized s else s)
  /\ readings (snd r) = []
  /\ (forall pin, ~ In (GpioWrite pin true) (snd r))
  /\ (init_succeeds f = true ->
      statuses (snd r) = [ Status {| sfill := Green; sshape := Dot; text := "ready" |} ])
  /\ (init_succeeds f = false ->
      count_status "ready" (snd r) = 0%nat /\ (List.length (statuses (snd r)) <= 1)%nat).
Proof.
  unfold Sysfs.initializeGpio, init_succeeds, exported, Sysfs.exportPin,
    Sysfs.setPinDirection, Sysfs.writeGpio, Sysfs.failed.
  destruct (Sysfs.export_trigger f) as [| | |m1]; [| |init_case..];
    (destruct (Sysfs.direction_trigger f) as [m2|]; [init_case|]);
    (destruct (Sysfs.write_trigger f) as [m3|]; [init_case|]);
    (destruct (Sysfs.export_echo f) as [| | |m4]; [| |init_case..]);
    (destruct (Sysfs.direction_echo f) as [m5|]; [init_case|]);
    (destruct (Sysfs.edge_echo f) as [m6|]; init_case).
Qed.

(** initializeGpio returns true exactly when all six file operations
    succeed.  Then the node is initialised, with the echo watcher polling
    every millisecond from no known level, and the one status set is
    "ready"; otherwise the node is left as it was, "ready" is not set and
    at most one status is.  In no case is a reading sent or a pin written
    high. *)
Theorem sysfs_initializeGpio_result (f : Sysfs.init_io) (s : Sysfs.node) :
  let r := Sysfs.initializeGpio f s in
  fst (fst r) = init_succeeds f
  /\ snd (fst r) = (if init_succeeds f then sysfs_initialized s else s)
  /\ readings (snd r) = []
  /\ (forall pin, ~ In (GpioWrite pin true) (snd r))
  /\ (init_succeeds f = true ->
      statuses (snd r) = [ Status {| sfill := Green; sshape := Dot; text := "ready" |} ])
  /\ (init_succeeds f = false ->
      count_status "ready" (snd r) = 0%nat /\ (List.length (statuses (snd r)) <= 1)%nat).
Proof. exact (sysfs_initializeGpio_cases f s). Qed.


Lemma sysfs_sound_fields s m :
  sysfs_sound s ->
  Sysfs.timers m = Sysfs.timers s ->
  Sysfs.next_id m = Sysfs.next_id s ->
  Sysfs.measurementTimer m = Sysfs.measurementTimer s ->
  Sysfs.clock s <= Sysfs.clock m ->
  (Sysfs.isReading m = true -> Sysfs.isReading s = true) ->
  sysfs_sound m.
Proof.
  intros (H1 & H2 & H3 & H4 & H5) Et En Em Ec Er. unfold sysfs_sound.
  rewrite Et, En, Em. repeat (split; [assumption|]).
  intros Hr. destruct (H5 (Er Hr)) as (t & Ht & Hcb & Hdue). exists t.
  repeat split; try assumption. lia.
Qed.

Ltac sysfs_same S :=
  apply (sysfs_sound_fields _ _ S); try reflexivity; try (sysfs_fields; lia);
  try (sysfs_fields; intros; congruence).

Lemma sysfs_sound_schedule s cb after period :
  sysfs_sound s ->
  sysfs_sound (fst (Sysfs.schedule cb after period s)).
Proof.
  intros (H1 & H2 & H3 & H4 & H5). unfold sysfs_sound. sysfs_fields.
  split; [apply nodup_schedule; [exact H1|]; intros u Hu; specialize (H2 u Hu); cbn; lia|].
  split; [intros t Ht; apply in_app_or in Ht; destruct Ht as [Ht|[<-|[]]];
          [specialize (H2 t Ht); lia|cbn; lia]|].
  split; [intros id Hid; specialize (H3 id Hid); lia|].
  split.
  - intros t Ht Hm. apply in_app_or in Ht. destruct Ht as [Ht|[<-|[]]]; [apply H4; assumption|].
    cbn in Hm. specialize (H3 _ Hm). lia.
  - intros Hr. destruct (H5 Hr) as (t & Ht & Hcb & Hdue). exists t.
    split; [apply in_or_app; left; exact Ht|auto].
Qed.

Lemma sysfs_sound_clear s id :
  sysfs_sound s ->
  Sysfs.measurementTimer s = Some id ->
  sysfs_sound (Sysfs.clearInterval id s).
Proof.
  intros (H1 & H2 & H3 & H4 & H5) Hid. unfold sysfs_sound. sysfs_fields.
  split; [apply nodup_clear, H1|].
  split; [intros t Ht; apply in_clear_iff in Ht; apply H2, Ht|].
  split; [exact H3|].
  split; [intros t Ht; apply in_clear_iff in Ht; apply H4, Ht|].
  intros Hr. destruct (H5 Hr) as (t & Ht & Hcb & Hdue). exists t.
  split; [|auto]. apply in_clear_iff. split; [exact Ht|].
  intros E. rewrite <- E in Hid. specialize (H4 t Ht Hid). congruence.
Qed.

(** Clearing any handle at all keeps the bookkeeping of a node with no
    measurement in flight. *)
Lemma sysfs_sound_clear_idle s id :
  sysfs_sound s ->
  Sysfs.isReading s = false ->
  sysfs_sound (Sysfs.clearInterval id s).
Proof.
  intros (H1 & H2 & H3 & H4 & H5) Hr. unfold sysfs_sound. sysfs_fields.
  split; [apply nodup_clear, H1|].
  split; [intros t Ht; apply in_clear_iff in Ht; apply H2, Ht|].
  split; [exact H3|].
  split; [intros t Ht; apply in_clear_iff in Ht; apply H4, Ht|].
  intros H. congruence.
Qed.

Lemma sysfs_sound_forget s :
  sysfs_sound s -> sysfs_sound (Sysfs.set_measurementTimer None s).
Proof.
  intros (H1 & H2 & H3 & H4 & H5). unfold sysfs_sound. sysfs_fields.
  repeat (split; [assumption || (intros; discriminate)|]). exact H5.
Qed.

Lemma sysfs_sound_idle s :
  sysfs_sound s -> sysfs_sound (Sysfs.set_isReading false s).
Proof.
  intros (H1 & H2 & H3 & H4 & H5). unfold sysfs_sound. sysfs_fields.
  repeat (split; [assumption|]). intros H. discriminate H.
Qed.

Lemma sysfs_sound_trigger f s :
  sysfs_sound s -> sysfs_sound (fst (Sysfs.triggerMeasurement f s)).
Proof.
  intros S. unfold Sysfs.triggerMeasurement.
  destruct (Sysfs.isReading s || negb (Sysfs.isInitialized s)) eqn:Er; [exact S|].
  unfold Sysfs.writeGpio. destruct (Sysfs.write f); cbn [fst].
  - sysfs_same S.
  - destruct S as (H1 & H2 & H3 & H4 & H5). unfold sysfs_sound. sysfs_fields.
    split.
    { apply nodup_schedule.
      - apply nodup_schedule; [exact H1|]. intros u Hu. specialize (H2 u Hu). cbn. lia.
      - intros u Hu. apply in_app_or in Hu. destruct Hu as [Hu|[<-|[]]];
          [specialize (H2 u Hu); cbn; lia|cbn; lia]. }
    split.
    { intros t Ht. apply in_app_or in Ht. destruct Ht as [Ht|[<-|[]]]; [|cbn; lia].
      apply in_app_or in Ht. destruct Ht as [Ht|[<-|[]]]; [specialize (H2 t Ht); lia|cbn; lia]. }
    split; [intros id Hid; specialize (H3 id Hid); lia|].
    split.
    { intros t Ht Hm. apply in_app_or in Ht.
      destruct Ht as [Ht|[<-|[]]]; [|cbn in Hm; specialize (H3 _ Hm); lia].
      apply in_app_or in Ht.
      destruct Ht as [Ht|[<-|[]]]; [apply H4; assumption|].
      cbn in Hm. specialize (H3 _ Hm). lia. }
    intros _. eexists. split; [apply in_or_app; right; left; reflexivity|].
    split; [reflexivity|]. cbn [Timers.due]. change (Timers.delay 100) with 100. lia.
Qed.

Lemma sysfs_sound_start f s :
  sysfs_sound s -> sysfs_sound (fst (Sysfs.startMeasurements f s)).
Proof.
  intros S. unfold Sysfs.startMeasurements.
  pose proof (sysfs_sound_trigger f s S) as S1.
  destruct (Sysfs.triggerMeasurement f s) as [s1 o1]. cbn [fst] in *.
  destruct S1 as (H1 & H2 & H3 & H4 & H5). unfold sysfs_sound. sysfs_fields.
  split; [apply nodup_schedule; [exact H1|]; intros u Hu; specialize (H2 u Hu); cbn; lia|].
  split; [intros t Ht; apply in_app_or in Ht; destruct Ht as [Ht|[<-|[]]];
          [specialize (H2 t Ht); lia|cbn; lia]|].
  split; [intros id Hid; inversion Hid; lia|].
  split.
  - intros t Ht Hm. inversion Hm as [E]. apply in_app_or in Ht.
    destruct Ht as [Ht|[<-|[]]]; [specialize (H2 t Ht); lia|reflexivity].
  - intros Hr. destruct (H5 Hr) as (t & Ht & Hcb & Hdue). exists t.
    split; [apply in_or_app; left; exact Ht|auto].
Qed.

Lemma sysfs_sound_initialize f s :
  sysfs_sound s -> sysfs_sound (fst (Sysfs.initialize f s)).
Proof.
  intros S. unfold Sysfs.initialize.
  destruct (sysfs_initializeGpio_cases f s) as (_ & Hn & _).
  destruct (Sysfs.initializeGpio f s) as [[ok s1] outs]. cbn [fst snd] in *. subst s1.
  destruct (init_succeeds f); [|exact S].
  unfold sysfs_initialized.
  assert (S0 : sysfs_sound (Sysfs.set_lastValue None s)) by (sysfs_same S).
  pose proof (sysfs_sound_schedule _ Sysfs.CbEchoPoll 1 (Some 1) S0) as S1.
  sysfs_same S1.
Qed.

Lemma sysfs_sound_poll f s :
  sysfs_sound s -> sysfs_sound (fst (Sysfs.echo_poll f s)).
Proof.
  intros S. unfold Sysfs.echo_poll.
  destruct (negb (Sysfs.isReading s)); [exact S|].
  destruct (Sysfs.read f) as [current|msg]; [|exact S].
  assert (K0 : forall v, sysfs_sound (Sysfs.set_lastValue v s)) by (intros v; sysfs_same S).
  destruct (Sysfs.lastValue s) as [last|]; [|apply K0].
  destruct (negb (String.eqb current last)); [|apply K0].
  destruct (String.eqb current "1" && String.eqb last "0"); [cbn [fst]; sysfs_same S|].
  destruct (String.eqb current "0" && String.eqb last "1"); [|apply K0].
  destruct (Sysfs.startTime s) as [start|]; [|apply K0].
  destruct (Js.truthy (Some start)); [|apply K0].
  cbn [fst]. sysfs_same S.
Qed.

Lemma sysfs_sound_fire id f s :
  sysfs_sound s -> sysfs_sound (fst (Sysfs.fire id f s)).
Proof.
  intros S. unfold Sysfs.fire.
  destruct (Timers.find id (Sysfs.timers s)) as [t|] eqn:Ef; [|exact S].
  destruct (Timers.due t <=? Sysfs.clock s); [|exact S].
  destruct (find_some_tid _ _ _ Ef) as [Htid Hin].
  set (m := Sysfs.set_timers (Timers.fired (Sysfs.clock s) t (Sysfs.timers s)) s).
  assert (Sm : Timers.callback t <> Sysfs.CbSafety -> sysfs_sound m).
  { intros Hne. destruct S as (H1 & H2 & H3 & H4 & H5). unfold sysfs_sound, m. sysfs_fields.
    split; [apply nodup_fired, H1|].
    split; [intros u Hu; destruct (in_fired_before _ _ _ _ Hu) as (w & Hw & Et & _);
            rewrite <- Et; apply H2, Hw|].
    split; [exact H3|].
    split; [intros u Hu Hm; destruct (in_fired_before _ _ _ _ Hu) as (w & Hw & Et & Ec);
            rewrite <- Ec; apply H4; [exact Hw|rewrite Et; exact Hm]|].
    intros Hr. destruct (H5 Hr) as (ts & Hts & Hcb & Hdue). exists ts.
    split; [|auto]. apply in_fired_other; [exact Hts|].
    intros E. apply Hne. rewrite <- (nodup_same_tid _ _ _ H1 Hts Hin E). exact Hcb. }
  destruct (Timers.callback t) eqn:Ecb; cbn [Sysfs.run_callback fst].
  - apply sysfs_sound_initialize, Sm. discriminate.
  - apply sysfs_sound_start, Sm. discriminate.
  - apply sysfs_sound_trigger, Sm. discriminate.
  - apply sysfs_sound_poll, Sm. discriminate.
  - apply Sm. discriminate.
  - unfold Sysfs.safety_timeout.
    assert (Sidle : sysfs_sound (Sysfs.set_isReading false m)).
    { destruct S as (H1 & H2 & H3 & H4 & H5). unfold sysfs_sound, m. sysfs_fields.
      split; [apply nodup_fired, H1|].
      split; [intros u Hu; destruct (in_fired_before _ _ _ _ Hu) as (w & Hw & Et & _);
              rewrite <- Et; apply H2, Hw|].
      split; [exact H3|].
      split; [intros u Hu Hm; destruct (in_fired_before _ _ _ _ Hu) as (w & Hw & Et & Ec);
              rewrite <- Ec; apply H4; [exact Hw|rewrite Et; exact Hm]|].
      intros H. discriminate H. }
    destruct (Sysfs.isReading m) eqn:Er; cbn [fst]; [exact Sidle|].
    sysfs_same Sidle.
Qed.

Lemma sysfs_sound_input p f s :
  sysfs_sound s -> sysfs_sound (fst (Sysfs.on_input p f s)).
Proof.
  intros S. unfold Sysfs.on_input. destruct p as [x|[|]|]; try exact S.
  - destruct (String.eqb x "trigger"); [apply sysfs_sound_trigger, S|].
    destruct (String.eqb x "start").
    { apply sysfs_sound_start.
      destruct (Sysfs.measurementTimer s) eqn:Em; [apply sysfs_sound_clear; assumption|exact S]. }
    destruct (String.eqb x "stop"); [|exact S]. cbn [fst].
    destruct (Sysfs.measurementTimer s) eqn:Em; [|exact S].
    apply sysfs_sound_forget, sysfs_sound_clear; assumption.
  - apply sysfs_sound_trigger, S.
Qed.

Lemma sysfs_sound_close c s :
  sysfs_sound s -> sysfs_sound (fst (Sysfs.on_close c s)).
Proof.
  intros S. unfold Sysfs.on_close. cbn [fst].
  assert (S1 : sysfs_sound (Sysfs.set_isReading false (Sysfs.set_isInitialized false s))).
  { apply sysfs_sound_idle. sysfs_same S. }
  set (s1 := Sysfs.set_isReading false (Sysfs.set_isInitialized false s)) in *.
  assert (R1 : Sysfs.isReading s1 = false) by reflexivity. clearbody s1.
  assert (S2 : sysfs_sound match Sysfs.measurementTimer s1 with
                           | Some id => Sysfs.set_measurementTimer None (Sysfs.clearInterval id s1)
                           | None => s1
                           end
               /\ Sysfs.isReading match Sysfs.measurementTimer s1 with
                           | Some id => Sysfs.set_measurementTimer None (Sysfs.clearInterval id s1)
                           | None => s1
                           end = false).
  { destruct (Sysfs.measurementTimer s1) eqn:Em; [|auto].
    split; [|exact R1]. apply sysfs_sound_forget, sysfs_sound_clear; assumption. }
  destruct S2 as [S2 R2].
  set (s2 := match Sysfs.measurementTimer s1 with
             | Some id => Sysfs.set_measurementTimer None (Sysfs.clearInterval id s1)
             | None => s1
             end) in *. clearbody s2.
  destruct (Sysfs.echoWatcher s2) as [id|]; [|exact S2].
  pose proof (sysfs_sound_clear_idle s2 id S2 R2) as S3. sysfs_same S3.
Qed.

Lemma sysfs_sound_dispatch t e s :
  sysfs_sound s -> Sysfs.clock s <= t -> sysfs_sound (fst (Sysfs.dispatch t e s)).
Proof.
  intros S Ht.
  assert (S0 : sysfs_sound (Sysfs.set_clock t s)) by (sysfs_same S).
  unfold Sysfs.dispatch. cbv zeta. destruct e as [id f|p f|c].
  - apply sysfs_sound_fire, S0.
  - apply sysfs_sound_input, S0.
  - apply sysfs_sound_close, S0.
Qed.

Lemma sysfs_clock_trigger f s :
  Sysfs.clock (fst (Sysfs.triggerMeasurement f s)) = Sysfs.clock s.
Proof.
  unfold Sysfs.triggerMeasurement.
  destruct (Sysfs.isReading s || negb (Sysfs.isInitialized s)); [reflexivity|].
  unfold Sysfs.writeGpio. destruct (Sysfs.write f); reflexivity.
Qed.

Lemma sysfs_clock_start f s :
  Sysfs.clock (fst (Sysfs.startMeasurements f s)) = Sysfs.clock s.
Proof.
  unfold Sysfs.startMeasurements. pose proof (sysfs_clock_trigger f s) as H.
  destruct (Sysfs.triggerMeasurement f s) as [s1 o1]. exact H.
Qed.

Lemma sysfs_clock_dispatch t e s : Sysfs.clock (fst (Sysfs.dispatch t e s)) = t.
Proof.
  unfold Sysfs.dispatch. cbv zeta. set (m := Sysfs.set_clock t s).
  assert (Hm : Sysfs.clock m = t) by reflexivity. clearbody m.
  destruct e as [id f|p f|c].
  - unfold Sysfs.fire.
    destruct (Timers.find id (Sysfs.timers m)) as [u|]; [|exact Hm].
    destruct (Timers.due u <=? Sysfs.clock m); [|exact Hm].
    destruct (Timers.callback u); cbn [Sysfs.run_callback].
    + unfold Sysfs.initialize.
      destruct (sysfs_initializeGpio_cases (Sysfs.init f)
                  (Sysfs.set_timers (Timers.fired (Sysfs.clock m) u (Sysfs.timers m)) m))
        as (_ & Hn & _).
      destruct (Sysfs.initializeGpio _ _) as [[ok s1] outs]. cbn [fst snd] in *. subst s1.
      destruct (init_succeeds (Sysfs.init f)); exact Hm.
    + rewrite sysfs_clock_start. exact Hm.
    + rewrite sysfs_clock_trigger. exact Hm.
    + unfold Sysfs.echo_poll.
      destruct (negb (Sysfs.isReading _)); [exact Hm|].
      destruct (Sysfs.read f) as [current|msg]; [|exact Hm].
      destruct (Sysfs.lastValue _) as [last|]; [|exact Hm].
      destruct (negb (String.eqb current last)); [|exact Hm].
      destruct (String.eqb current "1" && String.eqb last "0"); [exact Hm|].
      destruct (String.eqb current "0" && String.eqb last "1"); [|exact Hm].
      destruct (Sysfs.startTime _) as [start|]; [|exact Hm].
      destruct (Js.truthy (Some start)); exact Hm.
    + exact Hm.
    + unfold Sysfs.safety_timeout. destruct (Sysfs.isReading _); exact Hm.
  - unfold Sysfs.on_input. destruct p as [x|[|]|]; try exact Hm.
    + destruct (String.eqb x "trigger"); [rewrite sysfs_clock_trigger; exact Hm|].
      destruct (String.eqb x "start").
      { rewrite sysfs_clock_start. destruct (Sysfs.measurementTimer m); exact Hm. }
      destruct (String.eqb x "stop"); [|exact Hm].
      destruct (Sysfs.measurementTimer m); exact Hm.
    + rewrite sysfs_clock_trigger. exact Hm.
  - unfold Sysfs.on_close. cbn [fst].
    destruct (Sysfs.measurementTimer _); destruct (Sysfs.echoWatcher _); exact Hm.
Qed.

Lemma sysfs_sound_constructor config : sysfs_sound (Sysfs.HCSR04Node config).
Proof.
  unfold Sysfs.HCSR04Node, sysfs_sound. sysfs_fields.
  split; [repeat constructor; cbn; intuition lia|].
  split; [intros t [<-|[<-|[]]]; cbn; lia|].
  repeat split; intros; discriminate.
Qed.

Lemma sysfs_sound_run (trace : list (Z * Sysfs.event)) : forall s,
  sysfs_sound s -> monotone (Sysfs.clock s) trace -> sysfs_sound (fst (Sysfs.run trace s)).
Proof.
  induction trace as [|[t e] rest IH]; intros s S M; [exact S|].
  cbn [monotone] in M. destruct M as [Ht M]. cbn [Sysfs.run].
  pose proof (sysfs_sound_dispatch t e s S Ht) as S1.
  pose proof (sysfs_clock_dispatch t e s) as C1.
  destruct (Sysfs.dispatch t e s) as [s1 o1]. cbn [fst] in *.
  rewrite <- C1 in M. specialize (IH s1 S1 M).
  destruct (Sysfs.run rest s1) as [s2 o2]. exact IH.
Qed.

(** A measurement of [src/unnamed/part_000] cannot stay in flight for
    ever: after any events whose times do not go back, from the
    constructor on, the timer handles are fresh, and whenever [isReading]
    is set a safety timeout is pending that is due at most 100 ms after
    the present. *)
Theorem sysfs_in_flight_has_safety_timeout
  (config : Config.t) (trace : list (Z * Sysfs.event)) :
  monotone 0 trace ->
  let s := fst (Sysfs.run trace (Sysfs.HCSR04Node config)) in
  sysfs_handles_fresh s
  /\ (Sysfs.isReading s = true ->
      exists t, In t (Sysfs.timers s)
                /\ Timers.callback t = Sysfs.CbSafety
                /\ Timers.due t <= Sysfs.clock s + 100).
Proof.
  intros M s.
  assert (S : sysfs_sound s).
  { apply sysfs_sound_run; [apply sysfs_sound_constructor|exact M]. }
  destruct S as (H1 & H2 & H3 & H4 & H5). split; [split; assumption|exact H5].
Qed.

(** ** A sysfs node out of service *)

Lemma sysfs_initialize_ran_schedule cb after period s :
  cb <> Sysfs.CbInitialize ->
  sysfs_initialize_ran s ->
  sysfs_initialize_ran (fst (Sysfs.schedule cb after period s)).
Proof.
  intros Hcb H t Ht. unfold Sysfs.schedule in Ht. sysfs_fields.
  apply in_app_or in Ht. destruct Ht as [Ht|[<-|[]]]; [apply H, Ht|exact Hcb].
Qed.

Lemma sysfs_initialize_ran_clear id s :
  sysfs_initialize_ran s -> sysfs_initialize_ran (Sysfs.clearInterval id s).
Proof.
  intros H t Ht. unfold Sysfs.clearInterval in Ht. sysfs_fields.
  apply in_clear_iff in Ht. apply H, Ht.
Qed.

Lemma sysfs_out_of_service_fields s m :
  sysfs_out_of_service s ->
  Sysfs.isInitialized m = Sysfs.isInitialized s ->
  Sysfs.isReading m = Sysfs.isReading s ->
  Sysfs.timers m = Sysfs.timers s ->
  sysfs_out_of_service m.
Proof.
  intros (H1 & H2 & H3) E1 E2 E3. unfold sysfs_out_of_service, sysfs_initialize_ran.
  rewrite E1, E2, E3. auto.
Qed.

Lemma sysfs_out_of_service_trigger f s :
  sysfs_out_of_service s -> Sysfs.triggerMeasurement f s = (s, []).
Proof.
  intros (H1 & H2 & _). unfold Sysfs.triggerMeasurement. rewrite H1, H2. reflexivity.
Qed.

Lemma sysfs_out_of_service_start f s :
  sysfs_out_of_service s ->
  sysfs_out_of_service (fst (Sysfs.startMeasurements f s))
  /\ snd (Sysfs.startMeasurements f s) = [].
Proof.
  intros O. unfold Sysfs.startMeasurements.
  rewrite sysfs_out_of_service_trigger by exact O. split; [|reflexivity].
  destruct O as (H1 & H2 & H3). unfold sysfs_out_of_service.
  split; [exact H1|]. split; [exact H2|].
  apply (sysfs_initialize_ran_schedule Sysfs.CbTick); [discriminate|exact H3].
Qed.

Lemma sysfs_out_of_service_dispatch t e s :
  sysfs_out_of_service s ->
  sysfs_out_of_service (fst (Sysfs.dispatch t e s))
  /\ inert (snd (Sysfs.dispatch t e s)).
Proof.
  intros O. split.
  - unfold Sysfs.dispatch. cbv zeta.
    assert (O0 : sysfs_out_of_service (Sysfs.set_clock t s))
      by (apply (sysfs_out_of_service_fields s); auto).
    set (m := Sysfs.set_clock t s) in *. clearbody m.
    destruct e as [id f|p f|c].
    + destruct O0 as (H1 & H2 & H3).
      destruct (sysfs_closed_fire id f m H2 H1 H3) as (K1 & K2 & K3 & _).
      split; [exact K2|]. split; [exact K1|exact K3].
    + unfold Sysfs.on_input. destruct p as [x|[|]|]; try exact O0.
      * destruct (String.eqb x "trigger");
          [rewrite sysfs_out_of_service_trigger by exact O0; exact O0|].
        destruct (String.eqb x "start").
        { apply sysfs_out_of_service_start.
          destruct (Sysfs.measurementTimer m); [|exact O0].
          destruct O0 as (H1 & H2 & H3). split; [exact H1|]. split; [exact H2|].
          apply sysfs_initialize_ran_clear, H3. }
        destruct (String.eqb x "stop"); [|exact O0]. cbn [fst].
        destruct (Sysfs.measurementTimer m); [|exact O0].
        destruct O0 as (H1 & H2 & H3). split; [exact H1|]. split; [exact H2|].
        apply (sysfs_initialize_ran_clear n m), H3.
      * rewrite sysfs_out_of_service_trigger by exact O0. exact O0.
    + unfold Sysfs.on_close. cbn [fst]. destruct O0 as (H1 & H2 & H3).
      set (s1 := Sysfs.set_isReading false (Sysfs.set_isInitialized false m)).
      assert (O1 : sysfs_out_of_service s1) by (repeat split; exact H3).
      clearbody s1.
      assert (O2 : sysfs_out_of_service
                     match Sysfs.measurementTimer s1 with
                     | Some id => Sysfs.set_measurementTimer None (Sysfs.clearInterval id s1)
                     | None => s1
                     end).
      { destruct (Sysfs.measurementTimer s1); [|exact O1].
        destruct O1 as (K1 & K2 & K3). split; [exact K1|]. split; [exact K2|].
        apply (sysfs_initialize_ran_clear n s1), K3. }
      set (s2 := match Sysfs.measurementTimer s1 with
                 | Some id => Sysfs.set_measurementTimer None (Sysfs.clearInterval id s1)
                 | None => s1
                 end) in *. clearbody s2.
      destruct (Sysfs.echoWatcher s2); [|exact O2].
      destruct O2 as (K1 & K2 & K3). split; [exact K1|]. split; [exact K2|].
      apply (sysfs_initialize_ran_clear n s2), K3.
  - split.
    + destruct (readings (snd (Sysfs.dispatch t e s))) eqn:E; [reflexivity|].
      assert (N : readings (snd (Sysfs.dispatch t e s)) <> []) by (rewrite E; discriminate).
      destruct (sysfs_dispatch_readings s t e N) as (Hr & _).
      destruct O as (_ & H2 & _). congruence.
    + intros pin H.
      destruct (sysfs_dispatch_pulse s t e pin H) as (_ & _ & Hi & _).
      destruct O as (H1 & _). congruence.
Qed.

(** A sysfs node that is not initialised (initializeGpio failed, or the node
    was closed) and has no call of initializeGpio to come stays so: whatever
    timers fire and whatever messages arrive, it sends nothing and never
    raises the trigger pin. *)
Theorem sysfs_out_of_service_forever (trace : list (Z * Sysfs.event)) : forall s,
  sysfs_out_of_service s ->
  sysfs_out_of_service (fst (Sysfs.run trace s))
  /\ inert (snd (Sysfs.run trace s)).
Proof.
  induction trace as [|[t e] rest IH]; intros s O.
  - split; [exact O|]. split; [reflexivity|intros pin []].
  - cbn [Sysfs.run].
    destruct (sysfs_out_of_service_dispatch t e s O) as [O1 [R1 P1]].
    destruct (Sysfs.dispatch t e s) as [s1 o1]. cbn [fst snd] in *.
    destruct (IH s1 O1) as [O2 [R2 P2]].
    destruct (Sysfs.run rest s1) as [s2 o2]. cbn [fst snd] in *.
    split; [exact O2|]. split.
    + rewrite readings_app, R1, R2. reflexivity.
    + intros pin H. apply in_app_or in H. destruct H as [H|H]; [apply (P1 pin H)|apply (P2 pin H)].
Qed.

(** The close handler of [src/unnamed/part_000] puts the node out of
    service; the timers that still fire afterwards send nothing and set no
    status. *)
Theorem sysfs_close_is_final (c : Sysfs.close_io) (s : Sysfs.node)
  (fires : list (Z * nat * Sysfs.io)) :
  sysfs_initialize_ran s ->
  sysfs_out_of_service (fst (Sysfs.on_close c s))
  /\ silent (snd (Sysfs.run (sysfs_timer_trace fires) (fst (Sysfs.on_close c s)))).
Proof.
  intros H.
  assert (O : sysfs_out_of_service (fst (Sysfs.on_close c s))).
  { unfold Sysfs.on_close. cbn [fst].
    set (s1 := Sysfs.set_isReading false (Sysfs.set_isInitialized false s)).
    assert (O1 : sysfs_out_of_service s1) by (repeat split; exact H).
    clearbody s1.
    assert (O2 : sysfs_out_of_service
                   match Sysfs.measurementTimer s1 with
                   | Some id => Sysfs.set_measurementTimer None (Sysfs.clearInterval id s1)
                   | None => s1
                   end).
    { destruct (Sysfs.measurementTimer s1); [|exact O1].
      destruct O1 as (K1 & K2 & K3). split; [exact K1|]. split; [exact K2|].
      apply (sysfs_initialize_ran_clear n s1), K3. }
    set (s2 := match Sysfs.measurementTimer s1 with
               | Some id => Sysfs.set_measurementTimer None (Sysfs.clearInterval id s1)
               | None => s1
               end) in *. clearbody s2.
    destruct (Sysfs.echoWatcher s2); [|exact O2].
    destruct O2 as (K1 & K2 & K3). split; [exact K1|]. split; [exact K2|].
    apply (sysfs_initialize_ran_clear n s2), K3. }
  split; [exact O|].
  destruct O as (H1 & H2 & H3). apply sysfs_silent_after_close; assumption.
Qed.

(** ** Periodic timers, when every one is tracked *)

Lemma filter_none {A : Type} (f : A -> bool) (l : list A) :
  (forall x, In x l -> f x = false) -> filter f l = [].
Proof.
  induction l as [|a l IH]; intros H; [reflexivity|]. cbn [filter].
  rewrite (H a (or_introl eq_refl)). apply IH. intros x Hx. apply H. right. exact Hx.
Qed.

Lemma rpi_tracked_fields n m :
  rpi_tracked n /\ rpi_started n ->
  RpiGpio.timers m = RpiGpio.timers n ->
  RpiGpio.measurementTimer m = RpiGpio.measurementTimer n ->
  rpi_tracked m /\ rpi_started m.
Proof.
  intros [T S] Et Em. unfold rpi_tracked, rpi_started, RpiGpio.active_intervals.
  rewrite Et, Em. split; assumption.
Qed.

Lemma rpi_tracked_timeout cb after n :
  cb <> RpiGpio.CbStartMeasurements ->
  rpi_tracked n /\ rpi_started n ->
  rpi_tracked (RpiGpio.setTimeout cb after n) /\ rpi_started (RpiGpio.setTimeout cb after n).
Proof.
  intros Hcb [T S]. unfold rpi_tracked, rpi_started, RpiGpio.active_intervals. rpi_fields.
  split.
  - intros t Ht. rewrite filter_app in Ht. cbn in Ht. rewrite app_nil_r in Ht. apply T, Ht.
  - intros t Ht. apply in_app_or in Ht. destruct Ht as [Ht|[<-|[]]]; [apply S, Ht|exact Hcb].
Qed.

Lemma rpi_tracked_trigger throws n :
  rpi_tracked n /\ rpi_started n ->
  rpi_tracked (fst (RpiGpio.triggerMeasurement throws n))
  /\ rpi_started (fst (RpiGpio.triggerMeasurement throws n)).
Proof.
  intros I. unfold RpiGpio.triggerMeasurement.
  destruct (RpiGpio.isReading n); [exact I|].
  destruct throws; cbn [fst].
  - apply (rpi_tracked_fields n); [exact I|reflexivity|reflexivity].
  - apply rpi_tracked_timeout; [discriminate|].
    apply (rpi_tracked_fields n); [exact I|reflexivity|reflexivity].
Qed.

Lemma rpi_trigger_intervals throws n :
  let m := fst (RpiGpio.triggerMeasurement throws n) in
  RpiGpio.active_intervals m = RpiGpio.active_intervals n
  /\ RpiGpio.interval m = RpiGpio.interval n
  /\ (rpi_started n -> rpi_started m).
Proof.
  unfold RpiGpio.triggerMeasurement.
  destruct (RpiGpio.isReading n); [cbn; auto|].
  destruct throws; cbn [fst]; [cbn; auto|].
  unfold RpiGpio.active_intervals, rpi_started. rpi_fields.
  split; [rewrite filter_app; cbn; apply app_nil_r|]. split; [reflexivity|].
  intros S t Ht. apply in_app_or in Ht.
  destruct Ht as [Ht|[<-|[]]]; [apply S, Ht|discriminate].
Qed.

(** startMeasurements on a queue without periodic timer leaves one. *)
Lemma rpi_start_one throws n :
  RpiGpio.active_intervals n = [] -> rpi_started n ->
  let m := fst (RpiGpio.startMeasurements throws n) in
  rpi_one_interval m /\ rpi_started m /\ RpiGpio.interval m = RpiGpio.interval n.
Proof.
  intros E S. unfold RpiGpio.startMeasurements.
  destruct (rpi_trigger_intervals throws n) as (Ei & Ev & Es).
  destruct (RpiGpio.triggerMeasurement throws n) as [n1 outs]. cbn [fst] in *.
  rewrite E in Ei. specialize (Es S). cbv zeta.
  unfold rpi_one_interval, rpi_started, RpiGpio.active_intervals in *. rpi_fields.
  split; [|split; [|exact Ev]].
  - eexists. rewrite filter_app, Ei. cbn [filter Timers.is_interval Timers.repeat app].
    split; [reflexivity|]. rpi_fields. rewrite Ev. auto.
  - intros t Ht. apply in_app_or in Ht.
    destruct Ht as [Ht|[<-|[]]]; [apply Es, Ht|discriminate].
Qed.

Lemma rpi_one_tracked n : rpi_one_interval n -> rpi_tracked n.
Proof.
  intros (t & E & M & _) u Hu. rewrite E in Hu. destruct Hu as [<-|[]]. exact M.
Qed.

(** clearInterval on the tracked handle leaves no periodic timer. *)
Lemma rpi_tracked_clear n :
  rpi_tracked n ->
  RpiGpio.active_intervals
    match RpiGpio.measurementTimer n with
    | Some id => RpiGpio.clearInterval id n
    | None => n
    end = [].
Proof.
  intros T. unfold RpiGpio.active_intervals.
  destruct (RpiGpio.measurementTimer n) as [id|] eqn:Em; rpi_fields.
  - apply filter_none. intros x Hx. apply in_clear_iff in Hx. destruct Hx as [Hx Hne].
    destruct (Timers.is_interval x) eqn:Ex; [|reflexivity].
    assert (Hi : In x (RpiGpio.active_intervals n))
      by (apply filter_In; split; assumption).
    specialize (T x Hi). congruence.
  - apply filter_none. intros x Hx.
    destruct (Timers.is_interval x) eqn:Ex; [|reflexivity].
    assert (Hi : In x (RpiGpio.active_intervals n))
      by (apply filter_In; split; assumption).
    specialize (T x Hi). congruence.
Qed.

Lemma rpi_started_clear id n : rpi_started n -> rpi_started (RpiGpio.clearInterval id n).
Proof.
  intros S t Ht. rpi_fields. apply in_clear in Ht. apply S, Ht.
Qed.

Lemma rpi_tracked_stop n :
  rpi_tracked n -> rpi_started n ->
  let m := match RpiGpio.measurementTimer n with
           | Some id => RpiGpio.set_measurementTimer None (RpiGpio.clearInterval id n)
           | None => n
           end in
  RpiGpio.active_intervals m = [] /\ RpiGpio.measurementTimer m = None
  /\ rpi_started m /\ RpiGpio.interval m = RpiGpio.interval n.
Proof.
  intros T S. pose proof (rpi_tracked_clear n T) as C.
  destruct (RpiGpio.measurementTimer n) as [id|] eqn:Em; cbv zeta.
  - split; [exact C|]. split; [reflexivity|]. split; [|reflexivity].
    apply (rpi_started_clear id n S).
  - auto.
Qed.

Lemma rpi_none_tracked n : RpiGpio.active_intervals n = [] -> rpi_tracked n.
Proof. intros E t Ht. rewrite E in Ht. destruct Ht. Qed.

Lemma rpi_tracked_input p throws n :
  rpi_tracked n /\ rpi_started n ->
  rpi_tracked (fst (RpiGpio.on_input p throws n))
  /\ rpi_started (fst (RpiGpio.on_input p throws n)).
Proof.
  intros I. unfold RpiGpio.on_input. destruct p as [x|[|]|]; try exact I.
  - destruct (String.eqb x "trigger"); [apply rpi_tracked_trigger, I|].
    destruct (String.eqb x "start").
    + destruct I as [T S].
      destruct (rpi_start_one throws
                  match RpiGpio.measurementTimer n with
                  | Some id => RpiGpio.clearInterval id n
                  | None => n
                  end (rpi_tracked_clear n T)) as (O & S' & _).
      { destruct (RpiGpio.measurementTimer n); [apply rpi_started_clear, S|exact S]. }
      split; [apply rpi_one_tracked, O|exact S'].
    + destruct (String.eqb x "stop"); [|exact I]. cbn [fst]. destruct I as [T S].
      destruct (rpi_tracked_stop n T S) as (E & _ & S' & _).
      split; [apply rpi_none_tracked, E|exact S'].
  - apply rpi_tracked_trigger, I.
Qed.

Lemma rpi_tracked_fire id throws n :
  rpi_tracked n /\ rpi_started n ->
  rpi_tracked (fst (RpiGpio.fire id throws n))
  /\ rpi_started (fst (RpiGpio.fire id throws n)).
Proof.
  intros I. unfold RpiGpio.fire.
  destruct (Timers.find id (RpiGpio.timers n)) as [t|] eqn:Ef; [|exact I].
  destruct (Timers.due t <=? RpiGpio.clock n); [|exact I].
  destruct (find_some_tid _ _ _ Ef) as [Htid Hin].
  set (m := RpiGpio.set_timers (Timers.fired (RpiGpio.clock n) t (RpiGpio.timers n)) n).
  assert (Im : rpi_tracked m /\ rpi_started m).
  { destruct I as [T S]. unfold rpi_tracked, rpi_started, RpiGpio.active_intervals, m. rpi_fields.
    split.
    - intros u Hu. apply filter_In in Hu. destruct Hu as [Hu Hi].
      unfold Timers.fired in Hu. destruct (Timers.repeat t) as [period|].
      + apply in_map_iff in Hu. destruct Hu as (w & Ew & Hw).
        assert (Eu : Timers.tid u = Timers.tid w /\ Timers.is_interval w = Timers.is_interval u).
        { destruct (Nat.eqb (Timers.tid w) (Timers.tid t)); subst u; split; reflexivity. }
        destruct Eu as [Et Ei]. rewrite Et. apply T, filter_In. split; [exact Hw|congruence].
      + apply in_clear in Hu. apply T, filter_In. split; assumption.
    - intros u Hu. destruct (in_fired_before _ _ _ _ Hu) as (w & Hw & _ & Ec).
      rewrite <- Ec. apply S, Hw. }
  pose proof (proj2 I t Hin) as Hcb.
  destruct (Timers.callback t); cbn [RpiGpio.run_callback].
  - contradiction Hcb; reflexivity.
  - apply rpi_tracked_trigger, Im.
  - exact Im.
  - unfold RpiGpio.safety_timeout. destruct (RpiGpio.isReading m); [|exact Im].
    apply (rpi_tracked_fields m); [exact Im|reflexivity|reflexivity].
Qed.

Lemma rpi_tracked_dispatch t e n :
  rpi_tracked n /\ rpi_started n ->
  rpi_tracked (fst (RpiGpio.dispatch t e n))
  /\ rpi_started (fst (RpiGpio.dispatch t e n)).
Proof.
  intros I.
  assert (I0 : rpi_tracked (RpiGpio.set_clock t n) /\ rpi_started (RpiGpio.set_clock t n))
    by (apply (rpi_tracked_fields n); [exact I|reflexivity|reflexivity]).
  unfold RpiGpio.dispatch. cbv zeta. set (m := RpiGpio.set_clock t n) in *. clearbody m.
  assert (Same : forall k, RpiGpio.timers k = RpiGpio.timers m ->
                           RpiGpio.measurementTimer k = RpiGpio.measurementTimer m ->
                           rpi_tracked k /\ rpi_started k)
    by (intros k; apply rpi_tracked_fields, I0).
  assert (High : forall err, rpi_tracked (fst (RpiGpio.on_write_high err m))
                             /\ rpi_started (fst (RpiGpio.on_write_high err m))).
  { intros [msg|]; cbn [RpiGpio.on_write_high fst]; [apply Same; reflexivity|].
    apply rpi_tracked_timeout; [discriminate|exact I0]. }
  assert (Low : forall err, rpi_tracked (fst (RpiGpio.on_write_low err m))
                            /\ rpi_started (fst (RpiGpio.on_write_low err m))).
  { intros [msg|]; cbn [RpiGpio.on_write_low fst]; [apply Same; reflexivity|exact I0]. }
  assert (Close : forall c, rpi_tracked (fst (RpiGpio.on_close c m))
                            /\ rpi_started (fst (RpiGpio.on_close c m))).
  { intros c. unfold RpiGpio.on_close. cbn [fst]. destruct I0 as [T S].
    destruct (rpi_tracked_stop m T S) as (E & _ & S' & _).
    split; [apply rpi_none_tracked, E|exact S']. }
  destruct e as [err|err|channel value hr now|err|err|id throws|p throws|c];
    destruct (RpiGpio.setup m); try exact I0;
    try apply High; try apply Low; try apply Close;
    try (apply rpi_tracked_fire, I0); try (apply rpi_tracked_input, I0).
  - destruct err; apply Same; reflexivity.
  - destruct err; apply Same; reflexivity.
  - unfold RpiGpio.on_change.
    destruct ((channel =? RpiGpio.echoPin m) && RpiGpio.isReading m); [|exact I0].
    destruct value; cbn [fst]; [apply Same; reflexivity|].
    destruct (RpiGpio.startTime m); [|exact I0].
    destruct (Js.truthy (Some z)); [|exact I0].
    apply Same; reflexivity.
Qed.

Lemma rpi_tracked_run trace : forall n,
  rpi_tracked n /\ rpi_started n ->
  rpi_tracked (fst (RpiGpio.run trace n)) /\ rpi_started (fst (RpiGpio.run trace n)).
Proof.
  induction trace as [|[t e] rest IH]; intros n I; [exact I|].
  cbn [RpiGpio.run]. pose proof (rpi_tracked_dispatch t e n I) as I1.
  destruct (RpiGpio.dispatch t e n) as [n1 o1]. cbn [fst] in I1.
  specialize (IH n1 I1). destruct (RpiGpio.run rest n1) as [n2 o2]. exact IH.
Qed.

(** Once the delayed [startMeasurements] of the constructor has run with
    every periodic timer tracked, no later event of [src/hcsr04.js] loses
    track of one: after any events "stop" leaves no periodic timer, and
    "start" as well as "stop" followed by "start" leave exactly one, of
    the configured period, whose handle [measurementTimer] holds. *)
Theorem rpi_start_replaces_interval (trace : list (Z * RpiGpio.event))
  (throws : option string) (n : RpiGpio.node) :
  rpi_tracked n -> rpi_started n ->
  let m := fst (RpiGpio.run trace n) in
  rpi_tracked m
  /\ RpiGpio.active_intervals (fst (RpiGpio.on_input (PStr "stop") None m)) = []
  /\ RpiGpio.measurementTimer (fst (RpiGpio.on_input (PStr "stop") None m)) = None
  /\ rpi_one_interval (fst (RpiGpio.on_input (PStr "start") throws m))
  /\ rpi_one_interval (rpi_stop_start throws m).
Proof.
  intros T S m. destruct (rpi_tracked_run trace n (conj T S)) as [Tm Sm]. fold m in Tm, Sm.
  clearbody m. split; [exact Tm|].
  destruct (rpi_tracked_stop m Tm Sm) as (E & M & S' & Ev).
  assert (Start : forall k, rpi_tracked k -> rpi_started k ->
                            rpi_one_interval (fst (RpiGpio.on_input (PStr "start") throws k))).
  { intros k Tk Sk. unfold RpiGpio.on_input. cbn [String.eqb Ascii.eqb Bool.eqb].
    apply rpi_start_one; [apply rpi_tracked_clear, Tk|].
    destruct (RpiGpio.measurementTimer k); [apply rpi_started_clear, Sk|exact Sk]. }
  split; [exact E|]. split; [exact M|]. split; [apply Start; assumption|].
  unfold rpi_stop_start. apply Start.
  - apply rpi_none_tracked. exact E.
  - exact S'.
Qed.

Lemma sysfs_tracked_fields s m :
  sysfs_tracked s /\ sysfs_started s ->
  Sysfs.timers m = Sysfs.timers s ->
  Sysfs.measurementTimer m = Sysfs.measurementTimer s ->
  sysfs_tracked m /\ sysfs_started m.
Proof.
  intros [T S] Et Em. unfold sysfs_tracked, sysfs_started, Sysfs.active_intervals.
  rewrite Et, Em. split; assumption.
Qed.

Lemma sysfs_tracked_schedule cb after period s :
  cb <> Sysfs.CbStartMeasurements -> cb <> Sysfs.CbTick ->
  sysfs_tracked s /\ sysfs_started s ->
  sysfs_tracked (fst (Sysfs.schedule cb after period s))
  /\ sysfs_started (fst (Sysfs.schedule cb after period s)).
Proof.
  intros Hcb Htick [T S]. unfold sysfs_tracked, sysfs_started, Sysfs.active_intervals.
  sysfs_fields. split.
  - intros t Ht. rewrite filter_app in Ht. cbn [filter Timers.callback] in Ht.
    destruct cb; try (contradiction Htick; reflexivity);
      rewrite app_nil_r in Ht; apply T, Ht.
  - intros t Ht. apply in_app_or in Ht. destruct Ht as [Ht|[<-|[]]]; [apply S, Ht|exact Hcb].
Qed.

Lemma sysfs_intervals_schedule cb after period s :
  cb <> Sysfs.CbTick ->
  Sysfs.active_intervals (fst (Sysfs.schedule cb after period s)) = Sysfs.active_intervals s.
Proof.
  intros Htick. unfold Sysfs.active_intervals. sysfs_fields.
  rewrite filter_app. cbn [filter Timers.callback].
  destruct cb; try (contradiction Htick; reflexivity); apply app_nil_r.
Qed.

Lemma sysfs_started_schedule cb after period s :
  cb <> Sysfs.CbStartMeasurements ->
  sysfs_started s -> sysfs_started (fst (Sysfs.schedule cb after period s)).
Proof.
  intros Hcb S t Ht. sysfs_fields. apply in_app_or in Ht.
  destruct Ht as [Ht|[<-|[]]]; [apply S, Ht|exact Hcb].
Qed.

Lemma sysfs_trigger_intervals f s :
  let m := fst (Sysfs.triggerMeasurement f s) in
  Sysfs.active_intervals m = Sysfs.active_intervals s
  /\ Sysfs.interval m = Sysfs.interval s
  /\ Sysfs.measurementTimer m = Sysfs.measurementTimer s
  /\ (sysfs_started s -> sysfs_started m).
Proof.
  unfold Sysfs.triggerMeasurement.
  destruct (Sysfs.isReading s || negb (Sysfs.isInitialized s)); [cbn; auto|].
  destruct (Sysfs.write f); cbn [Sysfs.writeGpio fst]; [cbn; auto|].
  unfold Sysfs.setTimeout.
  rewrite !sysfs_intervals_schedule by discriminate.
  split; [reflexivity|]. split; [reflexivity|]. split; [reflexivity|].
  intros S. apply sysfs_started_schedule; [discriminate|].
  apply sysfs_started_schedule; [discriminate|]. exact S.
Qed.

Lemma sysfs_tracked_trigger f s :
  sysfs_tracked s /\ sysfs_started s ->
  sysfs_tracked (fst (Sysfs.triggerMeasurement f s))
  /\ sysfs_started (fst (Sysfs.triggerMeasurement f s)).
Proof.
  intros [T S]. destruct (sysfs_trigger_intervals f s) as (Ei & _ & Em & Es).
  split; [|apply Es, S]. unfold sysfs_tracked. rewrite Ei, Em. exact T.
Qed.

Lemma sysfs_start_one f s :
  Sysfs.active_intervals s = [] -> sysfs_started s ->
  let m := fst (Sysfs.startMeasurements f s) in
  sysfs_one_interval m /\ sysfs_started m /\ Sysfs.interval m = Sysfs.interval s.
Proof.
  intros E S. unfold Sysfs.startMeasurements.
  destruct (sysfs_trigger_intervals f s) as (Ei & Ev & _ & Es).
  destruct (Sysfs.triggerMeasurement f s) as [s1 outs]. cbn [fst] in *.
  rewrite E in Ei. specialize (Es S). cbv zeta.
  unfold sysfs_one_interval, sysfs_started, Sysfs.active_intervals in *. sysfs_fields.
  split; [|split; [|exact Ev]].
  - eexists. rewrite filter_app, Ei. cbn [filter Timers.callback app].
    split; [reflexivity|]. sysfs_fields. rewrite Ev. auto.
  - intros t Ht. apply in_app_or in Ht.
    destruct Ht as [Ht|[<-|[]]]; [apply Es, Ht|discriminate].
Qed.

Lemma sysfs_one_tracked s : sysfs_one_interval s -> sysfs_tracked s.
Proof.
  intros (t & E & M & _) u Hu. rewrite E in Hu. destruct Hu as [<-|[]]. exact M.
Qed.

Lemma sysfs_none_tracked s : Sysfs.active_intervals s = [] -> sysfs_tracked s.
Proof. intros E t Ht. rewrite E in Ht. destruct Ht. Qed.

Lemma sysfs_tracked_clear s :
  sysfs_tracked s ->
  Sysfs.active_intervals
    match Sysfs.measurementTimer s with
    | Some id => Sysfs.clearInterval id s
    | None => s
    end = [].
Proof.
  intros T. unfold Sysfs.active_intervals.
  destruct (Sysfs.measurementTimer s) as [id|] eqn:Em; sysfs_fields.
  - apply filter_none. intros x Hx. apply in_clear_iff in Hx. destruct Hx as [Hx Hne].
    destruct (is_tick x) eqn:Ex; [|exact Ex].
    assert (Hi : In x (Sysfs.active_intervals s))
      by (apply filter_In; split; assumption).
    specialize (T x Hi). congruence.
  - apply filter_none. intros x Hx.
    destruct (is_tick x) eqn:Ex; [|exact Ex].
    assert (Hi : In x (Sysfs.active_intervals s))
      by (apply filter_In; split; assumption).
    specialize (T x Hi). congruence.
Qed.

Lemma sysfs_started_clear id s : sysfs_started s -> sysfs_started (Sysfs.clearInterval id s).
Proof.
  intros S t Ht. sysfs_fields. apply in_clear in Ht. apply S, Ht.
Qed.

(** Clearing any handle keeps what is tracked. *)
Lemma sysfs_tracked_clear_any id s :
  sysfs_tracked s /\ sysfs_started s ->
  sysfs_tracked (Sysfs.clearInterval id s) /\ sysfs_started (Sysfs.clearInterval id s).
Proof.
  intros [T S]. split; [|apply sysfs_started_clear, S].
  intros t Ht. unfold Sysfs.active_intervals in Ht. sysfs_fields.
  apply filter_In in Ht. destruct Ht as [Ht Hc]. apply in_clear in Ht.
  apply T, filter_In. split; assumption.
Qed.

Lemma sysfs_tracked_stop s :
  sysfs_tracked s -> sysfs_started s ->
  let m := match Sysfs.measurementTimer s with
           | Some id => Sysfs.set_measurementTimer None (Sysfs.clearInterval id s)
           | None => s
           end in
  Sysfs.active_intervals m = [] /\ Sysfs.measurementTimer m = None
  /\ sysfs_started m /\ Sysfs.interval m = Sysfs.interval s.
Proof.
  intros T S. pose proof (sysfs_tracked_clear s T) as C.
  destruct (Sysfs.measurementTimer s) as [id|] eqn:Em; cbv zeta.
  - split; [exact C|]. split; [reflexivity|]. split; [|reflexivity].
    apply (sysfs_started_clear id s S).
  - auto.
Qed.

Lemma sysfs_tracked_input p f s :
  sysfs_tracked s /\ sysfs_started s ->
  sysfs_tracked (fst (Sysfs.on_input p f s))
  /\ sysfs_started (fst (Sysfs.on_input p f s)).
Proof.
  intros I. unfold Sysfs.on_input. destruct p as [x|[|]|]; try exact I.
  - destruct (String.eqb x "trigger"); [apply sysfs_tracked_trigger, I|].
    destruct (String.eqb x "start").
    + destruct I as [T S].
      destruct (sysfs_start_one f
                  match Sysfs.measurementTimer s with
                  | Some id => Sysfs.clearInterval id s
                  | None => s
                  end (sysfs_tracked_clear s T)) as (O & S' & _).
      { destruct (Sysfs.measurementTimer s); [apply sysfs_started_clear, S|exact S]. }
      split; [apply sysfs_one_tracked, O|exact S'].
    + destruct (String.eqb x "stop"); [|exact I]. cbn [fst]. destruct I as [T S].
      destruct (sysfs_tracked_stop s T S) as (E & _ & S' & _).
      split; [apply sysfs_none_tracked, E|exact S'].
  - apply sysfs_tracked_trigger, I.
Qed.

Lemma sysfs_tracked_initialize g s :
  sysfs_tracked s /\ sysfs_started s ->
  sysfs_tracked (fst (Sysfs.initialize g s)) /\ sysfs_started (fst (Sysfs.initialize g s)).
Proof.
  intros I. unfold Sysfs.initialize.
  pose proof (sysfs_initializeGpio_cases g s) as R. cbv zeta in R.
  destruct R as (_ & En & _).
  destruct (Sysfs.initializeGpio g s) as [[ok s1] outs]. cbn [fst snd] in *. subst s1.
  destruct (init_succeeds g); [|exact I].
  unfold sysfs_initialized.
  apply (sysfs_tracked_fields
           (fst (Sysfs.setInterval Sysfs.CbEchoPoll 1 (Sysfs.set_lastValue None s))));
    [|reflexivity|reflexivity].
  apply sysfs_tracked_schedule; [discriminate|discriminate|].
  apply (sysfs_tracked_fields s); [exact I|reflexivity|reflexivity].
Qed.

Lemma sysfs_poll_fields f s :
  Sysfs.timers (fst (Sysfs.echo_poll f s)) = Sysfs.timers s
  /\ Sysfs.measurementTimer (fst (Sysfs.echo_poll f s)) = Sysfs.measurementTimer s.
Proof.
  unfold Sysfs.echo_poll.
  destruct (negb (Sysfs.isReading s)); [auto|].
  destruct (Sysfs.read f) as [v|msg]; [|auto].
  destruct (Sysfs.lastValue s) as [last|]; [|auto].
  destruct (negb (String.eqb v last)); [|auto].
  destruct (String.eqb v "1" && String.eqb last "0"); [auto|].
  destruct (String.eqb v "0" && String.eqb last "1"); [|auto].
  destruct (Sysfs.startTime s); [|auto].
  destruct (Js.truthy (Some z)); auto.
Qed.

Lemma sysfs_tracked_fire id f s :
  sysfs_tracked s /\ sysfs_started s ->
  sysfs_tracked (fst (Sysfs.fire id f s))
  /\ sysfs_started (fst (Sysfs.fire id f s)).
Proof.
  intros I. unfold Sysfs.fire.
  destruct (Timers.find id (Sysfs.timers s)) as [t|] eqn:Ef; [|exact I].
  destruct (Timers.due t <=? Sysfs.clock s); [|exact I].
  destruct (find_some_tid _ _ _ Ef) as [Htid Hin].
  set (m := Sysfs.set_timers (Timers.fired (Sysfs.clock s) t (Sysfs.timers s)) s).
  assert (Im : sysfs_tracked m /\ sysfs_started m).
  { destruct I as [T S]. unfold sysfs_tracked, sysfs_started, Sysfs.active_intervals, m.
    sysfs_fields. split.
    - intros u Hu. apply filter_In in Hu. destruct Hu as [Hu Hi].
      destruct (in_fired_before _ _ _ _ Hu) as (w & Hw & Et & Ec).
      rewrite <- Et. apply T, filter_In. split; [exact Hw|]. rewrite Ec. exact Hi.
    - intros u Hu. destruct (in_fired_before _ _ _ _ Hu) as (w & Hw & _ & Ec).
      rewrite <- Ec. apply S, Hw. }
  pose proof (proj2 I t Hin) as Hcb.
  destruct (Timers.callback t); cbn [Sysfs.run_callback].
  - apply sysfs_tracked_initialize, Im.
  - contradiction Hcb; reflexivity.
  - apply sysfs_tracked_trigger, Im.
  - destruct (sysfs_poll_fields f m) as [E1 E2].
    apply (sysfs_tracked_fields m); assumption.
  - exact Im.
  - unfold Sysfs.safety_timeout. destruct (Sysfs.isReading m); [|exact Im].
    apply (sysfs_tracked_fields m); [exact Im|reflexivity|reflexivity].
Qed.

Lemma sysfs_tracked_close c s :
  sysfs_tracked s /\ sysfs_started s ->
  sysfs_tracked (fst (Sysfs.on_close c s)) /\ sysfs_started (fst (Sysfs.on_close c s)).
Proof.
  intros I. unfold Sysfs.on_close. cbn [fst].
  set (s1 := Sysfs.set_isReading false (Sysfs.set_isInitialized false s)).
  assert (I1 : sysfs_tracked s1 /\ sysfs_started s1)
    by (apply (sysfs_tracked_fields s); [exact I|reflexivity|reflexivity]).
  clearbody s1.
  assert (I2 : sysfs_tracked
                 match Sysfs.measurementTimer s1 with
                 | Some id => Sysfs.set_measurementTimer None (Sysfs.clearInterval id s1)
                 | None => s1
                 end
               /\ sysfs_started
                    match Sysfs.measurementTimer s1 with
                    | Some id => Sysfs.set_measurementTimer None (Sysfs.clearInterval id s1)
                    | None => s1
                    end).
  { destruct I1 as [T S]. destruct (sysfs_tracked_stop s1 T S) as (E & _ & S' & _).
    split; [apply sysfs_none_tracked, E|exact S']. }
  set (s2 := match Sysfs.measurementTimer s1 with
             | Some id => Sysfs.set_measurementTimer None (Sysfs.clearInterval id s1)
             | None => s1
             end) in *. clearbody s2.
  destruct (Sysfs.echoWatcher s2) as [id|]; [|exact I2].
  apply (sysfs_tracked_fields (Sysfs.clearInterval id s2)); [|reflexivity|reflexivity].
  apply sysfs_tracked_clear_any, I2.
Qed.

Lemma sysfs_tracked_dispatch t e s :
  sysfs_tracked s /\ sysfs_started s ->
  sysfs_tracked (fst (Sysfs.dispatch t e s))
  /\ sysfs_started (fst (Sysfs.dispatch t e s)).
Proof.
  intros I.
  assert (I0 : sysfs_tracked (Sysfs.set_clock t s) /\ sysfs_started (Sysfs.set_clock t s))
    by (apply (sysfs_tracked_fields s); [exact I|reflexivity|reflexivity]).
  unfold Sysfs.dispatch. cbv zeta. set (m := Sysfs.set_clock t s) in *. clearbody m.
  destruct e as [id f|p f|c].
  - apply sysfs_tracked_fire, I0.
  - apply sysfs_tracked_input, I0.
  - apply sysfs_tracked_close, I0.
Qed.

Lemma sysfs_tracked_run trace : forall s,
  sysfs_tracked s /\ sysfs_started s ->
  sysfs_tracked (fst (Sysfs.run trace s)) /\ sysfs_started (fst (Sysfs.run trace s)).
Proof.
  induction trace as [|[t e] rest IH]; intros s I; [exact I|].
  cbn [Sysfs.run]. pose proof (sysfs_tracked_dispatch t e s I) as I1.
  destruct (Sysfs.dispatch t e s) as [s1 o1]. cbn [fst] in I1.
  specialize (IH s1 I1). destruct (Sysfs.run rest s1) as [s2 o2]. exact IH.
Qed.

(** The same in [src/unnamed/part_000]: once the delayed
    [startMeasurements] has run with every measurement interval tracked,
    after any events "stop" leaves no measurement interval, and "start" as
    well as "stop" followed by "start" leave exactly one, of the configured
    period, whose handle [measurementTimer] holds. *)
Theorem sysfs_start_replaces_interval (trace : list (Z * Sysfs.event))
  (f : Sysfs.io) (s : Sysfs.node) :
  sysfs_tracked s -> sysfs_started s ->
  let m := fst (Sysfs.run trace s) in
  sysfs_tracked m
  /\ Sysfs.active_intervals (fst (Sysfs.on_input (PStr "stop") f m)) = []
  /\ Sysfs.measurementTimer (fst (Sysfs.on_input (PStr "stop") f m)) = None
  /\ sysfs_one_interval (fst (Sysfs.on_input (PStr "start") f m))
  /\ sysfs_one_interval (sysfs_stop_start f m).
Proof.
  intros T S m. destruct (sysfs_tracked_run trace s (conj T S)) as [Tm Sm]. fold m in Tm, Sm.
  clearbody m. split; [exact Tm|].
  destruct (sysfs_tracked_stop m Tm Sm) as (E & M & S' & Ev).
  assert (Start : forall k, sysfs_tracked k -> sysfs_started k ->
                            sysfs_one_interval (fst (Sysfs.on_input (PStr "start") f k))).
  { intros k Tk Sk. unfold Sysfs.on_input. cbn [String.eqb Ascii.eqb Bool.eqb].
    apply sysfs_start_one; [apply sysfs_tracked_clear, Tk|].
    destruct (Sysfs.measurementTimer k); [apply sysfs_started_clear, Sk|exact Sk]. }
  split; [exact E|]. split; [exact M|]. split; [apply Start; assumption|].
  unfold sysfs_stop_start. apply Start.
  - apply sysfs_none_tracked. exact E.
  - exact S'.
Qed.

(** ** A failed setup *)

Lemma rpi_setup_trigger throws n :
  RpiGpio.setup (fst (RpiGpio.triggerMeasurement throws n)) = RpiGpio.setup n.
Proof.
  unfold RpiGpio.triggerMeasurement. destruct (RpiGpio.isReading n); [reflexivity|].
  destruct throws; reflexivity.
Qed.

Lemma rpi_setup_start throws n :
  RpiGpio.setup (fst (RpiGpio.startMeasurements throws n)) = RpiGpio.setup n.
Proof.
  unfold RpiGpio.startMeasurements. pose proof (rpi_setup_trigger throws n) as E.
  destruct (RpiGpio.triggerMeasurement throws n) as [n1 outs]. cbn [fst] in E.
  cbv zeta. rpi_fields. exact E.
Qed.

Lemma rpi_setup_fire id throws n :
  RpiGpio.setup (fst (RpiGpio.fire id throws n)) = RpiGpio.setup n.
Proof.
  unfold RpiGpio.fire. destruct (Timers.find id (RpiGpio.timers n)) as [t|]; [|reflexivity].
  destruct (Timers.due t <=? RpiGpio.clock n); [|reflexivity].
  destruct (Timers.callback t); cbn [RpiGpio.run_callback].
  - rewrite rpi_setup_start. reflexivity.
  - rewrite rpi_setup_trigger. reflexivity.
  - reflexivity.
  - unfold RpiGpio.safety_timeout. rpi_fields.
    destruct (RpiGpio.isReading n); reflexivity.
Qed.

Lemma rpi_setup_input p throws n :
  RpiGpio.setup (fst (RpiGpio.on_input p throws n)) = RpiGpio.setup n.
Proof.
  unfold RpiGpio.on_input. destruct p as [x|[|]|]; try reflexivity.
  - destruct (String.eqb x "trigger"); [apply rpi_setup_trigger|].
    destruct (String.eqb x "start").
    { rewrite rpi_setup_start. destruct (RpiGpio.measurementTimer n); reflexivity. }
    destruct (String.eqb x "stop"); [|reflexivity].
    cbn [fst]. destruct (RpiGpio.measurementTimer n); reflexivity.
  - apply rpi_setup_trigger.
Qed.

Lemma rpi_failed_setup_dispatch t e n :
  RpiGpio.setup n = RpiGpio.SetupFailed \/ RpiGpio.setup n = RpiGpio.NoLibrary ->
  RpiGpio.setup (fst (RpiGpio.dispatch t e n)) = RpiGpio.setup n
  /\ readings (snd (RpiGpio.dispatch t e n)) = []
  /\ (RpiGpio.setup n = RpiGpio.NoLibrary -> snd (RpiGpio.dispatch t e n) = []).
Proof.
  intros H. split; [|split].
  - unfold RpiGpio.dispatch. cbv zeta.
    change (RpiGpio.setup n) with (RpiGpio.setup (RpiGpio.set_clock t n)) in *.
    set (m := RpiGpio.set_clock t n) in *. clearbody m.
    destruct H as [H|H]; rewrite H; [|exact H].
    destruct e as [err|err|channel value hr now|err|err|id throws|p throws|c];
      try exact H.
    + destruct err; cbn [RpiGpio.on_write_high fst]; rpi_fields; exact H.
    + destruct err; cbn [RpiGpio.on_write_low fst]; rpi_fields; exact H.
    + rewrite rpi_setup_fire. exact H.
    + rewrite rpi_setup_input. exact H.
    + unfold RpiGpio.on_close. cbn [fst].
      destruct (RpiGpio.measurementTimer m); exact H.
  - destruct (readings (snd (RpiGpio.dispatch t e n))) eqn:E; [reflexivity|].
    assert (N : readings (snd (RpiGpio.dispatch t e n)) <> []) by (rewrite E; discriminate).
    destruct (rpi_dispatch_readings n t e N) as (Hl & _).
    destruct H; congruence.
  - intros E. unfold RpiGpio.dispatch. cbv zeta. rpi_fields. rewrite E. reflexivity.
Qed.

(** Once [require('rpi-gpio')] or one of the two [gpio.setup] calls has
    failed, [src/hcsr04.js] never registers the 'change' listener: the
    node stays in that phase and sends no reading, whatever happens; after
    a failed [require] the constructor has returned, and nothing the node
    could react to produces any output. *)
Theorem rpi_failed_setup_never_reads (trace : list (Z * RpiGpio.event)) : forall n,
  RpiGpio.setup n = RpiGpio.SetupFailed \/ RpiGpio.setup n = RpiGpio.NoLibrary ->
  RpiGpio.setup (fst (RpiGpio.run trace n)) = RpiGpio.setup n
  /\ readings (snd (RpiGpio.run trace n)) = []
  /\ (RpiGpio.setup n = RpiGpio.NoLibrary -> snd (RpiGpio.run trace n) = []).
Proof.
  induction trace as [|[t e] rest IH]; intros n H.
  - cbn. auto.
  - cbn [RpiGpio.run].
    destruct (rpi_failed_setup_dispatch t e n H) as (E1 & R1 & L1).
    destruct (RpiGpio.dispatch t e n) as [n1 o1]. cbn [fst snd] in *.
    assert (H1 : RpiGpio.setup n1 = RpiGpio.SetupFailed \/ RpiGpio.setup n1 = RpiGpio.NoLibrary)
      by (rewrite E1; exact H).
    destruct (IH n1 H1) as (E2 & R2 & L2).
    destruct (RpiGpio.run rest n1) as [n2 o2]. cbn [fst snd] in *.
    split; [congruence|]. split; [rewrite readings_app, R1, R2; reflexivity|].
    intros E. rewrite (L1 E), L2; [reflexivity|congruence].
Qed.

(** ** The checks that compute are sound *)

Lemma rpi_tracked_check_sound n : rpi_tracked_check n = true -> rpi_tracked n.
Proof.
  unfold rpi_tracked_check. intros H t Ht.
  rewrite forallb_forall in H. specialize (H t Ht).
  destruct (RpiGpio.measurementTimer n) as [id|]; [|discriminate H].
  apply Nat.eqb_eq in H. congruence.
Qed.

Lemma rpi_started_check_sound n : rpi_started_check n = true -> rpi_started n.
Proof.
  unfold rpi_started_check. intros H t Ht.
  rewrite forallb_forall in H. specialize (H t Ht).
  destruct (Timers.callback t); [discriminate H|discriminate..].
Qed.

Lemma sysfs_tracked_check_sound s : sysfs_tracked_check s = true -> sysfs_tracked s.
Proof.
  unfold sysfs_tracked_check. intros H t Ht.
  rewrite forallb_forall in H. specialize (H t Ht).
  destruct (Sysfs.measurementTimer s) as [id|]; [|discriminate H].
  apply Nat.eqb_eq in H. congruence.
Qed.

Lemma sysfs_started_check_sound s : sysfs_started_check s = true -> sysfs_started s.
Proof.
  unfold sysfs_started_check. intros H t Ht.
  rewrite forallb_forall in H. specialize (H t Ht).
  destruct (Timers.callback t); try discriminate H; discriminate.
Qed.

Lemma sysfs_initialize_ran_check_sound s :
  sysfs_initialize_ran_check s = true -> sysfs_initialize_ran s.
Proof.
  unfold sysfs_initialize_ran_check. intros H t Ht.
  rewrite forallb_forall in H. specialize (H t Ht).
  destruct (Timers.callback t); try discriminate H; discriminate.
Qed.

(** ** The properties above, at work on the example nodes *)

Lemma rpi_reading_only_by_falling_edge_witness :
  readings (snd (RpiGpio.dispatch 104 (RpiGpio.Change 24 false 1161000 7)
                   Scenes.rpi_echoing)) <> []
  /\ RpiGpio.setup Scenes.rpi_echoing = RpiGpio.Listening
  /\ RpiGpio.isReading Scenes.rpi_echoing = true
  /\ RpiGpio.isReading
       (fst (RpiGpio.dispatch 104 (RpiGpio.Change 24 false 1161000 7)
               Scenes.rpi_echoing)) = false
  /\ exists hr now k,
       RpiGpio.Change 24 false 1161000 7
       = RpiGpio.Change (RpiGpio.echoPin Scenes.rpi_echoing) false hr now
       /\ 200 <= k <= 40000
       /\ snd (RpiGpio.dispatch 104 (RpiGpio.Change 24 false 1161000 7)
                 Scenes.rpi_echoing) = valid_measurement k now.
Proof.
  split; [vm_compute; discriminate|].
  apply (rpi_reading_only_by_falling_edge Scenes.rpi_echoing 104
           (RpiGpio.Change 24 false 1161000 7)).
  vm_compute; discriminate.
Defined.

Lemma sysfs_reading_only_by_falling_edge_witness :
  readings (snd (Sysfs.dispatch 103 (Sysfs.TimerFires 2 (sysfs_poll "0" 1161000 7))
                   Scenes.sysfs_echoing)) <> []
  /\ Sysfs.isReading Scenes.sysfs_echoing = true
  /\ Sysfs.isReading
       (fst (Sysfs.dispatch 103 (Sysfs.TimerFires 2 (sysfs_poll "0" 1161000 7))
               Scenes.sysfs_echoing)) = false
  /\ exists id f k,
       Sysfs.TimerFires 2 (sysfs_poll "0" 1161000 7) = Sysfs.TimerFires id f
       /\ (exists w, Timers.find id (Sysfs.timers Scenes.sysfs_echoing) = Some w
                     /\ Timers.callback w = Sysfs.CbEchoPoll)
       /\ sysfs_falling Scenes.sysfs_echoing f = true
       /\ 200 <= k <= 40000
       /\ snd (Sysfs.dispatch 103 (Sysfs.TimerFires 2 (sysfs_poll "0" 1161000 7))
                 Scenes.sysfs_echoing) = valid_measurement k (Sysfs.now f).
Proof.
  split; [vm_compute; discriminate|].
  apply (sysfs_reading_only_by_falling_edge Scenes.sysfs_echoing 103
           (Sysfs.TimerFires 2 (sysfs_poll "0" 1161000 7))).
  vm_compute; discriminate.
Defined.

Lemma rpi_pulse_only_from_idle_witness :
  In (GpioWrite 18 true)
     (snd (RpiGpio.dispatch 50 (RpiGpio.Input (PBool true) None) Examples.rpi_ready))
  /\ 18 = RpiGpio.triggerPin Examples.rpi_ready
  /\ rpi_began 50 Examples.rpi_ready
       (fst (RpiGpio.dispatch 50 (RpiGpio.Input (PBool true) None) Examples.rpi_ready)).
Proof.
  split; [vm_compute; left; reflexivity|].
  apply (rpi_pulse_only_from_idle Examples.rpi_ready 50 (RpiGpio.Input (PBool true) None) 18).
  vm_compute; left; reflexivity.
Defined.

Lemma sysfs_pulse_only_from_idle_witness :
  In (GpioWrite 18 true)
     (snd (Sysfs.dispatch 100 (Sysfs.Input (PStr "trigger") (Examples.reads "0" 0))
             Examples.sysfs_ready))
  /\ 18 = Sysfs.triggerPin Examples.sysfs_ready
  /\ sysfs_began 100 Examples.sysfs_ready
       (fst (Sysfs.dispatch 100 (Sysfs.Input (PStr "trigger") (Examples.reads "0" 0))
               Examples.sysfs_ready)).
Proof.
  split; [vm_compute; left; reflexivity|].
  apply (sysfs_pulse_only_from_idle Examples.sysfs_ready 100
           (Sysfs.Input (PStr "trigger") (Examples.reads "0" 0)) 18).
  vm_compute; left; reflexivity.
Defined.

Lemma rpi_in_flight_has_safety_timeout_witness :
  monotone 0 Scenes.rpi_first_measurement
  /\ rpi_handles_fresh
       (fst (RpiGpio.run Scenes.rpi_first_measurement
               (fst (RpiGpio.HCSR04Node Examples.default_config None))))
  /\ (RpiGpio.isReading
        (fst (RpiGpio.run Scenes.rpi_first_measurement
                (fst (RpiGpio.HCSR04Node Examples.default_config None)))) = true ->
      exists t,
        In t (RpiGpio.timers
                (fst (RpiGpio.run Scenes.rpi_first_measurement
                        (fst (RpiGpio.HCSR04Node Examples.default_config None)))))
        /\ Timers.callback t = RpiGpio.CbSafety
        /\ Timers.due t
           <= RpiGpio.clock
                (fst (RpiGpio.run Scenes.rpi_first_measurement
                        (fst (RpiGpio.HCSR04Node Examples.default_config None)))) + 100).
Proof.
  split; [vm_compute; intuition discriminate|].
  apply (rpi_in_flight_has_safety_timeout Examples.default_config None
           Scenes.rpi_first_measurement).
  vm_compute; intuition discriminate.
Defined.

Lemma sysfs_in_flight_has_safety_timeout_witness :
  monotone 0 Scenes.sysfs_first_measurement
  /\ sysfs_handles_fresh
       (fst (Sysfs.run Scenes.sysfs_first_measurement
               (Sysfs.HCSR04Node Examples.default_config)))
  /\ (Sysfs.isReading
        (fst (Sysfs.run Scenes.sysfs_first_measurement
                (Sysfs.HCSR04Node Examples.default_config))) = true ->
      exists t,
        In t (Sysfs.timers
                (fst (Sysfs.run Scenes.sysfs_first_measurement
                        (Sysfs.HCSR04Node Examples.default_config))))
        /\ Timers.callback t = Sysfs.CbSafety
        /\ Timers.due t
           <= Sysfs.clock
                (fst (Sysfs.run Scenes.sysfs_first_measurement
                        (Sysfs.HCSR04Node Examples.default_config))) + 100).
Proof.
  split; [vm_compute; intuition discriminate|].
  apply (sysfs_in_flight_has_safety_timeout Examples.default_config
           Scenes.sysfs_first_measurement).
  vm_compute; intuition discriminate.
Defined.


Lemma sysfs_out_of_service_forever_witness :
  sysfs_out_of_service Scenes.sysfs_init_failed
  /\ sysfs_out_of_service (fst (Sysfs.run Scenes.sysfs_later Scenes.sysfs_init_failed))
  /\ inert (snd (Sysfs.run Scenes.sysfs_later Scenes.sysfs_init_failed)).
Proof.
  assert (H : sysfs_out_of_service Scenes.sysfs_init_failed).
  { split; [vm_compute; reflexivity|]. split; [vm_compute; reflexivity|].
    apply sysfs_initialize_ran_check_sound. vm_compute. reflexivity. }
  split; [exact H|].
  apply (sysfs_out_of_service_forever Scenes.sysfs_later Scenes.sysfs_init_failed H).
Defined.

Lemma sysfs_close_is_final_witness :
  sysfs_initialize_ran Examples.sysfs_busy
  /\ sysfs_out_of_service (fst (Sysfs.on_close Scenes.close_ok Examples.sysfs_busy))
  /\ silent
       (snd (Sysfs.run
               (sysfs_timer_trace [ (101, 3%nat, Examples.reads "1" 0);
                                    (200, 4%nat, Examples.reads "1" 0) ])
               (fst (Sysfs.on_close Scenes.close_ok Examples.sysfs_busy)))).
Proof.
  assert (H : sysfs_initialize_ran Examples.sysfs_busy).
  { apply sysfs_initialize_ran_check_sound. vm_compute. reflexivity. }
  split; [exact H|].
  apply (sysfs_close_is_final Scenes.close_ok Examples.sysfs_busy
           [ (101, 3%nat, Examples.reads "1" 0); (200, 4%nat, Examples.reads "1" 0) ] H).
Defined.

Lemma rpi_start_replaces_interval_witness :
  (rpi_tracked Examples.rpi_busy /\ rpi_started Examples.rpi_busy)
  /\ rpi_tracked (fst (RpiGpio.run Examples.rpi_no_echo Examples.rpi_busy))
  /\ RpiGpio.active_intervals
       (fst (RpiGpio.on_input (PStr "stop") None
               (fst (RpiGpio.run Examples.rpi_no_echo Examples.rpi_busy)))) = []
  /\ RpiGpio.measurementTimer
       (fst (RpiGpio.on_input (PStr "stop") None
               (fst (RpiGpio.run Examples.rpi_no_echo Examples.rpi_busy)))) = None
  /\ rpi_one_interval
       (fst (RpiGpio.on_input (PStr "start") None
               (fst (RpiGpio.run Examples.rpi_no_echo Examples.rpi_busy))))
  /\ rpi_one_interval
       (rpi_stop_start None (fst (RpiGpio.run Examples.rpi_no_echo Examples.rpi_busy))).
Proof.
  assert (T : rpi_tracked Examples.rpi_busy).
  { apply rpi_tracked_check_sound. vm_compute. reflexivity. }
  assert (S : rpi_started Examples.rpi_busy).
  { apply rpi_started_check_sound. vm_compute. reflexivity. }
  split; [split; assumption|].
  apply (rpi_start_replaces_interval Examples.rpi_no_echo None Examples.rpi_busy T S).
Defined.

Lemma sysfs_start_replaces_interval_witness :
  (sysfs_tracked Examples.sysfs_busy /\ sysfs_started Examples.sysfs_busy)
  /\ sysfs_tracked (fst (Sysfs.run Examples.sysfs_no_echo Examples.sysfs_busy))
  /\ Sysfs.active_intervals
       (fst (Sysfs.on_input (PStr "stop") (Examples.reads "0" 0)
               (fst (Sysfs.run Examples.sysfs_no_echo Examples.sysfs_busy)))) = []
  /\ Sysfs.measurementTimer
       (fst (Sysfs.on_input (PStr "stop") (Examples.reads "0" 0)
               (fst (Sysfs.run Examples.sysfs_no_echo Examples.sysfs_busy)))) = None
  /\ sysfs_one_interval
       (fst (Sysfs.on_input (PStr "start") (Examples.reads "0" 0)
               (fst (Sysfs.run Examples.sysfs_no_echo Examples.sysfs_busy))))
  /\ sysfs_one_interval
       (sysfs_stop_start (Examples.reads "0" 0)
          (fst (Sysfs.run Examples.sysfs_no_echo Examples.sysfs_busy))).
Proof.
  assert (T : sysfs_tracked Examples.sysfs_busy).
  { apply sysfs_tracked_check_sound. vm_compute. reflexivity. }
  assert (S : sysfs_started Examples.sysfs_busy).
  { apply sysfs_started_check_sound. vm_compute. reflexivity. }
  split; [split; assumption|].
  apply (sysfs_start_replaces_interval Examples.sysfs_no_echo (Examples.reads "0" 0)
           Examples.sysfs_busy T S).
Defined.

Lemma rpi_failed_setup_never_reads_witness :
  (RpiGpio.setup Scenes.rpi_setup_failed = RpiGpio.SetupFailed
   \/ RpiGpio.setup Scenes.rpi_setup_failed = RpiGpio.NoLibrary)
  /\ RpiGpio.setup (fst (RpiGpio.run Scenes.rpi_later Scenes.rpi_setup_failed))
     = RpiGpio.setup Scenes.rpi_setup_failed
  /\ readings (snd (RpiGpio.run Scenes.rpi_later Scenes.rpi_setup_failed)) = []
  /\ (RpiGpio.setup Scenes.rpi_setup_failed = RpiGpio.NoLibrary ->
      snd (RpiGpio.run Scenes.rpi_later Scenes.rpi_setup_failed) = []).
Proof.
  split; [left; vm_compute; reflexivity|].
  apply (rpi_failed_setup_never_reads Scenes.rpi_later Scenes.rpi_setup_failed).
  left; vm_compute; reflexivity.
Defined.

(** ** A whole measurement cycle *)






(** *** [src/hcsr04.js] *)









(** *** [src/unnamed/part_000] *)














(** C1 fails on the code: the safety timeout of a measurement is never
    cancelled, so after a measurement that ended with a reading it stays
    pending until 100 ms after that measurement's trigger.  When the next
    measurement is begun before then, the old timeout fires during it,
    finds [isReading] set and resets it: the new measurement is reported
    as "timeout" 5 ms after its trigger instead of 100 ms, and its echo of
    9 ms, a distance of 154.64 cm, is dropped.  Without that old timeout
    the same events send the reading.  Both variants. *)
Theorem C1_stale_timeout_drops_reading :
  let n1 := fst (RpiGpio.run Cycles.rpi_first Examples.rpi_ready) in
  let s1 := fst (Sysfs.run Cycles.sysfs_first Examples.sysfs_ready) in
  (2 <= 9000 / 2 / (291 # 10) /\ 9000 / 2 / (291 # 10) <= 400)%Q
  /\ Spec.valid (Spec.distanceCm (Spec.duration_us (14000000 - 5000000))) = true
  /\ RpiGpio.isReading n1 = false
  /\ map (fun t => (Timers.callback t, Timers.due t)) (RpiGpio.timers n1)
     = [ (RpiGpio.CbSafety, 200); (RpiGpio.CbTick, 1100) ]
  /\ readings (snd (RpiGpio.run (Cycles.rpi_second true) n1)) = []
  /\ statuses (snd (RpiGpio.run (Cycles.rpi_second true) n1)) = [ timeout_status ]
  /\ readings (snd (RpiGpio.run (Cycles.rpi_second false) n1))
     = [ Send {| payload := 154.64; topic := "distance"; unit := "cm";
                 timestamp := 9 |} ]
  /\ Sysfs.isReading s1 = false
  /\ readings (snd (Sysfs.run (Cycles.sysfs_second true) s1)) = []
  /\ statuses (snd (Sysfs.run (Cycles.sysfs_second true) s1)) = [ timeout_status ]
  /\ readings (snd (Sysfs.run (Cycles.sysfs_second false) s1))
     = [ Send {| payload := 154.64; topic := "distance"; unit := "cm";
                 timestamp := 9 |} ].
Proof.
  vm_compute. repeat split; try reflexivity; intros K; discriminate K.
Qed.

(** C9 fails on the code.  The failure of a write is reported through
    [node.error] and reaches no status, although the catch block of the
    same triggerMeasurement sets the status "trigger failed" for the
    exception of the same call: in [src/hcsr04.js] the callback of the
    write resets [isReading] and returns, in [src/unnamed/part_000]
    writeGpio catches the exception itself, so that the catch block never
    runs.  And in [src/unnamed/part_000] the result of the write that ends
    the pulse is not looked at: when it fails the measurement is not
    aborted, and the echo that follows is sent as a reading, where
    [src/hcsr04.js] resets [isReading] and sends nothing. *)
Theorem C9_write_failure_reaches_no_status :
  let high := RpiGpio.dispatch 101 (RpiGpio.WriteHighDone (Some "EIO"%string))
                Examples.rpi_busy in
  let thrown := RpiGpio.triggerMeasurement (Some "EIO"%string) Examples.rpi_ready in
  let caught := Sysfs.dispatch 100 (Sysfs.TimerFires 1 (Examples.write_fails "EIO"))
                  Examples.sysfs_ready in
  let low := Sysfs.run Cycles.sysfs_low_fails Examples.sysfs_busy in
  let low' := RpiGpio.run Cycles.rpi_low_fails Examples.rpi_busy in
  (RpiGpio.isReading (fst high) = false
   /\ snd high = [ Error "Failed to write HIGH to trigger: EIO" ]
   /\ statuses (snd high) = [])
  /\ snd thrown
     = [ Error "Failed to trigger measurement: EIO";
         Status {| sfill := Red; sshape := Ring; text := "trigger failed" |} ]
  /\ (Sysfs.isReading (fst caught) = false
      /\ snd caught = [ Error "GPIO write error on pin 18: EIO" ]
      /\ statuses (snd caught) = [])
  /\ (Sysfs.isReading
        (fst (Sysfs.dispatch 101 (Sysfs.TimerFires 3 (Examples.write_fails "EIO"))
                Examples.sysfs_busy)) = true
      /\ snd low
         = [ Error "GPIO write error on pin 18: EIO";
             Send {| payload := 19.93; topic := "distance"; unit := "cm";
                     timestamp := 7 |};
             Status {| sfill := Green; sshape := Dot; text := "19.93 cm" |} ])
  /\ (RpiGpio.isReading (fst low') = false
      /\ snd low'
         = [ GpioWrite 18 false; Error "Failed to write LOW to trigger: EIO" ]).
Proof. vm_compute. repeat split; reflexivity. Qed.
